(** * Appointment-slot checker: slot identity, parsing, history and diffing

    A shallow embedding of [src/slot_checker.py], of the two date
    conversions of [src/workflow.py] and of the slot listing built by
    [src/notifications.py], together with the properties the design
    document states about them.

    Python values are dynamically typed.  Where the code inspects raw
    JSON (the parser, the history file) values are modelled by [pyval];
    where it works on [AppointmentSlot] objects the declared field types
    of the dataclass are used.  Python [str] values are modelled by
    [string], read as the UTF-8 bytes of the text: content equality is
    byte equality, and code-point order is byte-wise lexicographic
    order. *)

From Stdlib Require Import ZArith Lia Bool Ascii.
From Stdlib Require Import Floats.PrimFloat.
From stdpp Require Import base strings list gmap sorting pretty.

Set Warnings "-clear-no-such-hyp".

Local Open Scope string_scope.
Local Open Scope list_scope.
Local Open Scope Z_scope.

(** ** The proleptic Gregorian calendar of Python's [datetime.date]

    [epic_date_to_int] and [int_to_epic_date] are one-line wrappers around
    [date.__sub__] and [date.__add__] of the standard library.  The
    definitions below follow the library's [_ymd2ord] and [_ord2ymd]. *)

Module PyDate.

Record date := mkdate { year : Z; month : Z; day : Z }.

Definition _MAXORDINAL : Z := 3652059.

Definition _DAYS_IN_MONTH : list Z :=
  [-1; 31; 28; 31; 30; 31; 30; 31; 31; 30; 31; 30; 31].

Definition _DAYS_BEFORE_MONTH : list Z :=
  [-1; 0; 31; 59; 90; 120; 151; 181; 212; 243; 273; 304; 334].

(** List indexing at a non-negative index. *)
Definition at_index (l : list Z) (i : Z) : Z := nth (Z.to_nat i) l 0.

Definition _is_leap (y : Z) : bool :=
  (y mod 4 =? 0) && (negb (y mod 100 =? 0) || (y mod 400 =? 0)).

Definition _days_before_year (y0 : Z) : Z :=
  let y := y0 - 1 in y * 365 + y / 4 - y / 100 + y / 400.

Definition _days_before_month (y m : Z) : Z :=
  at_index _DAYS_BEFORE_MONTH m + Z.b2z ((2 <? m) && _is_leap y).

Definition _ymd2ord (y m d : Z) : Z :=
  _days_before_year y + _days_before_month y m + d.

Definition _DI400Y : Z := Eval cbv in _days_before_year 401.
Definition _DI100Y : Z := Eval cbv in _days_before_year 101.
Definition _DI4Y : Z := Eval cbv in _days_before_year 5.

(** The tail of [_ord2ymd]: month and day from the day-of-year offset
    [n] (0-based) and the leap flag. *)
Definition month_day (n : Z) (leapyear : bool) : Z * Z :=
  let month := Z.shiftr (n + 50) 5 in
  let preceding :=
    at_index _DAYS_BEFORE_MONTH month + Z.b2z ((2 <? month) && leapyear) in
  if n <? preceding then
    let month := month - 1 in
    let preceding :=
      preceding
      - (at_index _DAYS_IN_MONTH month + Z.b2z ((month =? 2) && leapyear)) in
    (month, n - preceding + 1)
  else (month, n - preceding + 1).

Definition _ord2ymd (ordinal : Z) : date :=
  let n := ordinal - 1 in
  let n400 := n / _DI400Y in
  let n := n mod _DI400Y in
  let year := n400 * 400 + 1 in
  let n100 := n / _DI100Y in
  let n := n mod _DI100Y in
  let n4 := n / _DI4Y in
  let n := n mod _DI4Y in
  let n1 := n / 365 in
  let n := n mod 365 in
  let year := year + (n100 * 100 + n4 * 4 + n1) in
  if (n1 =? 4) || (n100 =? 4) then mkdate (year - 1) 12 31
  else
    let leapyear := (n1 =? 3) && (negb (n4 =? 24) || (n100 =? 3)) in
    let '(m, d) := month_day n leapyear in
    mkdate year m d.

Definition toordinal (d : date) : Z := _ymd2ord (year d) (month d) (day d).

Definition fromordinal (n : Z) : date := _ord2ymd n.

(** [timedelta(days=n)]: the constructor refuses more than 999999999
    days in either direction with an [OverflowError]. *)
Definition timedelta_days (n : Z) : option Z :=
  if Z.abs n <=? 999999999 then Some n else None.

(** [d + timedelta(days=n)]; [None] stands for [OverflowError]. *)
Definition add_days (d : date) (n : Z) : option date :=
  match timedelta_days n with
  | None => None
  | Some n =>
      let o := toordinal d + n in
      if (0 <? o) && (o <=? _MAXORDINAL) then Some (fromordinal o) else None
  end.

(** [(d1 - d2).days] *)
Definition sub_days (d1 d2 : date) : Z := toordinal d1 - toordinal d2.

End PyDate.

(** ** [config.py] *)

Definition EPIC_DATE_EPOCH_YEAR : Z := 1840.
Definition EPIC_DATE_EPOCH_MONTH : Z := 12.
Definition EPIC_DATE_EPOCH_DAY : Z := 31.

(** ** [workflow.py]: the two date conversions *)

Definition epoch : PyDate.date :=
  PyDate.mkdate EPIC_DATE_EPOCH_YEAR EPIC_DATE_EPOCH_MONTH EPIC_DATE_EPOCH_DAY.

Definition epic_date_to_int (d : PyDate.date) : Z := PyDate.sub_days d epoch.

(** [None] stands for the [OverflowError] of a result outside year 1..9999. *)
Definition int_to_epic_date (epic_int : Z) : option PyDate.date :=
  PyDate.add_days epoch epic_int.

(** Every day-of-year offset is sent to the month and day that count
    back to it; checked by running through the 365 offsets
    [_ord2ymd] can pass (the last day of a leap year takes the early return). *)
Definition month_day_ok (leap : bool) (n : Z) : bool :=
  let '(m, d) := PyDate.month_day n leap in
  (PyDate.at_index PyDate._DAYS_BEFORE_MONTH m + Z.b2z ((2 <? m) && leap) + d =? n + 1)
  && (1 <=? m) && (m <=? 12) && (1 <=? d) && (d <=? 31).


(** [date.isoformat()]: ["%04d-%02d-%02d"], for the non-negative numbers
    a date holds. *)
Definition zero_pad (width : nat) (n : Z) : string :=
  let s := pretty n in
  String.concat "" (replicate (width - String.length s) "0") +:+ s.

Definition isoformat (d : PyDate.date) : string :=
  zero_pad 4 (PyDate.year d) +:+ "-" +:+ zero_pad 2 (PyDate.month d)
  +:+ "-" +:+ zero_pad 2 (PyDate.day d).

(** ** Python values and exceptions

    The values [json.load] and [response.json()] produce.  A [dict] is
    kept as its items in insertion order, keys pairwise distinct. *)

#[local] Unset Elimination Schemes.
Inductive pyval : Type :=
| PNone
| PBool (b : bool)
| PInt (n : Z)
| PFloat (f : float)
| PStr (s : string)
| PList (items : list pyval)
| PDict (items : list (string * pyval)).
#[local] Set Elimination Schemes.

Inductive exn : Type :=
| AttributeError
| TypeError
| OverflowError
| JSONDecodeError
| IOError
| UnicodeDecodeError
| RecursionError
| ValueError.

Inductive result (A : Type) : Type :=
| Ok (a : A)
| Raise (e : exn).
Arguments Ok {A} a.
Arguments Raise {A} e.

Definition bind {A B} (r : result A) (k : A -> result B) : result B :=
  match r with
  | Ok a => k a
  | Raise e => Raise e
  end.

Notation "x <- r ;; k" := (bind r (fun x => k))
  (at level 100, r at next level, right associativity).

(** [bool(v)] *)
Definition truthy (v : pyval) : bool :=
  match v with
  | PNone => false
  | PBool b => b
  | PInt n => negb (n =? 0)
  | PFloat f => negb (PrimFloat.eqb f PrimFloat.zero)
  | PStr s => negb (String.eqb s "")
  | PList l => match l with [] => false | _ :: _ => true end
  | PDict d => match d with [] => false | _ :: _ => true end
  end.

(** [a or b]: [b] is only looked at when [a] is falsy. *)
Definition py_or (a b : result pyval) : result pyval :=
  v <- a ;; if truthy v then Ok v else b.

Notation "a `or` b" := (py_or a b) (at level 60, right associativity).

Fixpoint dict_lookup (k : string) (d : list (string * pyval)) : option pyval :=
  match d with
  | [] => None
  | (k', v) :: d' => if String.eqb k k' then Some v else dict_lookup k d'
  end.

(** [v.get(k, default)]; only a [dict] has the method. *)
Definition py_get_default (v : pyval) (k : string) (default : pyval) : result pyval :=
  match v with
  | PDict d => Ok (from_option id default (dict_lookup k d))
  | _ => Raise AttributeError
  end.

(** [v.get(k)] *)
Definition py_get (v : pyval) (k : string) : result pyval :=
  py_get_default v k PNone.

(** [isinstance(v, int)]; [bool] is a subclass of [int]. *)
Definition isinstance_int (v : pyval) : bool :=
  match v with
  | PInt _ | PBool _ => true
  | _ => false
  end.

Definition int_value (v : pyval) : Z :=
  match v with
  | PInt n => n
  | PBool b => Z.b2z b
  | _ => 0
  end.

Fixpoint chars (s : string) : list pyval :=
  match s with
  | EmptyString => []
  | String c s' => PStr (String c EmptyString) :: chars s'
  end.

(** The items a [for] loop over [v] visits: the elements of a list, the
    keys of a dict, the characters of a string; other values are not
    iterable. *)
Definition py_iter (v : pyval) : result (list pyval) :=
  match v with
  | PList l => Ok l
  | PDict d => Ok (map (fun kv => PStr (fst kv)) d)
  | PStr s => Ok (chars s)
  | _ => Raise TypeError
  end.

(** A loop that stops at the first item that raises. *)
Fixpoint traverse {A B} (f : A -> result B) (xs : list A) : result (list B) :=
  match xs with
  | [] => Ok []
  | x :: rest =>
      y <- f x ;;
      more <- traverse f rest ;;
      Ok (y :: more)
  end.

(** The decimal text of an integer.  CPython refuses the conversion with
    a [ValueError] when the text is longer than 640 characters and has
    more digits than [sys.get_int_max_str_digits()] allows (4300 unless
    changed; 0 switches the limit off). *)
Definition int_repr (max_str_digits : nat) (n : Z) : result string :=
  let s := pretty n in
  if (640 <? String.length s)%nat && (0 <? max_str_digits)%nat
     && (max_str_digits <? String.length (pretty (Z.abs n)))%nat
  then Raise ValueError
  else Ok s.

(** [str(v)] and [repr(v)].  The text Python prints for a float and the
    quoted form of a string are left to the two parameters.  [repr]
    enters one level of the interpreter's recursion for every value it
    prints and raises [RecursionError] when none is left; [repr_depth]
    is the number of levels left when [str()] is called. *)
Section text.
Variable float_repr : float -> string.
Variable str_repr : string -> string.
Variable max_str_digits : nat.
Variable repr_depth : nat.

Definition join (sep : string) (l : list string) : string := String.concat sep l.

Fixpoint py_repr (depth : nat) (v : pyval) : result string :=
  match depth with
  | O => Raise RecursionError
  | S depth' =>
      match v with
      | PNone => Ok "None"
      | PBool b => Ok (if b then "True" else "False")
      | PInt n => int_repr max_str_digits n
      | PFloat f => Ok (float_repr f)
      | PStr s => Ok (str_repr s)
      | PList l =>
          items <- traverse (py_repr depth') l ;;
          Ok ("[" +:+ join ", " items +:+ "]")
      | PDict d =>
          items <-
            traverse (fun kv =>
                        r <- py_repr depth' (snd kv) ;;
                        Ok (str_repr (fst kv) +:+ ": " +:+ r)) d ;;
          Ok ("{" +:+ join ", " items +:+ "}")
      end
  end.

(** [str] of a string is the string itself; of anything else, its
    [repr]. *)
Definition py_str (v : pyval) : result string :=
  match v with
  | PStr s => Ok s
  | _ => py_repr repr_depth v
  end.

End text.

(** ** [slot_checker.py]: the slot record

    The dataclass does not enforce its annotations: the parser stores
    whatever the raw record holds in the four optional fields, while
    [date] and [time] always go through [str()].  The record is therefore
    indexed by the type [V] of the optional fields: [pyval] at the parser
    and the history file, [option string] (the declared [Optional[str]])
    for comparison and display. *)

Record AppointmentSlot (V : Type) : Type := mkSlot {
  date : string;
  time : string;
  provider : V;
  department : V;
  department_id : V;
  slot_id : V;
}.
Arguments mkSlot {V} _ _ _ _ _ _.
Arguments date {V} _.
Arguments time {V} _.
Arguments provider {V} _.
Arguments department {V} _.
Arguments department_id {V} _.
Arguments slot_id {V} _.

Abbreviation RawSlot := (AppointmentSlot pyval).
Abbreviation Slot := (AppointmentSlot (option string)).

(** ** [SlotParser] *)

Section parser.
Variable float_repr : float -> string.
Variable str_repr : string -> string.
Variable max_str_digits : nat.
Variable repr_depth : nat.

Abbreviation py_str := (py_str float_repr str_repr max_str_digits repr_depth).

(** The body of the [try] block of [_parse_single_slot]. *)
Definition parse_single_slot_body
    (data date_override provider department department_id : pyval)
    : result (option RawSlot) :=
  slot_date <-
    (if truthy date_override then Ok date_override
     else py_get data "Date" `or` py_get data "date" `or`
          py_get data "AppointmentDate" `or` py_get data "StartDate") ;;
  slot_time <-
    (py_get data "Time" `or` py_get data "time" `or`
     py_get data "StartTime" `or` py_get data "DisplayTime") ;;
  if negb (truthy slot_date) || negb (truthy slot_time) then Ok None
  else
    slot_date <-
      (if isinstance_int slot_date then
         match int_to_epic_date (int_value slot_date) with
         | Some d => Ok (PStr (isoformat d))
         | None => Raise OverflowError
         end
       else Ok slot_date) ;;
    date_text <- py_str slot_date ;;
    time_text <- py_str slot_time ;;
    provider <- (Ok provider `or` py_get data "ProviderName" `or` py_get data "Provider") ;;
    department <-
      (Ok department `or` py_get data "DepartmentName" `or` py_get data "Department") ;;
    department_id <-
      (Ok department_id `or` py_get data "DepartmentId" `or` py_get data "DeptId") ;;
    slot_id <- (py_get data "Id" `or` py_get data "SlotId") ;;
    Ok (Some (mkSlot date_text time_text provider department department_id slot_id)).

(** [except Exception] turns every failure of the body into [None]: a
    record that is no dict, a day offset outside the calendar, a date or
    time [str()] cannot print. *)
Definition _parse_single_slot
    (data date_override provider department department_id : pyval)
    : option RawSlot :=
  match parse_single_slot_body data date_override provider department department_id with
  | Ok r => r
  | Raise _ => None
  end.

(** A loop [for x in xs: parsed = f(x); if parsed: slots.append(parsed)]. *)
Definition collect (f : pyval -> option RawSlot) (xs : list pyval) : list RawSlot :=
  omap f xs.

Definition _parse_slot_item (item : pyval) : result (list RawSlot) :=
  match item with
  | PDict _ =>
      day_date <- (py_get item "Date" `or` py_get item "date") ;;
      day_slots <-
        (py_get_default item "Slots" (PList []) `or`
         py_get_default item "slots" (PList [])) ;;
      if truthy day_date && truthy day_slots then
        slots <- py_iter day_slots ;;
        Ok (collect (fun slot => _parse_single_slot slot day_date PNone PNone PNone) slots)
      else
        Ok (option_list (_parse_single_slot item PNone PNone PNone PNone))
  | _ => Ok []
  end.

(** The first loop of [parse_slots], over one container. *)
Fixpoint parse_items (items : list pyval) : result (list RawSlot) :=
  match items with
  | [] => Ok []
  | item :: rest =>
      parsed <- _parse_slot_item item ;;
      more <- parse_items rest ;;
      Ok (parsed ++ more)
  end.

Definition parse_container (container : pyval) : result (list RawSlot) :=
  if negb (truthy container) then Ok []
  else
    match container with
    | PList items => parse_items items
    | _ => Ok []
    end.

Fixpoint parse_containers (containers : list pyval) : result (list RawSlot) :=
  match containers with
  | [] => Ok []
  | c :: rest =>
      parsed <- parse_container c ;;
      more <- parse_containers rest ;;
      Ok (parsed ++ more)
  end.

(** One round of the loop over [Providers]. *)
Definition parse_provider (provider : pyval) : result (list RawSlot) :=
  provider_name <- (py_get provider "Name" `or` py_get provider "DisplayName") ;;
  provider_slots <-
    (py_get_default provider "Slots" (PList []) `or`
     py_get_default provider "AvailableSlots" (PList [])) ;;
  slots <- py_iter provider_slots ;;
  Ok (collect (fun slot_data =>
                 _parse_single_slot slot_data PNone provider_name PNone PNone) slots).

(** One round of the loop over [Departments]. *)
Definition parse_department (dept : pyval) : result (list RawSlot) :=
  dept_name <- (py_get dept "Name" `or` py_get dept "DisplayName") ;;
  dept_id <- (py_get dept "Id" `or` py_get dept "DepartmentId") ;;
  dept_slots <-
    (py_get_default dept "Slots" (PList []) `or`
     py_get_default dept "AvailableSlots" (PList [])) ;;
  slots <- py_iter dept_slots ;;
  Ok (collect (fun slot_data =>
                 _parse_single_slot slot_data PNone PNone dept_name dept_id) slots).

Fixpoint for_each (f : pyval -> result (list RawSlot)) (xs : list pyval)
    : result (list RawSlot) :=
  match xs with
  | [] => Ok []
  | x :: rest =>
      parsed <- f x ;;
      more <- for_each f rest ;;
      Ok (parsed ++ more)
  end.

Definition parse_slots (response_data : pyval) : result (list RawSlot) :=
  c1 <- py_get_default response_data "Slots" (PList []) ;;
  c2 <- py_get_default response_data "AvailableSlots" (PList []) ;;
  c3 <- py_get_default response_data "slots" (PList []) ;;
  c4 <- py_get_default response_data "Days" (PList []) ;;
  c5 <- py_get_default response_data "AllDays" (PList []) ;;
  from_containers <- parse_containers [c1; c2; c3; c4; c5] ;;
  providers <-
    (py_get_default response_data "Providers" (PList []) `or`
     py_get_default response_data "providers" (PList [])) ;;
  providers <- py_iter providers ;;
  from_providers <- for_each parse_provider providers ;;
  departments <-
    (py_get_default response_data "Departments" (PList []) `or`
     py_get_default response_data "departments" (PList [])) ;;
  departments <- py_iter departments ;;
  from_departments <- for_each parse_department departments ;;
  Ok (from_containers ++ from_providers ++ from_departments).

End parser.

(** The keys a raw record may carry its date and its time under. *)
Definition date_keys : list string := ["Date"; "date"; "AppointmentDate"; "StartDate"].
Definition time_keys : list string := ["Time"; "time"; "StartTime"; "DisplayTime"].

(** None of the keys [ks] is in the record. *)
Definition lacks (ks : list string) (data : list (string * pyval)) : Prop :=
  forall k, In k ks -> dict_lookup k data = None.

(** Each of the keys [ks] is missing from the record or holds a falsy
    value ([0], the empty string, [null], ...). *)
Definition all_falsy (ks : list string) (data : list (string * pyval)) : Prop :=
  forall k, In k ks ->
    match dict_lookup k data with
    | Some v => truthy v = false
    | None => True
    end.

(** A slot record has its date and its time. *)
Definition has_date_and_time (s : RawSlot) : Prop := date s <> "" /\ time s <> "".

(** ** Identity and equality of slots *)

Definition SlotKey : Type := string * string * option string.

(** [==] on [Optional[str]] values. *)
Definition optional_str_eqb (a b : option string) : bool :=
  match a, b with
  | None, None => true
  | Some x, Some y => String.eqb x y
  | _, _ => false
  end.

(** [==] on the tuples [__eq__] builds: component by component. *)
Definition tuple_eqb (a b : SlotKey) : bool :=
  let '(d1, t1, i1) := a in
  let '(d2, t2, i2) := b in
  String.eqb d1 d2 && String.eqb t1 t2 && optional_str_eqb i1 i2.

Definition __eq__ (self other : Slot) : bool :=
  tuple_eqb (date self, time self, department_id self)
            (date other, time other, department_id other).

(** The identity key of a slot. *)
Definition identity (s : Slot) : SlotKey := (date s, time s, department_id s).

(** The identity keys occurring in a list of slots. *)
Definition keys (l : list Slot) : gset SlotKey := list_to_set (identity <$> l).

(** How many records of a list carry the identity key [k]. *)
Definition count_key (k : SlotKey) (l : list Slot) : nat :=
  length (List.filter (fun s => bool_decide (identity s = k)) l).

Section hashed.
(** Python's [hash] on the tuples of [__hash__]. *)
Variable hash : SlotKey -> Z.

Definition __hash__ (self : Slot) : Z :=
  hash (date self, time self, department_id self).

(** [s in xs] for a set holding the elements [xs]: an entry with the same
    hash that compares equal. *)
Definition set_contains (xs : list Slot) (s : Slot) : bool :=
  existsb (fun x => (__hash__ x =? __hash__ s) && __eq__ x s) xs.

Definition set_add (xs : list Slot) (s : Slot) : list Slot :=
  if set_contains xs s then xs else xs ++ [s].

(** [set(l)]: the elements kept, in insertion order (the order Python
    iterates a set in is not specified; nothing below depends on it). *)
Definition py_set (l : list Slot) : list Slot := fold_left set_add l [].

(** ** [compare_slots] *)

Record comparison : Type := mkComparison {
  new : list Slot;
  removed : list Slot;
  unchanged : list Slot;
}.

(** [previous] is the set's elements in the order it iterates them. *)
Definition compare_slots (current previous : list Slot) : comparison :=
  let current_set := py_set current in
  {| new := List.filter (fun s => negb (set_contains previous s)) current;
     removed := List.filter (fun s => negb (set_contains current_set s)) previous;
     unchanged := List.filter (fun s => set_contains previous s) current |}.

End hashed.

(** ** [SlotHistory] *)

(** What the process may do with a file: whether [open(..., "r")] and
    whether [open(..., "w")] on it succeed.  Once a file is open for
    writing, what is written to it is taken to reach the file (a disk
    that fills up is not part of this model). *)
Record access : Type := mkAccess {
  can_read : bool;
  can_write : bool;
}.

(** What is at the path of the history file.

    - [Absent create]: nothing; [create] is [None] when no file can be
      created there, and otherwise the access the process has to a file
      it creates (its umask decides).
    - [Present a content]: a regular file, with the access the process
      has to it and what [json.load] makes of it once it is open: the
      value parsed, or the exception raised ([JSONDecodeError] for text
      that is no JSON, [UnicodeDecodeError] for bytes that are no
      text, ...).
    - [Directory]: a directory.
    - [Unreachable]: [os.stat] on the path fails with an error other
      than the ones [Path.exists] takes for a missing file
      ([PermissionError] on a directory above it, for one).

    [IOError] is [OSError]; it stands for every subclass of it. *)
Inductive history_file : Type :=
| Absent (create : option access)
| Present (a : access) (content : result pyval)
| Directory
| Unreachable.

Definition default_history : pyval :=
  PDict [("last_check", PNone); ("slots", PList []); ("checks", PList [])].

(** [self.history_file.exists()] *)
Definition path_exists (f : history_file) : result bool :=
  match f with
  | Absent _ => Ok false
  | Present _ _ => Ok true
  | Directory => Ok true
  | Unreachable => Raise IOError
  end.

(** [with open(self.history_file, "r") as f: json.load(f)] *)
Definition read_json (f : history_file) : result pyval :=
  match f with
  | Present a content => if can_read a then content else Raise IOError
  | Absent _ => Raise IOError
  | Directory => Raise IOError
  | Unreachable => Raise IOError
  end.

(** The existence test is outside the [try]; inside it, only
    [JSONDecodeError] and [IOError] are caught. *)
Definition load (f : history_file) : result pyval :=
  there <- path_exists f ;;
  if negb there then Ok default_history
  else
    match read_json f with
    | Ok v => Ok v
    | Raise JSONDecodeError => Ok default_history
    | Raise IOError => Ok default_history
    | Raise e => Raise e
    end.

(** [d[k] = v]: an existing key keeps its place. *)
Fixpoint dict_setitem (k : string) (v : pyval) (d : list (string * pyval))
    : list (string * pyval) :=
  match d with
  | [] => [(k, v)]
  | (k', v') :: d' =>
      if String.eqb k k' then (k', v) :: d' else (k', v') :: dict_setitem k v d'
  end.

(** [d.update(other)] *)
Definition dict_update (d other : list (string * pyval)) : list (string * pyval) :=
  fold_left (fun acc kv => dict_setitem (fst kv) (snd kv) acc) other d.

(** [v.update({...})] *)
Definition py_update (v : pyval) (other : list (string * pyval)) : result pyval :=
  match v with
  | PDict d => Ok (PDict (dict_update d other))
  | _ => Raise AttributeError
  end.

(** [v[k] = x] on a dict *)
Definition py_setitem (v : pyval) (k : string) (x : pyval) : result pyval :=
  match v with
  | PDict d => Ok (PDict (dict_setitem k x d))
  | _ => Raise TypeError
  end.

(** [v.append(x)] *)
Definition py_append (v x : pyval) : result (list pyval) :=
  match v with
  | PList l => Ok (l ++ [x])
  | _ => Raise AttributeError
  end.

(** [l[-n:]] *)
Definition slice_last {A} (n : nat) (l : list A) : list A :=
  drop (length l - n) l.

(** [dataclasses.asdict] *)
Definition to_dict (s : RawSlot) : pyval :=
  PDict [("date", PStr (date s)); ("time", PStr (time s));
         ("provider", provider s); ("department", department s);
         ("department_id", department_id s); ("slot_id", slot_id s)].

(** The arguments of one [update] call, with the two readings of the
    clock it takes ([datetime.utcnow().isoformat()]). *)
Record update_call : Type := mkCall {
  timestamp : string;
  last_check : string;
  current_slots : list RawSlot;
  raw_response : pyval;
}.

Definition check_record (c : update_call) : pyval :=
  PDict [("timestamp", PStr (timestamp c));
         ("slot_count", PInt (Z.of_nat (length (current_slots c))))].

(** The snapshot [update] hands to [save]. *)
Definition updated_history (f : history_file) (c : update_call) : result pyval :=
  history <- load f ;;
  checks <- py_get_default history "checks" (PList []) ;;
  checks <- py_append checks (check_record c) ;;
  let checks := slice_last 100 checks in
  history <-
    py_update history
      [("last_check", PStr (last_check c));
       ("slots", PList (map to_dict (current_slots c)));
       ("checks", PList checks)] ;;
  if truthy (raw_response c) then
    py_setitem history "last_raw_response" (raw_response c)
  else Ok history.

(** [json.dump(data, f, indent=2, default=str)], as far as it can fail
    on the values of this model: with [indent] set the encoder is the
    one written in Python, which enters one level of the interpreter's
    recursion for every list and dict inside the other and raises
    [RecursionError] when none is left, and an integer is printed by
    [int.__repr__]. *)
Fixpoint json_encode (max_str_digits depth : nat) (v : pyval) : result unit :=
  match v with
  | PInt n => text <- int_repr max_str_digits n ;; Ok tt
  | PList l =>
      match depth with
      | O => Raise RecursionError
      | S depth' =>
          items <- traverse (json_encode max_str_digits depth') l ;; Ok tt
      end
  | PDict d =>
      match depth with
      | O => Raise RecursionError
      | S depth' =>
          items <- traverse (fun kv => json_encode max_str_digits depth' (snd kv)) d ;;
          Ok tt
      end
  | _ => Ok tt
  end.

(** The snapshot a file holds, whether or not the process can read it. *)
Definition persisted (f : history_file) : option pyval :=
  match f with
  | Present _ (Ok v) => Some v
  | _ => None
  end.

Section store.
(** [sys.get_int_max_str_digits()], and the levels of recursion left to
    [json.dump] when [save] calls it. *)
Variable max_str_digits : nat.
Variable dump_depth : nat.

Definition json_dump (data : pyval) : result unit :=
  json_encode max_str_digits dump_depth data.

(** [open(self.history_file, "w")]: the access to the file opened. *)
Definition open_for_writing (f : history_file) : result access :=
  match f with
  | Absent (Some a) => Ok a
  | Absent None => Raise IOError
  | Present a _ => if can_write a then Ok a else Raise IOError
  | Directory => Raise IOError
  | Unreachable => Raise IOError
  end.

(** [save]: the file after the call and what the call raised, if
    anything.  Opening the file empties it, so a [json.dump] that fails
    leaves a file that no longer parses; what a [json.dump] that
    succeeds wrote is read back by [json.load] as the same value. *)
Definition save (f : history_file) (data : pyval) : history_file * result unit :=
  match open_for_writing f with
  | Raise e => (f, Raise e)
  | Ok a =>
      match json_dump data with
      | Ok _ => (Present a (Ok data), Ok tt)
      | Raise e => (Present a (Raise JSONDecodeError), Raise e)
      end
  end.

(** [update]: the file after the call and what the call raised, if
    anything. *)
Definition update (f : history_file) (c : update_call) : history_file * result unit :=
  match updated_history f c with
  | Ok history => save f history
  | Raise e => (f, Raise e)
  end.

(** Sequential [update] calls, up to the first that raises. *)
Fixpoint updates (f : history_file) (calls : list update_call)
    : history_file * result unit :=
  match calls with
  | [] => (f, Ok tt)
  | c :: rest =>
      match update f c with
      | (f', Ok _) => updates f' rest
      | (f', Raise e) => (f', Raise e)
      end
  end.

End store.

(** The check log a history file holds. *)
Definition persisted_checks (f : history_file) : option (list pyval) :=
  match persisted f with
  | Some (PDict d) =>
      match dict_lookup "checks" d with
      | Some (PList l) => Some l
      | _ => None
      end
  | _ => None
  end.

(** The check log [update] starts from: that of the snapshot [load]
    returns. *)
Definition history_checks (f : history_file) : list pyval :=
  match load f with
  | Ok (PDict d) =>
      match dict_lookup "checks" d with
      | Some (PList l) => l
      | _ => []
      end
  | _ => []
  end.

(** The top-level keys of a snapshot. *)
Definition snapshot_lookup (k : string) (v : pyval) : option pyval :=
  match v with
  | PDict d => dict_lookup k d
  | _ => None
  end.

(** A file [update] can work from: [load] returns a JSON object whose
    [checks], when present, is an array. *)
Definition usable_history (f : history_file) : Prop :=
  match load f with
  | Ok (PDict d) =>
      match dict_lookup "checks" d with
      | None => True
      | Some (PList _) => True
      | Some _ => False
      end
  | _ => False
  end.

(** A call that finds no slots and passes no raw response. *)
Definition empty_call : update_call := mkCall "t" "t" [] PNone.

(** The process can read the file. *)
Definition readable (f : history_file) : Prop :=
  match f with
  | Present a _ => can_read a = true
  | _ => False
  end.

(** A path the store can keep its history at: nothing there and a file
    created there can be opened for reading and for writing, or a file
    the process can open for reading and for writing and read through
    without an IO error. *)
Definition dependable (f : history_file) : Prop :=
  match f with
  | Absent (Some a) => can_read a = true /\ can_write a = true
  | Present a content =>
      can_read a = true /\ can_write a = true /\ content <> Raise IOError
  | _ => False
  end.

Section store_conditions.
Variable max_str_digits : nat.
Variable dump_depth : nat.

(** A history [update] can rewrite for good: the path is dependable,
    [load] returns a JSON object whose [checks], when present, is an
    array, and [json.dump] can write that object. *)
Definition sound_history (f : history_file) : Prop :=
  dependable f
  /\ usable_history f
  /\ exists h, load f = Ok h /\ json_dump max_str_digits dump_depth h = Ok tt.

End store_conditions.

(** The snapshot one call builds from the dict [load] returned, written
    out. *)
Definition rewritten (f : history_file) (c : update_call) (d : list (string * pyval))
    : list (string * pyval) :=
  let d3 :=
    dict_setitem "checks"
      (PList (slice_last 100 (history_checks f ++ [check_record c])))
      (dict_setitem "slots" (PList (map to_dict (current_slots c)))
         (dict_setitem "last_check" (PStr (last_check c)) d)) in
  if truthy (raw_response c) then dict_setitem "last_raw_response" (raw_response c) d3
  else d3.

(** ** [notifications.py]: the body of the issue *)

Definition newline : string := String (ascii_of_nat 10) EmptyString.

(** [if slot.provider:] on an [Optional[str]] *)
Definition optional_str_truthy (o : option string) : bool :=
  match o with
  | Some s => negb (String.eqb s "")
  | None => false
  end.

(** [sorted(l, key=...)] is a stable sort; [le x y] compares the keys.
    Insertion from the right puts an element before the equal ones that
    followed it in the input. *)
Fixpoint insert_sorted {A} (le : A -> A -> bool) (x : A) (l : list A) : list A :=
  match l with
  | [] => [x]
  | y :: l' => if le x y then x :: l else y :: insert_sorted le x l'
  end.

Definition py_sorted {A} (le : A -> A -> bool) (l : list A) : list A :=
  foldr (insert_sorted le) [] l.

Definition by_time (a b : Slot) : bool := String.leb (time a) (time b).

(** The dict [slots_by_date], as its items in insertion order. *)
Fixpoint add_to_date (d : string) (slot : Slot) (groups : list (string * list Slot))
    : list (string * list Slot) :=
  match groups with
  | [] => [(d, [slot])]
  | (d', g) :: rest =>
      if String.eqb d d' then (d', g ++ [slot]) :: rest
      else (d', g) :: add_to_date d slot rest
  end.

Definition slots_by_date (slots : list Slot) : list (string * list Slot) :=
  fold_left (fun groups slot => add_to_date (date slot) slot groups) slots [].

Fixpoint group_of (d : string) (groups : list (string * list Slot)) : list Slot :=
  match groups with
  | [] => []
  | (d', g) :: rest => if String.eqb d d' then g else group_of d rest
  end.

(** What the outer loop walks through: each date of
    [sorted(slots_by_date.keys())] with its slots in the order
    [sorted(slots_by_date[date], key=lambda s: s.time)]. *)
Definition date_sections (slots : list Slot) : list (string * list Slot) :=
  let groups := slots_by_date slots in
  map (fun d => (d, py_sorted by_time (group_of d groups)))
      (py_sorted String.leb (map fst groups)).

Definition slot_line (slot : Slot) : string :=
  let details :=
    ["**" +:+ time slot +:+ "**"]
    ++ (if optional_str_truthy (provider slot)
        then ["Provider: " +:+ default "" (provider slot)] else [])
    ++ (if optional_str_truthy (department slot)
        then ["Dept: " +:+ default "" (department slot)] else []) in
  "- " +:+ join " | " details.

Definition section_lines (sec : string * list Slot) : list string :=
  ("#### " +:+ fst sec) :: map slot_line (snd sec) ++ [""].

(** [detected_at] is [datetime.utcnow().strftime('%Y-%m-%d %H:%M:%S')]. *)
Definition _build_issue_body (detected_at : string) (slots : list Slot) : string :=
  join newline
    (["## New Appointment Slots Detected";
      "";
      "**Detected at:** " +:+ detected_at +:+ " UTC";
      "";
      "### Available Slots";
      ""]
     ++ flat_map section_lines (date_sections slots)
     ++ ["---";
         "";
         "### Quick Links";
         "";
         "[Book Appointment](https://ucsfmychart.ucsfmedicalcenter.org/UCSFMyChart/Scheduling/Embedded)?dept=3202010,3202011&vt=1148";
         "";
         "---";
         "*This issue was automatically created by the appointment checker.*"]).

(** *** Time of day, as the design document words the order

    The clock reading of a 12-hour text such as ["8:30 AM"], in minutes
    after midnight.  The code never computes this: it is the order the
    words "sorted by time-of-day" describe, written here to compare it
    with the order [_build_issue_body] produces. *)

Definition digit_of (c : ascii) : option Z :=
  let n := Z.of_nat (nat_of_ascii c) in
  if (48 <=? n) && (n <=? 57) then Some (n - 48) else None.

Fixpoint read_number (s : string) (acc : Z) : Z * string :=
  match s with
  | EmptyString => (acc, s)
  | String c s' =>
      match digit_of c with
      | Some d => read_number s' (acc * 10 + d)
      | None => (acc, s)
      end
  end.

Definition spec_time_of_day (t : string) : option Z :=
  let '(h, rest) := read_number t 0 in
  match rest with
  | String ":"%char rest =>
      let '(m, rest) := read_number rest 0 in
      if String.eqb rest " AM" then Some ((h mod 12) * 60 + m)
      else if String.eqb rest " PM" then Some ((h mod 12 + 12) * 60 + m)
      else None
  | _ => None
  end.

(** [a] is not later in the day than [b]. *)
Definition spec_time_of_day_le (a b : Slot) : Prop :=
  match spec_time_of_day (time a), spec_time_of_day (time b) with
  | Some x, Some y => x <= y
  | _, _ => True
  end.

(** ** Slots read back from the history file

    [from_dict] builds an object from whatever the stored dict holds, so
    here every field is a Python value. *)

Record SlotObject : Type := mkObject {
  obj_date : pyval;
  obj_time : pyval;
  obj_provider : pyval;
  obj_department : pyval;
  obj_department_id : pyval;
  obj_slot_id : pyval;
}.

Definition field_names : list string :=
  ["date"; "time"; "provider"; "department"; "department_id"; "slot_id"].

Definition is_field (k : string) : bool := existsb (String.eqb k) field_names.

(** [cls] called with the items of [data] as keyword arguments: a
    [TypeError] for something that is not a mapping, for
    a key that is no field, and for a missing [date] or [time]; the four
    other fields default to [None]. *)
Definition from_dict (data : pyval) : result SlotObject :=
  match data with
  | PDict d =>
      if forallb (fun kv => is_field (fst kv)) d then
        match dict_lookup "date" d, dict_lookup "time" d with
        | Some dt, Some tm =>
            Ok (mkObject dt tm
                  (default PNone (dict_lookup "provider" d))
                  (default PNone (dict_lookup "department" d))
                  (default PNone (dict_lookup "department_id" d))
                  (default PNone (dict_lookup "slot_id" d)))
        | _, _ => Raise TypeError
        end
      else Raise TypeError
  | _ => Raise TypeError
  end.



Fixpoint for_each_object (xs : list pyval) : result (list SlotObject) :=
  match xs with
  | [] => Ok []
  | x :: rest =>
      o <- from_dict x ;;
      more <- for_each_object rest ;;
      Ok (o :: more)
  end.

(** The objects [get_previous_slots] builds,
    [AppointmentSlot.from_dict(s) for s in history.get("slots", [])], in
    the order it builds them. *)
Definition stored_slot_objects (f : history_file) : result (list SlotObject) :=
  history <- load f ;;
  slots <- py_get_default history "slots" (PList []) ;;
  slots <- py_iter slots ;;
  for_each_object slots.


(** *** Slots of the declared types

    A slot whose optional fields are [None] or text, as the object the
    parser would hand over, and the reading of an object whose fields have
    the declared types. *)

Definition optional_str_value (o : option string) : pyval :=
  match o with
  | Some s => PStr s
  | None => PNone
  end.

Definition to_raw (s : Slot) : RawSlot :=
  mkSlot (date s) (time s)
         (optional_str_value (provider s)) (optional_str_value (department s))
         (optional_str_value (department_id s)) (optional_str_value (slot_id s)).

Definition typed_field (v : pyval) : option (option string) :=
  match v with
  | PNone => Some None
  | PStr s => Some (Some s)
  | _ => None
  end.

Definition typed_slot (o : SlotObject) : option Slot :=
  match obj_date o, obj_time o with
  | PStr d, PStr t =>
      p ← typed_field (obj_provider o);
      dp ← typed_field (obj_department o);
      di ← typed_field (obj_department_id o);
      si ← typed_field (obj_slot_id o);
      Some (mkSlot d t p dp di si)
  | _, _ => None
  end.

(** [hash()] refuses lists and dicts. *)
Definition hashable (v : pyval) : bool :=
  match v with
  | PList _ => false
  | PDict _ => false
  | _ => true
  end.

(** [__hash__] can hash the object. *)
Definition object_hashable (o : SlotObject) : bool :=
  hashable (obj_date o) && hashable (obj_time o) && hashable (obj_department_id o).

Section previous.
Variable hash : SlotKey -> Z.

(** [get_previous_slots]: the objects are collected in a set, which
    hashes each one through its date, time and department_id
    ([TypeError] for a list or a dict there, as for a stored entry
    [from_dict] refuses) and keeps one of those that compare equal.
    For objects whose fields have the declared types the set is
    [py_set] of the slots.  How Python hashes and compares values of
    other types is not part of this model: the answer then is [None]. *)
Definition get_previous_slots (f : history_file) : result (option (list Slot)) :=
  objects <- stored_slot_objects f ;;
  if forallb object_hashable objects then
    Ok (option_map (py_set hash) (mapM typed_slot objects))
  else Raise TypeError.

End previous.

Section store_calls.
Variable max_str_digits : nat.
Variable dump_depth : nat.

(** A call [update] can carry out: its slots have the declared types,
    and [json.dump] can write its check record, its slots and its raw
    response where they go, one level inside the snapshot. *)
Definition storable (c : update_call) : Prop :=
  (exists C : list Slot, current_slots c = map to_raw C)
  /\ Forall (fun v => json_encode max_str_digits (pred dump_depth) v = Ok tt)
            [PList [check_record c]; PList (map to_dict (current_slots c));
             raw_response c].

End store_calls.

(** ** Payload shapes [parse_slots] gets through

    The nested slot lists are lists wherever they are present, and the
    entries under [Providers] and [Departments] are dicts. *)

Definition list_if_present (k : string) (r : list (string * pyval)) : Prop :=
  match dict_lookup k r with
  | None => True
  | Some (PList _) => True
  | Some _ => False
  end.

Definition well_shaped_item (item : pyval) : Prop :=
  match item with
  | PDict r => list_if_present "Slots" r /\ list_if_present "slots" r
  | _ => True
  end.

Definition well_shaped_holder (h : pyval) : Prop :=
  match h with
  | PDict r => list_if_present "Slots" r /\ list_if_present "AvailableSlots" r
  | _ => False
  end.

Definition container_keys : list string :=
  ["Slots"; "AvailableSlots"; "slots"; "Days"; "AllDays"].

Definition holder_keys : list string :=
  ["Providers"; "providers"; "Departments"; "departments"].

Definition well_shaped_payload (payload : pyval) : Prop :=
  match payload with
  | PDict d =>
      (forall k items, In k container_keys ->
         dict_lookup k d = Some (PList items) -> Forall well_shaped_item items)
      /\ (forall k, In k holder_keys ->
            match dict_lookup k d with
            | None => True
            | Some (PList hs) => Forall well_shaped_holder hs
            | Some _ => False
            end)
  | _ => False
  end.

Definition is_dict (v : pyval) : bool :=
  match v with
  | PDict _ => true
  | _ => false
  end.

(** ** Where the parser takes its records from

    [_parse_single_slot] is called at four places: on an item of one of
    the five containers that is no day container, with no date handed
    down; on each record under a day container -- an item with a truthy
    date and truthy slots of its own -- with the date of the container;
    and on each record under an entry of [Providers] or of
    [Departments], again with no date. *)

(** One of the keys [ks] of the record holds a truthy value. *)
Definition holds (ks : list string) (record : pyval) : Prop :=
  exists k v, In k ks /\ py_get record k = Ok v /\ truthy v = true.

(** [item_record item record handed]: [_parse_slot_item item] calls
    [_parse_single_slot] on [record] with [handed] as date override. *)
Inductive item_record (item : pyval) : pyval -> pyval -> Prop :=
| item_itself day_date day_slots :
    (py_get item "Date" `or` py_get item "date") = Ok day_date ->
    (py_get_default item "Slots" (PList []) `or`
     py_get_default item "slots" (PList [])) = Ok day_slots ->
    truthy day_date && truthy day_slots = false ->
    item_record item item PNone
| item_of_day day_date day_slots records record :
    (py_get item "Date" `or` py_get item "date") = Ok day_date ->
    (py_get_default item "Slots" (PList []) `or`
     py_get_default item "slots" (PList [])) = Ok day_slots ->
    truthy day_date && truthy day_slots = true ->
    py_iter day_slots = Ok records ->
    In record records ->
    item_record item record day_date.

(** [payload_record payload record handed]: [parse_slots payload] calls
    [_parse_single_slot] on [record] with [handed] as date override. *)
Inductive payload_record (payload : pyval) : pyval -> pyval -> Prop :=
| record_of_container k items item record handed :
    In k container_keys ->
    py_get_default payload k (PList []) = Ok (PList items) ->
    In item items ->
    item_record item record handed ->
    payload_record payload record handed
| record_of_holder k k' holders entries entry slots records record :
    (k, k') = ("Providers", "providers") \/ (k, k') = ("Departments", "departments") ->
    (py_get_default payload k (PList []) `or`
     py_get_default payload k' (PList [])) = Ok holders ->
    py_iter holders = Ok entries ->
    In entry entries ->
    (py_get_default entry "Slots" (PList []) `or`
     py_get_default entry "AvailableSlots" (PList [])) = Ok slots ->
    py_iter slots = Ok records ->
    In record records ->
    payload_record payload record PNone.

(** ** [GitHubNotifier.notify_new_slots] *)

(** The notifier once constructed: the arguments or the environment
    variables, whichever [__init__] found. *)
Record notifier : Type := mkNotifier {
  repo : option string;
  token : option string;
}.

(** The one request [notify_new_slots] can send (its two constant
    headers, [Accept] and the API version, are left out). *)
Record issue_request : Type := mkRequest {
  req_url : string;
  req_authorization : string;
  req_title : string;
  req_body : string;
  req_labels : list string;
}.

(** What comes back from [client.post]: an exception, or a response with
    its status code and the outcome of [response.json()]. *)
Inductive http_outcome : Type :=
| HttpRaised
| HttpResponse (status_code : Z) (json : result pyval).

(** [min] over strings: the first of the smallest. *)
Definition py_min (l : list string) : option string :=
  match l with
  | [] => None
  | x :: rest => Some (fold_left (fun m y => if String.ltb y m then y else m) rest x)
  end.

(** The UTF-8 bytes of the tooth sign the title starts with. *)
Definition tooth : string :=
  String (ascii_of_nat 240) (String (ascii_of_nat 159)
    (String (ascii_of_nat 166) (String (ascii_of_nat 183) EmptyString))).

Definition issue_title (slots : list Slot) : string :=
  tooth +:+ " " +:+ pretty (Z.of_nat (length slots))
  +:+ " New Dental Appointment(s) Available - "
  +:+ default "" (py_min (map date slots)).

(** The value returned and the requests sent, in order. *)
Definition notify_new_slots (n : notifier) (detected_at : string)
    (post : issue_request -> http_outcome) (slots : list Slot)
    : pyval * list issue_request :=
  if negb (optional_str_truthy (repo n)) || negb (optional_str_truthy (token n)) then
    (PNone, [])
  else
    match slots with
    | [] => (PNone, [])
    | _ :: _ =>
        let request :=
          mkRequest ("https://api.github.com/repos/" +:+ default "" (repo n) +:+ "/issues")
                    ("Bearer " +:+ default "" (token n))
                    (issue_title slots)
                    (_build_issue_body detected_at slots)
                    ["appointment-alert"] in
        match post request with
        | HttpRaised => (PNone, [request])
        | HttpResponse status_code json =>
            if status_code =? 201 then
              match (issue_data <- json ;; py_get issue_data "html_url") with
              | Ok issue_url => (issue_url, [request])
              | Raise _ => (PNone, [request])
              end
            else (PNone, [request])
        end
    end.

(** ** Dates as [datetime.date] builds and compares them *)

(** [_days_in_month] of the standard library. *)
Definition _days_in_month (y m : Z) : Z :=
  if (m =? 2) && PyDate._is_leap y then 29 else PyDate.at_index PyDate._DAYS_IN_MONTH m.

(** What the constructor of [date] checks: year 1 to 9999, month 1 to 12,
    a day of that month. *)
Definition valid_date (d : PyDate.date) : Prop :=
  1 <= PyDate.year d <= 9999
  /\ 1 <= PyDate.month d <= 12
  /\ 1 <= PyDate.day d <= _days_in_month (PyDate.year d) (PyDate.month d).

(** [d1 < d2] on dates: year, then month, then day. *)
Definition date_lt (d1 d2 : PyDate.date) : Prop :=
  PyDate.year d1 < PyDate.year d2
  \/ (PyDate.year d1 = PyDate.year d2
      /\ (PyDate.month d1 < PyDate.month d2
          \/ (PyDate.month d1 = PyDate.month d2 /\ PyDate.day d1 < PyDate.day d2))).

(** The month and day [month_day] gives are a day of the calendar. *)
Definition month_day_valid (leap : bool) (n : Z) : bool :=
  let '(m, d) := PyDate.month_day n leap in
  (1 <=? m) && (m <=? 12) && (1 <=? d)
  && (d <=? (if (m =? 2) && leap then 29 else PyDate.at_index PyDate._DAYS_IN_MONTH m)).

(** The four and the two decimal digits of a number, leading zeros
    included. *)
Definition dec4 (x : N) : string :=
  String (pretty_N_char (x / 1000)) (String (pretty_N_char (x / 100 mod 10))
    (String (pretty_N_char (x / 10 mod 10)) (String (pretty_N_char (x mod 10)) ""))).

Definition dec2 (x : N) : string :=
  String (pretty_N_char (x / 10)) (String (pretty_N_char (x mod 10)) "").
(** ** Calendar lemmas *)

Section calendar.
Import PyDate.

Lemma epoch_ordinal : toordinal epoch = 672046.
Proof. reflexivity. Qed.

Lemma month_day_table :
  forallb (fun k => month_day_ok true (Z.of_nat k) && month_day_ok false (Z.of_nat k))
          (seq 0 365) = true.
Proof. vm_compute. reflexivity. Qed.

Lemma month_day_sound n leap :
  0 <= n < 365 ->
  let '(m, d) := month_day n leap in
  at_index _DAYS_BEFORE_MONTH m + Z.b2z ((2 <? m) && leap) + d = n + 1.
Proof.
  intros Hn.
  pose proof month_day_table as T.
  rewrite forallb_forall in T.
  specialize (T (Z.to_nat n)).
  rewrite Z2Nat.id in T by lia.
  assert (Hin : In (Z.to_nat n) (seq 0 365)) by (apply in_seq; lia).
  specialize (T Hin). apply andb_prop in T as [Tt Tf].
  unfold month_day_ok in Tt, Tf.
  destruct leap.
  - destruct (month_day n true) as [m d].
    repeat (apply andb_prop in Tt as [Tt _]). lia.
  - destruct (month_day n false) as [m d].
    repeat (apply andb_prop in Tf as [Tf _]). lia.
Qed.

(** A year number split along the 400/100/4/1-year cycles. *)
Lemma days_before_year_cycles a b c e :
  0 <= b <= 3 -> 0 <= c <= 24 -> 0 <= e <= 3 ->
  _days_before_year (a * 400 + 1 + (b * 100 + c * 4 + e))
  = a * 146097 + b * 36524 + c * 1461 + e * 365.
Proof.
  intros Hb Hc He. unfold _days_before_year.
  replace (a * 400 + 1 + (b * 100 + c * 4 + e) - 1)
    with (a * 400 + b * 100 + c * 4 + e) by lia.
  Z.div_mod_to_equations. lia.
Qed.

Lemma is_leap_cycles a b c e :
  0 <= b <= 3 -> 0 <= c <= 24 -> 0 <= e <= 3 ->
  _is_leap (a * 400 + 1 + (b * 100 + c * 4 + e))
  = (e =? 3) && (negb (c =? 24) || (b =? 3)).
Proof.
  intros Hb Hc He. unfold _is_leap.
  destruct (Z.eqb_spec e 3) as [E|E]; destruct (Z.eqb_spec c 24) as [C|C];
    destruct (Z.eqb_spec b 3) as [B|B]; cbn [negb orb andb];
    repeat match goal with
           | |- context [?x mod ?k =? 0] => destruct (Z.eqb_spec (x mod k) 0)
           end; cbn [negb orb andb]; try reflexivity;
    exfalso; Z.div_mod_to_equations; lia.
Qed.

(** The last day of a leap year, reached by the early return. *)
Lemma last_day_of_leap_year y :
  _is_leap y = true ->
  _ymd2ord y 12 31 = _days_before_year (y + 1).
Proof.
  intros L. unfold _ymd2ord, _days_before_month. rewrite L.
  unfold _days_before_year.
  change (at_index _DAYS_BEFORE_MONTH 12) with 334.
  change (Z.b2z ((2 <? 12) && true)) with 1.
  unfold _is_leap in L.
  apply andb_prop in L as [L4 L100].
  apply Z.eqb_eq in L4.
  replace (y + 1 - 1) with y by lia.
  destruct (Z.eqb_spec (y mod 100) 0) as [E100|E100]; cbn [negb orb] in L100.
  - apply Z.eqb_eq in L100. Z.div_mod_to_equations. lia.
  - Z.div_mod_to_equations. lia.
Qed.

(** [fromordinal] followed by [toordinal] gives the ordinal back. *)
Lemma toordinal_fromordinal o :
  1 <= o -> toordinal (fromordinal o) = o.
Proof.
  intros Ho. unfold fromordinal, _ord2ymd, _DI400Y, _DI100Y, _DI4Y.
  set (n := o - 1).
  set (a := n / 146097). set (r1 := n mod 146097).
  set (b := r1 / 36524). set (r2 := r1 mod 36524).
  set (c := r2 / 1461). set (r3 := r2 mod 1461).
  set (e := r3 / 365). set (r := r3 mod 365).
  assert (Hn : n = a * 146097 + r1 /\ 0 <= r1 < 146097)
    by (subst a r1; Z.div_mod_to_equations; lia).
  assert (H1 : r1 = b * 36524 + r2 /\ 0 <= r2 < 36524 /\ 0 <= b <= 4)
    by (subst b r2; Z.div_mod_to_equations; lia).
  assert (H2 : r2 = c * 1461 + r3 /\ 0 <= r3 < 1461 /\ 0 <= c <= 24)
    by (subst c r3; Z.div_mod_to_equations; lia).
  assert (H3 : r3 = e * 365 + r /\ 0 <= r < 365 /\ 0 <= e <= 4)
    by (subst e r; Z.div_mod_to_equations; lia).
  assert (Hon : o = n + 1) by (subst n; lia).
  clearbody n a r1 b r2 c r3 e r.
  destruct Hn as [Hn Hr1]. destruct H1 as (H1 & Hr2 & Hb).
  destruct H2 as (H2 & Hr3 & Hc). destruct H3 as (H3 & Hr & He).
  destruct (Z.eqb_spec e 4) as [E4|E4]; [|destruct (Z.eqb_spec b 4) as [B4|B4]];
    cbn [orb].
  - (* December 31 of the fourth year of a 4-year cycle *)
    unfold toordinal; cbn [year month day].
    assert (Hb3 : 0 <= b <= 3) by lia.
    assert (Hc23 : 0 <= c <= 23) by lia.
    replace (a * 400 + 1 + (b * 100 + c * 4 + e) - 1)
      with (a * 400 + 1 + (b * 100 + (c + 1) * 4 + 0) - 1 - 1 + 1) by lia.
    replace (a * 400 + 1 + (b * 100 + (c + 1) * 4 + 0) - 1 - 1 + 1)
      with (a * 400 + 1 + (b * 100 + c * 4 + 3)) by lia.
    rewrite last_day_of_leap_year.
    + replace (a * 400 + 1 + (b * 100 + c * 4 + 3) + 1)
        with (a * 400 + 1 + (b * 100 + (c + 1) * 4 + 0)) by lia.
      rewrite days_before_year_cycles by lia. lia.
    + rewrite is_leap_cycles by lia.
      destruct (Z.eqb_spec c 24); [lia|]. reflexivity.
  - (* December 31 of the last year of a 400-year cycle *)
    unfold toordinal; cbn [year month day].
    assert (r2 = 0 /\ c = 0 /\ e = 0 /\ r = 0) as (-> & -> & -> & ->) by lia.
    subst b.
    replace (a * 400 + 1 + (4 * 100 + 0 * 4 + 0) - 1)
      with (a * 400 + 1 + (3 * 100 + 24 * 4 + 3)) by lia.
    rewrite last_day_of_leap_year.
    + replace (a * 400 + 1 + (3 * 100 + 24 * 4 + 3) + 1)
        with ((a + 1) * 400 + 1 + (0 * 100 + 0 * 4 + 0)) by lia.
      rewrite days_before_year_cycles by lia. lia.
    + rewrite is_leap_cycles by lia. reflexivity.
  - assert (Hb3 : 0 <= b <= 3) by lia.
    assert (He3 : 0 <= e <= 3) by lia.
    pose proof (month_day_sound r ((e =? 3) && (negb (c =? 24) || (b =? 3))) Hr) as M.
    destruct (month_day r ((e =? 3) && (negb (c =? 24) || (b =? 3)))) as [m d].
    unfold toordinal; cbn [year month day].
    unfold _ymd2ord, _days_before_month.
    rewrite is_leap_cycles, days_before_year_cycles by lia.
    lia.
Qed.

Lemma int_to_epic_date_in_range n :
  - 672045 <= n <= 2980013 ->
  int_to_epic_date n = Some (fromordinal (672046 + n)).
Proof.
  intros Hn. unfold int_to_epic_date, add_days, timedelta_days.
  rewrite epoch_ordinal.
  destruct (Z.leb_spec (Z.abs n) 999999999) as [_|A]; [|lia].
  unfold _MAXORDINAL.
  destruct (Z.ltb_spec 0 (672046 + n)); [|lia].
  destruct (Z.leb_spec (672046 + n) 3652059); [|lia].
  reflexivity.
Qed.

Lemma epic_round_trip n d :
  - 672045 <= n <= 2980013 ->
  int_to_epic_date n = Some d -> epic_date_to_int d = n.
Proof.
  intros Hn E. rewrite int_to_epic_date_in_range in E by assumption.
  injection E as <-.
  unfold epic_date_to_int, sub_days.
  rewrite epoch_ordinal, toordinal_fromordinal by lia. lia.
Qed.

End calendar.

(** C3. Epoch round trip: every day offset from 0 to 100000 is turned into
    a date by [int_to_epic_date] (day 0 being 1840-12-31), and
    [epic_date_to_int] turns that date back into the same offset. *)
Theorem epoch_round_trip (n : Z) :
  0 <= n <= 100000 ->
  int_to_epic_date 0 = Some (PyDate.mkdate 1840 12 31)
  /\ exists d, int_to_epic_date n = Some d /\ epic_date_to_int d = n.
Proof.
  intros Hn. split; [reflexivity|].
  exists (PyDate.fromordinal (672046 + n)).
  assert (E : int_to_epic_date n = Some (PyDate.fromordinal (672046 + n)))
    by (apply int_to_epic_date_in_range; lia).
  split; [exact E|].
  apply epic_round_trip; [lia | exact E].
Qed.

Lemma epoch_round_trip_witness :
  int_to_epic_date 0 = Some (PyDate.mkdate 1840 12 31)
  /\ exists d, int_to_epic_date 67800 = Some d /\ epic_date_to_int d = 67800.
Proof. apply (epoch_round_trip 67800). lia. Defined.

Example epoch_is_day_zero :
  option_map isoformat (int_to_epic_date 0) = Some "1840-12-31".
Proof. reflexivity. Qed.

Example day_67800 :
  option_map isoformat (int_to_epic_date 67800) = Some "2026-08-18".
Proof. reflexivity. Qed.

Example day_past_year_9999 : int_to_epic_date 2980014 = None.
Proof. reflexivity. Qed.

(** ** Results *)

Lemma bind_ok {A B} (r : result A) (k : A -> result B) (b : B) :
  bind r k = Ok b -> exists a, r = Ok a /\ k a = Ok b.
Proof. destruct r as [a|e]; simpl; [eauto | discriminate]. Qed.

(** ** Equality, hashing and set membership *)

Lemma optional_str_eqb_eq (a b : option string) :
  optional_str_eqb a b = true <-> a = b.
Proof.
  destruct a as [x|], b as [y|]; simpl; try (split; congruence).
  rewrite String.eqb_eq. split; congruence.
Qed.

Lemma tuple_eqb_eq (a b : SlotKey) : tuple_eqb a b = true <-> a = b.
Proof.
  destruct a as [[d1 t1] i1], b as [[d2 t2] i2]. unfold tuple_eqb.
  rewrite !andb_true_iff, !String.eqb_eq, optional_str_eqb_eq.
  split; [intros [[-> ->] ->]; reflexivity | intros [= -> -> ->]; auto].
Qed.

Lemma eq_identity (a b : Slot) : __eq__ a b = true <-> identity a = identity b.
Proof. apply tuple_eqb_eq. Qed.

Section hashed_facts.
Variable hash : SlotKey -> Z.

Lemma eq_same_hash (a b : Slot) :
  __eq__ a b = true -> __hash__ hash a = __hash__ hash b.
Proof.
  intros E. apply eq_identity in E. unfold __hash__.
  unfold identity in E. rewrite E. reflexivity.
Qed.

Lemma set_contains_spec (xs : list Slot) (s : Slot) :
  set_contains hash xs s = true <-> exists x, In x xs /\ identity x = identity s.
Proof.
  unfold set_contains. rewrite existsb_exists.
  split.
  - intros (x & Hin & H). apply andb_true_iff in H as [_ H].
    exists x. split; [assumption | apply eq_identity, H].
  - intros (x & Hin & H). exists x. split; [assumption|].
    apply eq_identity in H.
    rewrite (eq_same_hash _ _ H), Z.eqb_refl, H. reflexivity.
Qed.

Lemma set_contains_keys (xs : list Slot) (s : Slot) :
  set_contains hash xs s = true <-> identity s ∈ keys xs.
Proof.
  rewrite set_contains_spec. unfold keys.
  rewrite elem_of_list_to_set, list_elem_of_fmap.
  split.
  - intros (x & Hin & E). exists x. split; [congruence | by apply list_elem_of_In].
  - intros (x & E & Hin). exists x. split; [by apply list_elem_of_In | congruence].
Qed.

Lemma set_contains_same_key (xs : list Slot) (s s' : Slot) :
  identity s = identity s' -> set_contains hash xs s = set_contains hash xs s'.
Proof.
  intros E. apply eq_true_iff_eq. rewrite !set_contains_keys, E. reflexivity.
Qed.

Lemma keys_app (l1 l2 : list Slot) : keys (l1 ++ l2) = keys l1 ∪ keys l2.
Proof. unfold keys. rewrite fmap_app, list_to_set_app_L. reflexivity. Qed.

Lemma keys_set_add (xs : list Slot) (s : Slot) :
  keys (set_add hash xs s) = keys xs ∪ {[ identity s ]}.
Proof.
  unfold set_add. destruct (set_contains hash xs s) eqn:E.
  - apply set_contains_keys in E.
    apply set_eq. intros k. rewrite elem_of_union, elem_of_singleton.
    split; [auto | intros [?| ->]; assumption].
  - rewrite keys_app. unfold keys at 2. simpl. set_solver.
Qed.

Lemma keys_fold_set_add (l acc : list Slot) :
  keys (fold_left (set_add hash) l acc) = keys acc ∪ keys l.
Proof.
  revert acc. induction l as [|s l IH]; intros acc; simpl.
  - unfold keys at 3. simpl. set_solver.
  - rewrite IH, keys_set_add. unfold keys at 4. simpl. fold (keys l). set_solver.
Qed.

(** [set(l)] holds exactly the identity keys of [l]. *)
Lemma keys_py_set (l : list Slot) : keys (py_set hash l) = keys l.
Proof.
  unfold py_set. rewrite keys_fold_set_add. unfold keys at 1. simpl. set_solver.
Qed.

Lemma set_contains_py_set (l : list Slot) (s : Slot) :
  set_contains hash (py_set hash l) s = set_contains hash l s.
Proof. apply eq_true_iff_eq. rewrite !set_contains_keys, keys_py_set. reflexivity. Qed.

Lemma elem_of_keys (k : SlotKey) (l : list Slot) :
  k ∈ keys l <-> exists s, In s l /\ identity s = k.
Proof.
  unfold keys. rewrite elem_of_list_to_set, list_elem_of_fmap.
  split; intros (s & H1 & H2).
  - exists s. split; [by apply list_elem_of_In | congruence].
  - exists s. split; [congruence | by apply list_elem_of_In].
Qed.

(** C1. Partition completeness: the identity keys of [new] together
    with those of [unchanged] are exactly the identity keys of the current
    list, and the identity keys of [removed] together with those of
    [unchanged] are exactly the identity keys of the previous set. *)
Theorem partition_completeness (C P : list Slot) :
  keys (new (compare_slots hash C P)) ∪ keys (unchanged (compare_slots hash C P))
  = keys C
  /\ keys (removed (compare_slots hash C P)) ∪ keys (unchanged (compare_slots hash C P))
     = keys P.
Proof.
  unfold compare_slots; cbn [new removed unchanged]. split.
  - apply set_eq. intros k.
    rewrite elem_of_union, !elem_of_keys. split.
    + intros [(s & Hin & E)|(s & Hin & E)]; apply filter_In in Hin as [Hin _]; eauto.
    + intros (s & Hin & E).
      destruct (set_contains hash P s) eqn:M.
      * right. exists s. split; [|assumption]. apply filter_In. auto.
      * left. exists s. split; [|assumption]. apply filter_In. rewrite M. auto.
  - apply set_eq. intros k.
    rewrite elem_of_union, !elem_of_keys. split.
    + intros [(s & Hin & E)|(s & Hin & E)]; apply filter_In in Hin as [Hin M].
      * eauto.
      * apply set_contains_spec in M as (p & Hp & Ep).
        exists p. split; [assumption | congruence].
    + intros (p & Hin & E).
      destruct (set_contains hash (py_set hash C) p) eqn:M.
      * right. rewrite set_contains_py_set in M.
        apply set_contains_spec in M as (c & Hc & Ec).
        exists c. split; [|congruence].
        apply filter_In. split; [assumption|].
        apply set_contains_spec. exists p. split; [assumption | congruence].
      * left. exists p. split; [|assumption]. apply filter_In. rewrite M. auto.
Qed.

Lemma count_key_app (k : SlotKey) (l1 l2 : list Slot) :
  count_key k (l1 ++ l2) = (count_key k l1 + count_key k l2)%nat.
Proof. unfold count_key. rewrite List.filter_app, length_app. reflexivity. Qed.

Lemma count_key_positive (k : SlotKey) (l : list Slot) :
  (0 < count_key k l)%nat <-> k ∈ keys l.
Proof.
  rewrite elem_of_keys. unfold count_key.
  induction l as [|s l IH]; simpl.
  - split; [lia | intros (s & [] & _)].
  - destruct (bool_decide_reflect (identity s = k)) as [E|E]; simpl.
    + split; [intros _; exists s; auto | lia].
    + rewrite IH. split.
      * intros (x & Hin & Hx). exists x. auto.
      * intros (x & [->|Hin] & Hx); [contradiction | exists x; auto].
Qed.

(** A filter that decides by identity key keeps all the records of a key
    or none of them. *)
Lemma count_key_filter (f : Slot -> bool) (k : SlotKey) (b : bool) (l : list Slot) :
  (forall s, identity s = k -> f s = b) ->
  count_key k (List.filter f l) = if b then count_key k l else 0%nat.
Proof.
  intros Hf. unfold count_key.
  induction l as [|s l IH]; simpl.
  - destruct b; reflexivity.
  - destruct (bool_decide_reflect (identity s = k)) as [E|E].
    + rewrite (Hf s E). destruct b; simpl.
      * rewrite bool_decide_true by assumption. simpl. rewrite IH. reflexivity.
      * exact IH.
    + destruct (f s); simpl; [rewrite bool_decide_false by assumption|]; exact IH.
Qed.

Lemma count_key_set_add (k : SlotKey) (xs : list Slot) (s : Slot) :
  (count_key k xs <= 1)%nat -> (count_key k (set_add hash xs s) <= 1)%nat.
Proof.
  intros H. unfold set_add. destruct (set_contains hash xs s) eqn:M; [assumption|].
  rewrite count_key_app. unfold count_key at 2. simpl.
  destruct (bool_decide_reflect (identity s = k)) as [E|E]; simpl; [|lia].
  assert (N : ~ (0 < count_key k xs)%nat); [|lia].
  rewrite count_key_positive, <- E, <- set_contains_keys, M. discriminate.
Qed.

(** A set holds each identity key at most once. *)
Lemma count_key_py_set_le (k : SlotKey) (l : list Slot) :
  (count_key k (py_set hash l) <= 1)%nat.
Proof.
  unfold py_set.
  assert (G : forall acc, (count_key k acc <= 1)%nat ->
                          (count_key k (fold_left (set_add hash) l acc) <= 1)%nat).
  { induction l as [|s l IH]; intros acc Hacc; simpl; [assumption|].
    apply IH, count_key_set_add, Hacc. }
  apply G. unfold count_key. simpl. lia.
Qed.

(** C6. Duplicates are not removed: when the current list holds two or
    more records with the same identity key, every one of them is in
    [new] (key absent from previous) or every one of them is in
    [unchanged] (key present), while the set built for membership tests
    holds the key once. *)
Theorem duplicates_are_kept (C P : list Slot) (k : SlotKey) :
  (2 <= count_key k C)%nat ->
  count_key k (py_set hash C) = 1%nat
  /\ (k ∉ keys P ->
      count_key k (new (compare_slots hash C P)) = count_key k C
      /\ count_key k (unchanged (compare_slots hash C P)) = 0%nat)
  /\ (k ∈ keys P ->
      count_key k (unchanged (compare_slots hash C P)) = count_key k C
      /\ count_key k (new (compare_slots hash C P)) = 0%nat).
Proof.
  intros Hdup. unfold compare_slots; cbn [new unchanged].
  split; [|split].
  - pose proof (count_key_py_set_le k C) as Hle.
    assert (Hpos : (0 < count_key k (py_set hash C))%nat).
    { rewrite count_key_positive, keys_py_set, <- count_key_positive. lia. }
    lia.
  - intros Hk.
    assert (M : forall s, identity s = k -> set_contains hash P s = false).
    { intros s <-. apply not_true_is_false. rewrite set_contains_keys. exact Hk. }
    split.
    + apply (count_key_filter _ k true). intros s E. rewrite (M s E). reflexivity.
    + apply (count_key_filter _ k false). exact M.
  - intros Hk.
    assert (M : forall s, identity s = k -> set_contains hash P s = true).
    { intros s <-. rewrite set_contains_keys. exact Hk. }
    split.
    + apply (count_key_filter _ k true). exact M.
    + apply (count_key_filter _ k false). intros s E. rewrite (M s E). reflexivity.
Qed.

End hashed_facts.

(** C2. Two slot records are equal, under the equality that set and hash
    membership use, exactly when their tuples (date, time, department_id)
    are equal; records that differ only in provider, department or
    slot_id are equal, and equal records hash alike. *)
Theorem equality_is_identity :
  (forall a b : Slot,
     __eq__ a b = true
     <-> (date a, time a, department_id a) = (date b, time b, department_id b))
  /\ (forall d t i p p' dept dept' sid sid',
        __eq__ (mkSlot d t p dept i sid) (mkSlot d t p' dept' i sid') = true)
  /\ (forall hash (a b : Slot), __eq__ a b = true -> __hash__ hash a = __hash__ hash b)
  /\ (forall hash (xs : list Slot) (s : Slot),
        set_contains hash xs s = true
        <-> exists x, In x xs
              /\ (date x, time x, department_id x) = (date s, time s, department_id s)).
Proof.
  split; [|split; [|split]].
  - intros a b. apply eq_identity.
  - intros. apply eq_identity. reflexivity.
  - intros hash a b. apply eq_same_hash.
  - intros hash xs s. apply set_contains_spec.
Qed.

Example provider_change_is_same_slot :
  __eq__ (mkSlot "2026-08-05" "8:30 AM" (Some "Dr. Rai") (Some "Clinic A") None None)
         (mkSlot "2026-08-05" "8:30 AM" (Some "Dr. Lee") (Some "Clinic B") None (Some "77"))
  = true.
Proof. reflexivity. Qed.

Example other_department_id_is_other_slot :
  __eq__ (mkSlot "2026-08-05" "8:30 AM" None None (Some "3202010") None)
         (mkSlot "2026-08-05" "8:30 AM" None None None None)
  = false.
Proof. reflexivity. Qed.

Lemma duplicates_are_kept_witness :
  let a : Slot := mkSlot "2026-08-05" "8:30 AM" (Some "Dr. Rai") None None None in
  let b : Slot := mkSlot "2026-08-05" "8:30 AM" (Some "Dr. Lee") None None None in
  let k : SlotKey := ("2026-08-05", "8:30 AM", None) in
  (2 <= count_key k [a; b])%nat
  /\ count_key k (py_set (fun _ => 0) [a; b]) = 1%nat
  /\ (k ∉ keys [] ->
      count_key k (new (compare_slots (fun _ => 0) [a; b] [])) = count_key k [a; b]
      /\ count_key k (unchanged (compare_slots (fun _ => 0) [a; b] [])) = 0%nat)
  /\ (k ∈ keys [] ->
      count_key k (unchanged (compare_slots (fun _ => 0) [a; b] [])) = count_key k [a; b]
      /\ count_key k (new (compare_slots (fun _ => 0) [a; b] [])) = 0%nat).
Proof.
  intros a b k.
  assert (H : (2 <= count_key k [a; b])%nat) by (vm_compute; lia).
  split; [exact H|].
  exact (duplicates_are_kept (fun _ => 0) [a; b] [] k H).
Defined.

Example duplicates_listed_twice :
  let a : Slot := mkSlot "2026-08-05" "8:30 AM" (Some "Dr. Rai") None None None in
  let b : Slot := mkSlot "2026-08-05" "8:30 AM" (Some "Dr. Lee") None None None in
  new (compare_slots (fun _ => 0) [a; b] []) = [a; b]
  /\ unchanged (compare_slots (fun _ => 0) [a; b] [a]) = [a; b]
  /\ py_set (fun _ => 0) [a; b] = [a].
Proof. repeat split. Qed.

(** The reconciliation scenario of the design document. *)
Example reconcile_scenario :
  let a : Slot := mkSlot "2026-08-05" "8:30 AM" None None None None in
  let b : Slot := mkSlot "2026-08-06" "9:00 AM" None None None None in
  compare_slots (fun _ => 0) [a; b] [a]
  = {| new := [b]; removed := []; unchanged := [a] |}.
Proof. reflexivity. Qed.

(** ** The history store *)

Lemma dict_lookup_setitem_eq (k : string) (v : pyval) (d : list (string * pyval)) :
  dict_lookup k (dict_setitem k v d) = Some v.
Proof.
  induction d as [|[k' v'] d IH]; simpl.
  - rewrite String.eqb_refl. reflexivity.
  - destruct (String.eqb_spec k k') as [->|N]; simpl.
    + rewrite String.eqb_refl. reflexivity.
    + apply String.eqb_neq in N. rewrite N. exact IH.
Qed.

Lemma dict_lookup_setitem_ne (k k' : string) (v : pyval) (d : list (string * pyval)) :
  k <> k' -> dict_lookup k' (dict_setitem k v d) = dict_lookup k' d.
Proof.
  intros N. induction d as [|[k0 v0] d IH]; simpl.
  - apply not_eq_sym, String.eqb_neq in N. rewrite N. reflexivity.
  - destruct (String.eqb_spec k k0) as [->|N0]; simpl.
    + apply not_eq_sym, String.eqb_neq in N. rewrite N. reflexivity.
    + rewrite IH. reflexivity.
Qed.




(** *** Reading *)

Lemma load_present (a : access) (v : pyval) :
  can_read a = true -> load (Present a (Ok v)) = Ok v.
Proof. intros R. unfold load. cbn. rewrite R. reflexivity. Qed.

Lemma load_usable (f : history_file) :
  usable_history f ->
  exists d, load f = Ok (PDict d)
            /\ (dict_lookup "checks" d = None /\ history_checks f = []
                \/ dict_lookup "checks" d = Some (PList (history_checks f))).
Proof.
  unfold usable_history, history_checks.
  destruct (load f) as [[| | | | | |d]|e]; try contradiction.
  intros U. exists d. split; [reflexivity|].
  destruct (dict_lookup "checks" d) as [[| | | | |l|]|];
    try contradiction; [right|left]; auto.
Qed.

Lemma updated_history_rewritten (f : history_file) (c : update_call) :
  usable_history f ->
  exists d, load f = Ok (PDict d)
            /\ updated_history f c = Ok (PDict (rewritten f c d)).
Proof.
  intros U. destruct (load_usable f U) as (d & L & C).
  exists d. split; [exact L|].
  unfold updated_history, rewritten. rewrite L. cbn [bind py_get_default].
  assert (G : from_option id (PList []) (dict_lookup "checks" d)
              = PList (history_checks f)).
  { destruct C as [[-> ->]| ->]; reflexivity. }
  rewrite G. cbn [bind py_append py_update dict_update fold_left fst snd].
  destruct (truthy (raw_response c)); reflexivity.
Qed.

Lemma rewritten_lookups (f : history_file) (c : update_call) (d : list (string * pyval)) :
  dict_lookup "checks" (rewritten f c d)
  = Some (PList (slice_last 100 (history_checks f ++ [check_record c])))
  /\ dict_lookup "last_check" (rewritten f c d) = Some (PStr (last_check c))
  /\ dict_lookup "slots" (rewritten f c d) = Some (PList (map to_dict (current_slots c))).
Proof.
  unfold rewritten. destruct (truthy (raw_response c));
    repeat split;
    repeat (first [ rewrite dict_lookup_setitem_eq; reflexivity
                  | rewrite dict_lookup_setitem_ne by discriminate ]).
Qed.



(** *** What [json.dump] can write *)

Lemma traverse_unit {A} (f : A -> result unit) (xs : list A) :
  (exists ys, traverse f xs = Ok ys) <-> Forall (fun x => f x = Ok tt) xs.
Proof.
  induction xs as [|x xs IH]; cbn [traverse].
  - split; [constructor | eauto].
  - split.
    + intros [ys E]. apply bind_ok in E as (y & Ex & E).
      apply bind_ok in E as (more & Em & _). destruct y.
      constructor; [exact Ex | apply IH; eauto].
    + intros H. inversion H as [|? ? Hx Hxs]; subst.
      apply IH in Hxs as [ys Eys]. rewrite Hx, Eys. cbn [bind]. eauto.
Qed.

Section encoding.
Variable max_str_digits : nat.

Lemma fits_list (k : nat) (l : list pyval) :
  json_encode max_str_digits (S k) (PList l) = Ok tt
  <-> Forall (fun v => json_encode max_str_digits k v = Ok tt) l.
Proof.
  rewrite <- traverse_unit. cbn [json_encode]. split.
  - intros E. apply bind_ok in E as (ys & E & _). eauto.
  - intros [ys ->]. reflexivity.
Qed.

Lemma fits_dict (k : nat) (d : list (string * pyval)) :
  json_encode max_str_digits (S k) (PDict d) = Ok tt
  <-> Forall (fun kv => json_encode max_str_digits k (snd kv) = Ok tt) d.
Proof.
  rewrite <- (traverse_unit (fun kv => json_encode max_str_digits k (snd kv))).
  cbn [json_encode]. split.
  - intros E. apply bind_ok in E as (ys & E & _). eauto.
  - intros [ys ->]. reflexivity.
Qed.

Lemma fits_list_level (k : nat) (l : list pyval) :
  json_encode max_str_digits k (PList l) = Ok tt -> exists j, k = S j.
Proof. destruct k; [discriminate | eauto]. Qed.

Lemma fits_dict_level (k : nat) (d : list (string * pyval)) :
  json_encode max_str_digits k (PDict d) = Ok tt -> exists j, k = S j.
Proof. destruct k; [discriminate | eauto]. Qed.

Lemma dict_setitem_Forall (Q : pyval -> Prop) (k : string) (v : pyval)
    (d : list (string * pyval)) :
  Forall (fun kv => Q (snd kv)) d -> Q v ->
  Forall (fun kv => Q (snd kv)) (dict_setitem k v d).
Proof.
  intros H Hv. induction H as [|[k' v'] d Hx Hd IH]; cbn [dict_setitem].
  - constructor; [exact Hv | constructor].
  - destruct (String.eqb k k'); constructor; auto.
Qed.

Lemma dict_lookup_Forall (Q : pyval -> Prop) (k : string) (v : pyval)
    (d : list (string * pyval)) :
  Forall (fun kv => Q (snd kv)) d -> dict_lookup k d = Some v -> Q v.
Proof.
  intros H. induction H as [|[k' v'] d Hx Hd IH]; cbn [dict_lookup]; [discriminate|].
  destruct (String.eqb k k'); [intros [= <-]; exact Hx | exact IH].
Qed.

(** The snapshot of a call [json.dump] can write, built from a snapshot
    it can write, is one it can write. *)
Lemma rewritten_fits (dump_depth : nat) (f : history_file) (c : update_call)
    (d : list (string * pyval)) :
  load f = Ok (PDict d) ->
  json_encode max_str_digits dump_depth (PDict d) = Ok tt ->
  storable max_str_digits dump_depth c ->
  json_encode max_str_digits dump_depth (PDict (rewritten f c d)) = Ok tt.
Proof.
  intros L Fd (_ & Fc).
  destruct (fits_dict_level _ _ Fd) as [k ->]. cbn [pred] in Fc.
  apply fits_dict in Fd.
  inversion Fc as [|? ? Frecord Fc1]; subst.
  inversion Fc1 as [|? ? Fslots Fc2]; subst.
  inversion Fc2 as [|? ? Fraw _]; subst.
  assert (Fchecks : json_encode max_str_digits k
                      (PList (slice_last 100 (history_checks f ++ [check_record c])))
                    = Ok tt).
  { destruct (fits_list_level _ _ Frecord) as [j ->].
    apply fits_list. apply fits_list in Frecord.
    unfold slice_last. apply Forall_drop, Forall_app. split; [|exact Frecord].
    unfold history_checks. rewrite L.
    destruct (dict_lookup "checks" d) as [[| | | | |l|]|] eqn:E; try constructor.
    apply fits_list.
    exact (dict_lookup_Forall (fun v => json_encode max_str_digits (S j) v = Ok tt)
             "checks" (PList l) d Fd E). }
  apply fits_dict. unfold rewritten.
  destruct (truthy (raw_response c));
    repeat (apply (dict_setitem_Forall
                     (fun v => json_encode max_str_digits k v = Ok tt));
            [|first [exact Fchecks | exact Fslots | exact Fraw
                    | destruct k; reflexivity]]);
    exact Fd.
Qed.

End encoding.

(** *** Writing *)

Section store_facts.
Variable max_str_digits : nat.
Variable dump_depth : nat.

Lemma dependable_opens (f : history_file) :
  dependable f ->
  exists a, open_for_writing f = Ok a /\ can_read a = true /\ can_write a = true.
Proof.
  destruct f as [[a|]|a content| |]; cbn; try contradiction.
  - intros [R W]. eauto.
  - intros (R & W & _). rewrite W. eauto.
Qed.

(** One call on a sound history with a storable call: it returns, the
    file holds the snapshot it built and is a sound history again. *)
Lemma update_sound (f : history_file) (c : update_call) :
  sound_history max_str_digits dump_depth f ->
  storable max_str_digits dump_depth c ->
  exists a d,
    load f = Ok (PDict d)
    /\ update max_str_digits dump_depth f c = (Present a (Ok (PDict (rewritten f c d))), Ok tt)
    /\ can_read a = true
    /\ sound_history max_str_digits dump_depth (Present a (Ok (PDict (rewritten f c d)))).
Proof.
  intros (D & U & h & L & Fh) S.
  destruct (updated_history_rewritten f c U) as (d & Ld & E).
  rewrite Ld in L. injection L as <-.
  destruct (dependable_opens f D) as (a & O & R & W).
  assert (F' : json_encode max_str_digits dump_depth (PDict (rewritten f c d)) = Ok tt)
    by (apply rewritten_fits; assumption).
  exists a, d. split; [exact Ld|].
  split; [|split; [exact R|]].
  - unfold update. rewrite E. unfold save, json_dump. rewrite O, F'. reflexivity.
  - split; [|split].
    + cbn. repeat split; [exact R | exact W | discriminate].
    + unfold usable_history. rewrite load_present by exact R.
      destruct (rewritten_lookups f c d) as (-> & _). exact I.
    + exists (PDict (rewritten f c d)). split; [apply load_present, R | exact F'].
Qed.



(** What a call that returns has written. *)
Lemma update_returns (f f' : history_file) (c : update_call) :
  update max_str_digits dump_depth f c = (f', Ok tt) ->
  exists a h',
    updated_history f c = Ok h'
    /\ open_for_writing f = Ok a
    /\ f' = Present a (Ok h').
Proof.
  unfold update, save.
  destruct (updated_history f c) as [h'|e]; [|intros [= _ E]; discriminate E].
  destruct (open_for_writing f) as [a|e]; [|intros [= _ E]; discriminate E].
  destruct (json_dump max_str_digits dump_depth h') as [u|e];
    [|intros [= _ E]; discriminate E].
  intros [= <-]. eauto.
Qed.


End store_facts.



Example load_undecodable_bytes :
  load (Present (mkAccess true true) (Raise UnicodeDecodeError))
  = Raise UnicodeDecodeError.
Proof. reflexivity. Qed.

Example load_unreachable_path : load Unreachable = Raise IOError.
Proof. reflexivity. Qed.

Example load_unreadable_file :
  load (Present (mkAccess false true) (Ok (PDict [("checks", PList [PNone])])))
  = Ok default_history.
Proof. reflexivity. Qed.

Section store_claims.
Variable max_str_digits : nat.
Variable dump_depth : nat.


(** C10 (as the code has it). An [update] without raw response whose
    slots have the declared types returns on every history the store
    can rewrite for good.  Whenever it returns, the file holds a
    snapshot with [last_check] and [slots] set from the call and a
    [checks] array, and with every other top-level key of the snapshot
    [load] returned at the value it had there.  When the process can
    read the file, the snapshot [load] returned is the one the file
    held, so every other top-level key of that one is carried over. *)
Theorem update_keeps_other_keys (f : history_file) (c : update_call) :
  raw_response c = PNone ->
  storable max_str_digits dump_depth c ->
  (sound_history max_str_digits dump_depth f ->
   exists f', update max_str_digits dump_depth f c = (f', Ok tt))
  /\ (forall f',
        update max_str_digits dump_depth f c = (f', Ok tt) ->
        exists h h',
          load f = Ok h
          /\ persisted f' = Some h'
          /\ snapshot_lookup "last_check" h' = Some (PStr (last_check c))
          /\ snapshot_lookup "slots" h' = Some (PList (map to_dict (current_slots c)))
          /\ (exists l, snapshot_lookup "checks" h' = Some (PList l))
          /\ (forall k, k <> "last_check" -> k <> "slots" -> k <> "checks" ->
                snapshot_lookup k h' = snapshot_lookup k h)
          /\ (readable f -> forall p, persisted f = Some p -> h = p)).
Proof.
  intros Hraw S. split.
  - intros H. destruct (update_sound max_str_digits dump_depth f c H S)
      as (a & d & _ & E & _).
    eauto.
  - intros f' E. apply update_returns in E as (a & h' & E & _ & ->).
    unfold updated_history in E. rewrite Hraw in E. cbn [truthy] in E.
    destruct (load f) as [h|e] eqn:L; cbn [bind] in E; [|discriminate].
    exists h, h'. split; [reflexivity|]. split; [reflexivity|].
    assert (P : readable f -> forall p, persisted f = Some p -> h = p).
    { destruct f as [create|a0 [v|e0]| |]; cbn; try contradiction;
        intros R p; try discriminate.
      intros [= <-]. rewrite load_present in L by exact R. congruence. }
    destruct h as [| | | | | |d]; cbn [py_get_default bind] in E; try discriminate.
    destruct (from_option id (PList []) (dict_lookup "checks" d)) as [| | | | |l|];
      cbn [py_append bind] in E; try discriminate.
    cbn [py_update dict_update fold_left fst snd bind] in E.
    injection E as <-. cbn [snapshot_lookup].
    split; [|split; [|split; [|split]]].
    + rewrite !dict_lookup_setitem_ne by discriminate.
      apply dict_lookup_setitem_eq.
    + rewrite dict_lookup_setitem_ne by discriminate.
      apply dict_lookup_setitem_eq.
    + eexists. apply dict_lookup_setitem_eq.
    + intros k K1 K2 K3.
      rewrite !dict_lookup_setitem_ne by auto. reflexivity.
    + exact P.
Qed.

End store_claims.

Lemma empty_call_storable : storable 4300 100 empty_call.
Proof. split; [exists []; reflexivity | repeat constructor]. Qed.




Example update_on_null_checks :
  let f := Present (mkAccess true true)
             (Ok (PDict [("last_check", PNone); ("slots", PList []);
                         ("checks", PNone)])) in
  update 4300 100 f empty_call = (f, Raise AttributeError).
Proof. reflexivity. Qed.

Example update_on_json_array :
  let f := Present (mkAccess true true) (Ok (PList [])) in
  update 4300 100 f empty_call = (f, Raise AttributeError).
Proof. reflexivity. Qed.

(** Where the path is a directory, [load] recovers and [save] raises. *)
Example update_on_directory :
  load Directory = Ok default_history
  /\ update 4300 100 Directory empty_call = (Directory, Raise IOError).
Proof. split; reflexivity. Qed.

(** A file the process can write but not read is rewritten from the
    default snapshot by every call: its log never passes one entry. *)
Example write_only_file_keeps_one_entry :
  let f := Present (mkAccess false true) (Ok (PDict [("checks", PList [PNone; PNone])])) in
  exists f', updates 4300 100 f (replicate 150 empty_call) = (f', Ok tt)
             /\ persisted_checks f' = Some [check_record empty_call].
Proof. eexists. split; vm_compute; reflexivity. Qed.

(** A snapshot nested deeper than [json.dump] can go: the call raises
    and leaves a file that no longer parses. *)
Example update_on_deep_raw_response :
  update 4300 3 (Absent (Some (mkAccess true true)))
    (mkCall "t" "t" [] (PDict [("a", PList [PList [PList []]])]))
  = (Present (mkAccess true true) (Raise JSONDecodeError), Raise RecursionError).
Proof. reflexivity. Qed.

Lemma update_keeps_other_keys_witness :
  let f := Present (mkAccess true true)
             (Ok (PDict [("last_check", PStr "t0"); ("slots", PList []);
                         ("checks", PList []);
                         ("last_raw_response", PDict [("Slots", PList [])])])) in
  let c := empty_call in
  (sound_history 4300 100 f ->
   exists f', update 4300 100 f c = (f', Ok tt))
  /\ (forall f',
        update 4300 100 f c = (f', Ok tt) ->
        exists h h',
          load f = Ok h
          /\ persisted f' = Some h'
          /\ snapshot_lookup "last_check" h' = Some (PStr (last_check c))
          /\ snapshot_lookup "slots" h' = Some (PList (map to_dict (current_slots c)))
          /\ (exists l, snapshot_lookup "checks" h' = Some (PList l))
          /\ (forall k, k <> "last_check" -> k <> "slots" -> k <> "checks" ->
                snapshot_lookup k h' = snapshot_lookup k h)
          /\ (readable f -> forall p, persisted f = Some p -> h = p)).
Proof.
  intros f c.
  apply (update_keeps_other_keys 4300 100 f c); [reflexivity | exact empty_call_storable].
Defined.

(** C10 as stated fails: the snapshot of a file the process can write
    but not read is not carried over.  [load] falls back on the default
    snapshot, and the call overwrites the file with what it built from
    that: a [last_raw_response] stored earlier is gone. *)
Lemma update_forgets_unreadable_snapshot :
  ~ (forall (max_str_digits dump_depth : nat) (f f' : history_file)
            (c : update_call) (p p' : pyval) (k : string),
       raw_response c = PNone ->
       persisted f = Some p ->
       update max_str_digits dump_depth f c = (f', Ok tt) ->
       persisted f' = Some p' ->
       k <> "last_check" -> k <> "slots" -> k <> "checks" ->
       snapshot_lookup k p' = snapshot_lookup k p).
Proof.
  intros H.
  pose (p := PDict [("last_check", PStr "t0"); ("slots", PList []);
                    ("checks", PList []);
                    ("last_raw_response", PDict [("Slots", PList [])])]).
  specialize (H 4300%nat 100%nat (Present (mkAccess false true) (Ok p))
                (Present (mkAccess false true)
                   (Ok (PDict [("last_check", PStr "t"); ("slots", PList []);
                               ("checks", PList [check_record empty_call])])))
                empty_call p
                (PDict [("last_check", PStr "t"); ("slots", PList []);
                        ("checks", PList [check_record empty_call])])
                "last_raw_response"
                eq_refl eq_refl eq_refl eq_refl).
  assert (E : snapshot_lookup "last_raw_response"
                (PDict [("last_check", PStr "t"); ("slots", PList []);
                        ("checks", PList [check_record empty_call])])
              = snapshot_lookup "last_raw_response" p)
    by (apply H; discriminate).
  discriminate E.
Qed.

Example stale_raw_response_stays :
  updated_history
    (Present (mkAccess true true)
       (Ok (PDict [("last_check", PStr "t0"); ("slots", PList []);
                   ("checks", PList []);
                   ("last_raw_response", PDict [("Slots", PList [])])])))
    empty_call
  = Ok (PDict [("last_check", PStr "t"); ("slots", PList []);
               ("checks", PList [PDict [("timestamp", PStr "t");
                                        ("slot_count", PInt 0)]]);
               ("last_raw_response", PDict [("Slots", PList [])])]).
Proof. reflexivity. Qed.

(** ** The parser *)

Lemma append_nonempty_l (s t : string) : s <> "" -> s +:+ t <> "".
Proof. destruct s; [congruence | discriminate]. Qed.

Lemma append_nonempty_r (s t : string) : t <> "" -> s +:+ t <> "".
Proof. destruct s; [trivial | discriminate]. Qed.

Lemma pretty_N_go_nonempty (x : N) (s : string) : s <> "" -> pretty_N_go x s <> "".
Proof.
  revert s. induction (N.lt_wf_0 x) as [x _ IH]. intros s Hs.
  destruct (N.eq_0_gt_0_cases x) as [->|Hpos].
  - rewrite pretty_N_go_0. exact Hs.
  - rewrite pretty_N_go_step by exact Hpos.
    apply IH; [apply N.div_lt; lia | discriminate].
Qed.

Lemma pretty_positive_nonempty (p : positive) : pretty p <> "".
Proof.
  unfold pretty, pretty_positive, pretty, pretty_N.
  destruct (decide (N.pos p = 0%N)) as [E|_]; [discriminate E|].
  rewrite pretty_N_go_step by lia.
  apply pretty_N_go_nonempty. discriminate.
Qed.

Lemma pretty_Z_nonempty (n : Z) : pretty n <> "".
Proof.
  destruct n as [|p|p]; unfold pretty, pretty_Z.
  - discriminate.
  - apply pretty_positive_nonempty.
  - discriminate.
Qed.

Lemma isoformat_nonempty (d : PyDate.date) : isoformat d <> "".
Proof.
  unfold isoformat. do 4 apply append_nonempty_r.
  unfold zero_pad. apply append_nonempty_r, pretty_Z_nonempty.
Qed.

(** On a dict, [get] never raises. *)
Lemma py_get_dict (d : list (string * pyval)) (k : string) :
  py_get (PDict d) k = Ok (from_option id PNone (dict_lookup k d)).
Proof. reflexivity. Qed.

Lemma py_or_ok (a b : result pyval) :
  (exists x, a = Ok x) -> (exists y, b = Ok y) -> exists z, a `or` b = Ok z.
Proof.
  intros [x ->] [y ->]. unfold py_or. simpl. destruct (truthy x); eauto.
Qed.

(** An [or] chain of falsy values ends in a falsy value. *)
Lemma py_or_falsy (x : pyval) (b : result pyval) :
  truthy x = false -> Ok x `or` b = b.
Proof. intros H. unfold py_or. simpl. rewrite H. reflexivity. Qed.

Lemma get_falsy (ks : list string) (d : list (string * pyval)) (k : string) :
  all_falsy ks d -> In k ks -> truthy (from_option id PNone (dict_lookup k d)) = false.
Proof.
  intros H Hin. specialize (H k Hin).
  destruct (dict_lookup k d); simpl; [exact H | reflexivity].
Qed.

Lemma lacks_falsy (ks : list string) (d : list (string * pyval)) :
  lacks ks d -> all_falsy ks d.
Proof. intros H k Hin. rewrite (H k Hin). exact I. Qed.

Lemma or_chain4_falsy (ks : list string) (d : list (string * pyval)) (k1 k2 k3 k4 : string) :
  all_falsy ks d -> In k1 ks -> In k2 ks -> In k3 ks -> In k4 ks ->
  exists v, (py_get (PDict d) k1 `or` py_get (PDict d) k2 `or`
             py_get (PDict d) k3 `or` py_get (PDict d) k4) = Ok v
            /\ truthy v = false.
Proof.
  intros H H1 H2 H3 H4. rewrite !py_get_dict.
  rewrite !py_or_falsy by (eapply get_falsy; eassumption).
  eexists. split; [reflexivity|]. eapply get_falsy; eassumption.
Qed.

Lemma or_chain4_ok (d : list (string * pyval)) (k1 k2 k3 k4 : string) :
  exists v, (py_get (PDict d) k1 `or` py_get (PDict d) k2 `or`
             py_get (PDict d) k3 `or` py_get (PDict d) k4) = Ok v.
Proof. rewrite !py_get_dict. repeat (apply py_or_ok; [eauto|]). eauto. Qed.

Lemma py_or_inv (a b : result pyval) (v : pyval) :
  a `or` b = Ok v ->
  (a = Ok v /\ truthy v = true)
  \/ (exists x, a = Ok x /\ truthy x = false /\ b = Ok v).
Proof.
  unfold py_or. destruct a as [x|e]; cbn [bind]; [|discriminate].
  destruct (truthy x) eqn:T.
  - intros [= <-]. left. auto.
  - intros E. right. eauto.
Qed.

(** The truthy value an [or] chain of four lookups ends in is the value
    of one of the four keys. *)
Lemma or_chain4_holds (data : pyval) (k1 k2 k3 k4 : string) (v : pyval) :
  (py_get data k1 `or` py_get data k2 `or` py_get data k3 `or` py_get data k4) = Ok v ->
  truthy v = true ->
  holds [k1; k2; k3; k4] data.
Proof.
  intros E T.
  apply py_or_inv in E as [[E _]|(x1 & _ & _ & E)];
    [exists k1, v; simpl; tauto|].
  apply py_or_inv in E as [[E _]|(x2 & _ & _ & E)];
    [exists k2, v; simpl; tauto|].
  apply py_or_inv in E as [[E _]|(x3 & _ & _ & E)];
    [exists k3, v; simpl; tauto|].
  exists k4, v. simpl. tauto.
Qed.

Section parser_facts.
Variable float_repr : float -> string.
Variable str_repr : string -> string.
Variable max_str_digits : nat.
Variable repr_depth : nat.
Hypothesis float_repr_nonempty : forall f, float_repr f <> "".


(** [str()] of a truthy value is not the empty text. *)
Lemma py_str_truthy (v : pyval) (s : string) :
  py_str float_repr str_repr max_str_digits repr_depth v = Ok s ->
  truthy v = true -> s <> "".
Proof.
  destruct v as [|b|n|f|t|l|d]; cbn [py_str truthy]; intros E T;
    try discriminate T;
    try (destruct repr_depth as [|k]; cbn [py_repr] in E; [discriminate E|]).
  - subst b. injection E as <-. discriminate.
  - unfold int_repr in E.
    destruct (_ && _) in E; [discriminate E|]. injection E as <-.
    apply pretty_Z_nonempty.
  - injection E as <-. apply float_repr_nonempty.
  - injection E as <-. destruct t; [discriminate T | discriminate].
  - apply bind_ok in E as (items & _ & E). injection E as <-. discriminate.
  - apply bind_ok in E as (items & _ & E). injection E as <-. discriminate.
Qed.

(** What a record that gives a slot must hold. *)
Lemma parse_single_slot_body_inv
    (data date_override provider department department_id : pyval) (s : RawSlot) :
  parse_single_slot_body float_repr str_repr max_str_digits repr_depth
                         data date_override provider department department_id
  = Ok (Some s) ->
  has_date_and_time s
  /\ holds time_keys data
  /\ (holds date_keys data \/ truthy date_override = true).
Proof.
  unfold parse_single_slot_body. intros E.
  apply bind_ok in E as (slot_date & Ed0 & E).
  apply bind_ok in E as (slot_time & Et0 & E).
  destruct (truthy slot_date) eqn:Td; [|discriminate E].
  destruct (truthy slot_time) eqn:Tt; [|discriminate E].
  cbn [negb orb] in E.
  apply bind_ok in E as (slot_date' & Ed & E).
  apply bind_ok in E as (date_text & Sd & E).
  apply bind_ok in E as (time_text & St & E).
  apply bind_ok in E as (p & _ & E).
  apply bind_ok in E as (dp & _ & E).
  apply bind_ok in E as (di & _ & E).
  apply bind_ok in E as (si & _ & E).
  injection E as <-. split; [split; cbn [date time]|split].
  - destruct (isinstance_int slot_date).
    + destruct (int_to_epic_date (int_value slot_date)) as [d|]; [|discriminate Ed].
      injection Ed as <-. injection Sd as <-. apply isoformat_nonempty.
    + injection Ed as <-. eapply py_str_truthy; eassumption.
  - eapply py_str_truthy; eassumption.
  - eapply or_chain4_holds; eassumption.
  - destruct (truthy date_override); [right; reflexivity|].
    left. eapply or_chain4_holds; eassumption.
Qed.

Lemma parse_single_slot_inv
    (data date_override provider department department_id : pyval) (s : RawSlot) :
  _parse_single_slot float_repr str_repr max_str_digits repr_depth
                     data date_override provider department department_id = Some s ->
  has_date_and_time s
  /\ holds time_keys data
  /\ (holds date_keys data \/ truthy date_override = true).
Proof.
  unfold _parse_single_slot.
  destruct (parse_single_slot_body float_repr str_repr max_str_digits repr_depth
              data date_override provider department department_id)
    as [r|e] eqn:E; [|discriminate].
  intros ->. eapply parse_single_slot_body_inv, E.
Qed.

Lemma parse_single_slot_body_sound
    (data date_override provider department department_id : pyval) (s : RawSlot) :
  parse_single_slot_body float_repr str_repr max_str_digits repr_depth data date_override provider department department_id
  = Ok (Some s) ->
  has_date_and_time s.
Proof. intros E. eapply parse_single_slot_body_inv, E. Qed.

Lemma parse_single_slot_sound
    (data date_override provider department department_id : pyval) (s : RawSlot) :
  _parse_single_slot float_repr str_repr max_str_digits repr_depth data date_override provider department department_id = Some s ->
  has_date_and_time s.
Proof.
  unfold _parse_single_slot.
  destruct (parse_single_slot_body float_repr str_repr max_str_digits repr_depth data date_override provider department department_id)
    as [r|e] eqn:E; [|discriminate].
  intros ->. eapply parse_single_slot_body_sound, E.
Qed.

Lemma collect_sound (f : pyval -> option RawSlot) (xs : list pyval) :
  (forall x s, f x = Some s -> has_date_and_time s) ->
  Forall has_date_and_time (collect f xs).
Proof.
  intros Hf. unfold collect. induction xs as [|x xs IH]; simpl; [constructor|].
  destruct (f x) as [s|] eqn:E; [constructor; eauto | exact IH].
Qed.

Lemma parse_slot_item_sound (item : pyval) (slots : list RawSlot) :
  _parse_slot_item float_repr str_repr max_str_digits repr_depth item = Ok slots -> Forall has_date_and_time slots.
Proof.
  unfold _parse_slot_item.
  destruct item as [| | | | | |d]; try (intros [= <-]; constructor).
  intros E.
  apply bind_ok in E as (day_date & _ & E).
  apply bind_ok in E as (day_slots & _ & E).
  destruct (truthy day_date && truthy day_slots).
  - apply bind_ok in E as (xs & _ & E). injection E as <-.
    apply collect_sound. intros x s. apply parse_single_slot_sound.
  - injection E as <-.
    destruct (_parse_single_slot float_repr str_repr max_str_digits repr_depth (PDict d) PNone PNone PNone PNone) as [s|] eqn:P;
      simpl; [|constructor].
    constructor; [|constructor]. eapply parse_single_slot_sound, P.
Qed.

Lemma for_each_sound (f : pyval -> result (list RawSlot)) (xs : list pyval)
    (slots : list RawSlot) :
  (forall x l, f x = Ok l -> Forall has_date_and_time l) ->
  for_each f xs = Ok slots -> Forall has_date_and_time slots.
Proof.
  intros Hf. revert slots. induction xs as [|x xs IH]; simpl; intros slots E.
  - injection E as <-. constructor.
  - apply bind_ok in E as (l & El & E).
    apply bind_ok in E as (more & Em & E).
    injection E as <-. apply Forall_app. eauto.
Qed.

Lemma parse_items_sound (items : list pyval) (slots : list RawSlot) :
  parse_items float_repr str_repr max_str_digits repr_depth items = Ok slots -> Forall has_date_and_time slots.
Proof.
  revert slots. induction items as [|x xs IH]; simpl; intros slots E.
  - injection E as <-. constructor.
  - apply bind_ok in E as (l & El & E).
    apply bind_ok in E as (more & Em & E).
    injection E as <-. apply Forall_app.
    split; [eapply parse_slot_item_sound, El | eauto].
Qed.

Lemma parse_container_sound (c : pyval) (slots : list RawSlot) :
  parse_container float_repr str_repr max_str_digits repr_depth c = Ok slots -> Forall has_date_and_time slots.
Proof.
  unfold parse_container. destruct (negb (truthy c)); [intros [= <-]; constructor|].
  destruct c; try (intros [= <-]; constructor). apply parse_items_sound.
Qed.

Lemma parse_containers_sound (cs : list pyval) (slots : list RawSlot) :
  parse_containers float_repr str_repr max_str_digits repr_depth cs = Ok slots -> Forall has_date_and_time slots.
Proof.
  revert slots. induction cs as [|c cs IH]; simpl; intros slots E.
  - injection E as <-. constructor.
  - apply bind_ok in E as (l & El & E).
    apply bind_ok in E as (more & Em & E).
    injection E as <-. apply Forall_app.
    split; [eapply parse_container_sound, El | eauto].
Qed.

Lemma parse_provider_sound (provider : pyval) (slots : list RawSlot) :
  parse_provider float_repr str_repr max_str_digits repr_depth provider = Ok slots ->
  Forall has_date_and_time slots.
Proof.
  unfold parse_provider. intros E.
  apply bind_ok in E as (name & _ & E).
  apply bind_ok in E as (ps & _ & E).
  apply bind_ok in E as (xs & _ & E). injection E as <-.
  apply collect_sound. intros x s. apply parse_single_slot_sound.
Qed.

Lemma parse_department_sound (dept : pyval) (slots : list RawSlot) :
  parse_department float_repr str_repr max_str_digits repr_depth dept = Ok slots ->
  Forall has_date_and_time slots.
Proof.
  unfold parse_department. intros E.
  apply bind_ok in E as (name & _ & E).
  apply bind_ok in E as (id & _ & E).
  apply bind_ok in E as (ps & _ & E).
  apply bind_ok in E as (xs & _ & E). injection E as <-.
  apply collect_sound. intros x s. apply parse_single_slot_sound.
Qed.

Lemma parse_slots_sound (response_data : pyval) (slots : list RawSlot) :
  parse_slots float_repr str_repr max_str_digits repr_depth response_data = Ok slots -> Forall has_date_and_time slots.
Proof.
  unfold parse_slots. intros E.
  apply bind_ok in E as (c1 & _ & E).
  apply bind_ok in E as (c2 & _ & E).
  apply bind_ok in E as (c3 & _ & E).
  apply bind_ok in E as (c4 & _ & E).
  apply bind_ok in E as (c5 & _ & E).
  apply bind_ok in E as (l1 & E1 & E).
  apply bind_ok in E as (ps & _ & E).
  apply bind_ok in E as (providers & _ & E).
  apply bind_ok in E as (l2 & E2 & E).
  apply bind_ok in E as (ds & _ & E).
  apply bind_ok in E as (departments & _ & E).
  apply bind_ok in E as (l3 & E3 & E).
  injection E as <-. rewrite !Forall_app. repeat split.
  - eapply parse_containers_sound, E1.
  - eapply for_each_sound, E2. apply parse_provider_sound.
  - eapply for_each_sound, E3. apply parse_department_sound.
Qed.

(** *** Where each slot comes from *)

Lemma collect_origin (f : pyval -> option RawSlot) (xs : list pyval) (s : RawSlot) :
  In s (collect f xs) -> exists x, In x xs /\ f x = Some s.
Proof.
  unfold collect. induction xs as [|x xs IH]; simpl; [intros []|].
  destruct (f x) as [s'|] eqn:E.
  - intros [<-|H]; [eauto|]. destruct (IH H) as (y & Hy & Ey). eauto.
  - intros H. destruct (IH H) as (y & Hy & Ey). eauto.
Qed.

Lemma parse_slot_item_origin (item : pyval) (slots : list RawSlot) (s : RawSlot) :
  _parse_slot_item float_repr str_repr max_str_digits repr_depth item = Ok slots ->
  In s slots ->
  exists record handed,
    item_record item record handed
    /\ _parse_single_slot float_repr str_repr max_str_digits repr_depth
                          record handed PNone PNone PNone = Some s.
Proof.
  unfold _parse_slot_item.
  destruct item as [| | | | | |d]; try (intros [= <-] []).
  intros E Hin.
  apply bind_ok in E as (day_date & Ed & E).
  apply bind_ok in E as (day_slots & Es & E).
  destruct (truthy day_date && truthy day_slots) eqn:T.
  - apply bind_ok in E as (xs & Ex & E). injection E as <-.
    apply collect_origin in Hin as (x & Hx & Px).
    exists x, day_date. split; [|exact Px].
    eapply item_of_day; eassumption.
  - injection E as <-.
    destruct (_parse_single_slot float_repr str_repr max_str_digits repr_depth
                (PDict d) PNone PNone PNone PNone) as [s'|] eqn:P;
      simpl in Hin; [|contradiction].
    destruct Hin as [<-|[]].
    exists (PDict d), PNone. split; [|exact P].
    eapply item_itself; eassumption.
Qed.

Lemma parse_items_origin (items : list pyval) (slots : list RawSlot) (s : RawSlot) :
  parse_items float_repr str_repr max_str_digits repr_depth items = Ok slots ->
  In s slots ->
  exists item l,
    In item items
    /\ _parse_slot_item float_repr str_repr max_str_digits repr_depth item = Ok l
    /\ In s l.
Proof.
  revert slots. induction items as [|x xs IH]; simpl; intros slots E Hin.
  - injection E as <-. contradiction.
  - apply bind_ok in E as (l & El & E).
    apply bind_ok in E as (more & Em & E).
    injection E as <-. apply in_app_or in Hin as [H|H].
    + exists x, l. auto.
    + destruct (IH more Em H) as (item & l' & Hi & El' & Hs). exists item, l'. auto.
Qed.

Lemma parse_containers_origin (cs : list pyval) (slots : list RawSlot) (s : RawSlot) :
  parse_containers float_repr str_repr max_str_digits repr_depth cs = Ok slots ->
  In s slots ->
  exists c l,
    In c cs
    /\ parse_container float_repr str_repr max_str_digits repr_depth c = Ok l
    /\ In s l.
Proof.
  revert slots. induction cs as [|c cs IH]; simpl; intros slots E Hin.
  - injection E as <-. contradiction.
  - apply bind_ok in E as (l & El & E).
    apply bind_ok in E as (more & Em & E).
    injection E as <-. apply in_app_or in Hin as [H|H].
    + exists c, l. auto.
    + destruct (IH more Em H) as (c' & l' & Hi & El' & Hs). exists c', l'. auto.
Qed.

Lemma for_each_origin (f : pyval -> result (list RawSlot)) (xs : list pyval)
    (slots : list RawSlot) (s : RawSlot) :
  for_each f xs = Ok slots ->
  In s slots ->
  exists x l, In x xs /\ f x = Ok l /\ In s l.
Proof.
  revert slots. induction xs as [|x xs IH]; simpl; intros slots E Hin.
  - injection E as <-. contradiction.
  - apply bind_ok in E as (l & El & E).
    apply bind_ok in E as (more & Em & E).
    injection E as <-. apply in_app_or in Hin as [H|H].
    + exists x, l. auto.
    + destruct (IH more Em H) as (x' & l' & Hi & El' & Hs). exists x', l'. auto.
Qed.

(** A slot out of a container comes from an item of it. *)
Lemma container_origin (payload : pyval) (k : string) (c : pyval)
    (l : list RawSlot) (s : RawSlot) :
  In k container_keys ->
  py_get_default payload k (PList []) = Ok c ->
  parse_container float_repr str_repr max_str_digits repr_depth c = Ok l ->
  In s l ->
  exists record handed,
    payload_record payload record handed
    /\ _parse_single_slot float_repr str_repr max_str_digits repr_depth
                          record handed PNone PNone PNone = Some s.
Proof.
  intros Hk Ec E Hin. unfold parse_container in E.
  destruct (negb (truthy c)); [injection E as <-; contradiction|].
  destruct c as [| | | | |items|]; try (injection E as <-; contradiction).
  destruct (parse_items_origin items l s E Hin) as (item & l' & Hi & El & Hs).
  destruct (parse_slot_item_origin item l' s El Hs) as (record & handed & R & P).
  exists record, handed. split; [|exact P].
  eapply record_of_container; eassumption.
Qed.

(** Every slot [parse_slots] returns is what [_parse_single_slot] made
    of a record of the payload, with the date handed down to it there. *)
Lemma parse_slots_origin (payload : pyval) (slots : list RawSlot) (s : RawSlot) :
  parse_slots float_repr str_repr max_str_digits repr_depth payload = Ok slots ->
  In s slots ->
  exists record handed provider department department_id,
    payload_record payload record handed
    /\ _parse_single_slot float_repr str_repr max_str_digits repr_depth
                          record handed provider department department_id = Some s.
Proof.
  unfold parse_slots. intros E Hin.
  apply bind_ok in E as (c1 & G1 & E).
  apply bind_ok in E as (c2 & G2 & E).
  apply bind_ok in E as (c3 & G3 & E).
  apply bind_ok in E as (c4 & G4 & E).
  apply bind_ok in E as (c5 & G5 & E).
  apply bind_ok in E as (l1 & E1 & E).
  apply bind_ok in E as (ps & Gp & E).
  apply bind_ok in E as (providers & Ip & E).
  apply bind_ok in E as (l2 & E2 & E).
  apply bind_ok in E as (ds & Gd & E).
  apply bind_ok in E as (departments & Id & E).
  apply bind_ok in E as (l3 & E3 & E).
  injection E as <-.
  apply in_app_or in Hin as [H|H]; [|apply in_app_or in H as [H|H]].
  - destruct (parse_containers_origin _ _ _ E1 H) as (c & l & Hc & El & Hs).
    assert (K : exists k, In k container_keys
                          /\ py_get_default payload k (PList []) = Ok c).
    { simpl in Hc.
      destruct Hc as [<-|[<-|[<-|[<-|[<-|[]]]]]]; eexists; (split; [|eassumption]);
        simpl; tauto. }
    destruct K as (k & Hk & Gk).
    destruct (container_origin payload k c l s Hk Gk El Hs) as (record & handed & R & P).
    exists record, handed, PNone, PNone, PNone. auto.
  - destruct (for_each_origin _ _ _ _ E2 H) as (entry & l & He & El & Hs).
    unfold parse_provider in El.
    apply bind_ok in El as (name & _ & El).
    apply bind_ok in El as (pslots & Gs & El).
    apply bind_ok in El as (records & Ir & El). injection El as <-.
    apply collect_origin in Hs as (record & Hr & P).
    exists record, PNone, name, PNone, PNone. split; [|exact P].
    eapply (record_of_holder payload "Providers" "providers"); try eassumption.
    left. reflexivity.
  - destruct (for_each_origin _ _ _ _ E3 H) as (entry & l & He & El & Hs).
    unfold parse_department in El.
    apply bind_ok in El as (name & _ & El).
    apply bind_ok in El as (dept_id & _ & El).
    apply bind_ok in El as (dslots & Gs & El).
    apply bind_ok in El as (records & Ir & El). injection El as <-.
    apply collect_origin in Hs as (record & Hr & P).
    exists record, PNone, PNone, name, dept_id. split; [|exact P].
    eapply (record_of_holder payload "Departments" "departments"); try eassumption.
    right. reflexivity.
Qed.

(** A record without time takes the early [return None] (no exception is
    raised and caught), whatever date it is given. *)
Lemma no_time_early_return (data : list (string * pyval))
    (date_override provider department department_id : pyval) :
  all_falsy time_keys data ->
  parse_single_slot_body float_repr str_repr max_str_digits repr_depth (PDict data) date_override
                         provider department department_id = Ok None.
Proof.
  intros H. unfold parse_single_slot_body.
  destruct (or_chain4_falsy time_keys data "Time" "time" "StartTime" "DisplayTime" H)
    as (t & -> & Tt); try (simpl; tauto).
  destruct (or_chain4_ok data "Date" "date" "AppointmentDate" "StartDate") as (v & ->).
  destruct (truthy date_override); cbn [bind]; rewrite Tt, orb_true_r; reflexivity.
Qed.

(** So does a record without date that is given none. *)
Lemma no_date_early_return (data : list (string * pyval))
    (date_override provider department department_id : pyval) :
  truthy date_override = false ->
  all_falsy date_keys data ->
  parse_single_slot_body float_repr str_repr max_str_digits repr_depth (PDict data) date_override
                         provider department department_id = Ok None.
Proof.
  intros Ho H. unfold parse_single_slot_body.
  rewrite Ho.
  destruct (or_chain4_falsy date_keys data "Date" "date" "AppointmentDate" "StartDate" H)
    as (v & -> & Tv); try (simpl; tauto).
  destruct (or_chain4_ok data "Time" "time" "StartTime" "DisplayTime") as (t & ->).
  cbn [bind]. rewrite Tv. reflexivity.
Qed.

Lemma no_time_no_slot (data : list (string * pyval))
    (date_override provider department department_id : pyval) :
  all_falsy time_keys data ->
  _parse_single_slot float_repr str_repr max_str_digits repr_depth (PDict data) date_override
                     provider department department_id = None.
Proof.
  intros H. unfold _parse_single_slot. rewrite no_time_early_return by exact H.
  reflexivity.
Qed.

Lemma no_date_no_slot (data : list (string * pyval))
    (date_override provider department department_id : pyval) :
  truthy date_override = false ->
  all_falsy date_keys data ->
  _parse_single_slot float_repr str_repr max_str_digits repr_depth (PDict data) date_override
                     provider department department_id = None.
Proof.
  intros Ho H. unfold _parse_single_slot. rewrite no_date_early_return by assumption.
  reflexivity.
Qed.

Lemma parse_slot_item_no_date (data : list (string * pyval)) :
  lacks date_keys data ->
  _parse_slot_item float_repr str_repr max_str_digits repr_depth (PDict data) = Ok [].
Proof.
  intros H. unfold _parse_slot_item. rewrite !py_get_dict.
  rewrite !(H "Date"), !(H "date") by (simpl; tauto).
  cbn [from_option]. rewrite py_or_falsy by reflexivity. cbn [bind].
  destruct (py_or_ok (py_get_default (PDict data) "Slots" (PList []))
                     (py_get_default (PDict data) "slots" (PList [])))
    as (day_slots & ->); [simpl; eauto | simpl; eauto |].
  cbn [bind truthy andb].
  rewrite no_date_no_slot by (auto using lacks_falsy). reflexivity.
Qed.

Lemma parse_slot_item_no_time (data : list (string * pyval)) :
  lacks time_keys data -> lacks ["Slots"; "slots"] data ->
  _parse_slot_item float_repr str_repr max_str_digits repr_depth (PDict data) = Ok [].
Proof.
  intros H Hs. unfold _parse_slot_item.
  destruct (py_or_ok (py_get (PDict data) "Date") (py_get (PDict data) "date"))
    as (day_date & ->); [simpl; eauto | simpl; eauto |].
  cbn [bind py_get_default].
  rewrite !(Hs "Slots"), !(Hs "slots") by (simpl; tauto).
  cbn [from_option]. rewrite py_or_falsy by reflexivity. cbn [bind truthy].
  rewrite andb_false_r.
  rewrite no_time_no_slot by (auto using lacks_falsy). reflexivity.
Qed.

Lemma parse_items_dropped (items : list pyval) :
  Forall (fun item =>
            _parse_slot_item float_repr str_repr max_str_digits repr_depth item = Ok [])
         items ->
  parse_items float_repr str_repr max_str_digits repr_depth items = Ok [].
Proof.
  induction 1 as [|item items E _ IH]; cbn [parse_items]; [reflexivity|].
  rewrite E, IH. reflexivity.
Qed.

Lemma parse_slots_all_dropped (items : list pyval) :
  parse_items float_repr str_repr max_str_digits repr_depth items = Ok [] ->
  parse_slots float_repr str_repr max_str_digits repr_depth
              (PDict [("Slots", PList items)]) = Ok [].
Proof.
  intros E. unfold parse_slots.
  cbn [py_get_default dict_lookup String.eqb Ascii.eqb Bool.eqb from_option id bind
       parse_containers parse_container].
  destruct items as [|item items]; [reflexivity|].
  unfold parse_container. cbn [truthy negb]. rewrite E. reflexivity.
Qed.

(** C4. Whatever the payload, every slot record [parse_slots] returns
    has a date and a time, and is what [_parse_single_slot] made of a
    record of the payload that holds a time and either holds a date
    itself or sits under a day container whose date was handed down to
    it.  A record without a date that is handed none, and a record
    without a time, make [_parse_single_slot] take the early [return
    None]: no record, and no exception raised on the way; a payload of
    such records alone makes [parse_slots] return the empty list. *)
Theorem normalized_slots_have_date_and_time :
  (forall payload slots,
     parse_slots float_repr str_repr max_str_digits repr_depth payload = Ok slots ->
     Forall (fun s =>
               has_date_and_time s
               /\ exists record handed provider department department_id,
                    payload_record payload record handed
                    /\ _parse_single_slot float_repr str_repr max_str_digits repr_depth
                          record handed provider department department_id = Some s
                    /\ holds time_keys record
                    /\ (holds date_keys record \/ truthy handed = true))
            slots)
  /\ (forall payload record handed,
        payload_record payload record handed ->
        handed = PNone
        \/ exists item,
             item_record item record handed
             /\ (py_get item "Date" `or` py_get item "date") = Ok handed
             /\ truthy handed = true)
  /\ (forall data provider department department_id,
        lacks date_keys data ->
        parse_single_slot_body float_repr str_repr max_str_digits repr_depth (PDict data) PNone
                               provider department department_id = Ok None
        /\ _parse_single_slot float_repr str_repr max_str_digits repr_depth (PDict data) PNone
                              provider department department_id = None)
  /\ (forall data date_override provider department department_id,
        lacks time_keys data ->
        parse_single_slot_body float_repr str_repr max_str_digits repr_depth (PDict data) date_override
                               provider department department_id = Ok None
        /\ _parse_single_slot float_repr str_repr max_str_digits repr_depth (PDict data) date_override
                              provider department department_id = None)
  /\ (forall items,
        Forall (fun item =>
                  exists data,
                    item = PDict data
                    /\ (lacks date_keys data
                        \/ (lacks time_keys data /\ lacks ["Slots"; "slots"] data)))
               items ->
        parse_slots float_repr str_repr max_str_digits repr_depth
                    (PDict [("Slots", PList items)]) = Ok []).
Proof.
  split; [|split; [|split; [|split]]].
  - intros payload slots E. apply List.Forall_forall. intros s Hin.
    destruct (parse_slots_origin payload slots s E Hin)
      as (record & handed & p & dp & di & R & P).
    destruct (parse_single_slot_inv _ _ _ _ _ _ P) as (HS & HT & HD).
    split; [exact HS|].
    exists record, handed, p, dp, di. auto.
  - intros payload record handed R.
    destruct R as [k items item record handed _ _ _ R|]; [|left; reflexivity].
    destruct R as [|day_date day_slots records record Ed Es T Ei Hin];
      [left; reflexivity|].
    right. exists item. split; [eapply item_of_day; eassumption|].
    split; [exact Ed|].
    apply andb_true_iff in T as [T _]. exact T.
  - intros. split; [apply no_date_early_return | apply no_date_no_slot];
      (reflexivity || auto using lacks_falsy).
  - intros. split; [apply no_time_early_return | apply no_time_no_slot];
      auto using lacks_falsy.
  - intros items H. apply parse_slots_all_dropped, parse_items_dropped.
    eapply Forall_impl; [exact H|].
    intros item (data & -> & [D|[T S]]);
      [apply parse_slot_item_no_date | apply parse_slot_item_no_time]; assumption.
Qed.

(** C9. Presence of the date is tested by truthiness: a raw record whose
    date keys hold only falsy values -- the integer 0, which as a day
    offset is the date 1840-12-31, or the empty string -- and that is
    given no date by a container yields no record. *)
Theorem falsy_date_is_dropped
    (data : list (string * pyval)) (provider department department_id : pyval) :
  all_falsy date_keys data ->
  parse_single_slot_body float_repr str_repr max_str_digits repr_depth (PDict data) PNone
                         provider department department_id = Ok None
  /\ _parse_single_slot float_repr str_repr max_str_digits repr_depth (PDict data) PNone
                        provider department department_id = None
  /\ truthy (PInt 0) = false
  /\ truthy (PStr "") = false
  /\ option_map isoformat (int_to_epic_date 0) = Some "1840-12-31".
Proof.
  intros H. split; [|split; [|repeat split]].
  - apply no_date_early_return; [reflexivity | exact H].
  - apply no_date_no_slot; [reflexivity | exact H].
Qed.

End parser_facts.

Lemma normalized_slots_have_date_and_time_witness :
  (forall f : float, (fun _ : float => "1.5") f <> "")
  /\ forall payload slots,
       parse_slots (fun _ => "1.5") (fun s => s) 4300 1000 payload = Ok slots ->
       Forall (fun s =>
                 has_date_and_time s
                 /\ exists record handed provider department department_id,
                      payload_record payload record handed
                      /\ _parse_single_slot (fun _ => "1.5") (fun s => s) 4300 1000
                            record handed provider department department_id = Some s
                      /\ holds time_keys record
                      /\ (holds date_keys record \/ truthy handed = true))
              slots.
Proof.
  assert (H : forall f : float, (fun _ : float => "1.5") f <> "")
    by (intros f; discriminate).
  split; [exact H|].
  exact (proj1 (normalized_slots_have_date_and_time
                  (fun _ => "1.5") (fun s => s) 4300 1000 H)).
Defined.

Lemma falsy_date_is_dropped_witness :
  let data := [("Date", PInt 0); ("Time", PStr "8:30 AM")] in
  all_falsy date_keys data
  /\ parse_single_slot_body (fun _ => "1.5") (fun s => s) 4300 1000 (PDict data)
                            PNone PNone PNone PNone = Ok None
  /\ _parse_single_slot (fun _ => "1.5") (fun s => s) 4300 1000 (PDict data) PNone PNone PNone PNone
     = None
  /\ truthy (PInt 0) = false
  /\ truthy (PStr "") = false
  /\ option_map isoformat (int_to_epic_date 0) = Some "1840-12-31".
Proof.
  intros data.
  assert (H : all_falsy date_keys data).
  { intros k [<-|[<-|[<-|[<-|[]]]]]; simpl; auto. }
  split; [exact H|].
  exact (falsy_date_is_dropped (fun _ => "1.5") (fun s => s) 4300 1000 data PNone PNone PNone H).
Defined.

(** The normalisation scenario of the design document. *)
Example parse_scenario :
  parse_slots (fun _ => "1.5") (fun s => s) 4300 1000
    (PDict [("Slots", PList [PDict [("Date", PStr "2026-08-05"); ("Time", PStr "8:30 AM");
                                    ("ProviderName", PStr "Dr. Rai")]])])
  = Ok [mkSlot "2026-08-05" "8:30 AM" (PStr "Dr. Rai") PNone PNone PNone].
Proof. reflexivity. Qed.

(** A day container hands its date to the records under it; an integer
    date is a day offset. *)
Example parse_day_container :
  parse_slots (fun _ => "1.5") (fun s => s) 4300 1000
    (PDict [("Days", PList [PDict [("Date", PInt 67800);
                                   ("Slots", PList [PDict [("Time", PStr "8:30 AM")];
                                                    PDict [("Provider", PStr "Dr. Rai")]])]])])
  = Ok [mkSlot "2026-08-18" "8:30 AM" PNone PNone PNone PNone].
Proof. reflexivity. Qed.

Example date_zero_dropped_date_one_kept :
  parse_slots (fun _ => "1.5") (fun s => s) 4300 1000
    (PDict [("Slots", PList [PDict [("Date", PInt 0); ("Time", PStr "8:30 AM")];
                             PDict [("Date", PStr ""); ("Time", PStr "9:00 AM")];
                             PDict [("Date", PInt 1); ("Time", PStr "9:30 AM")]])])
  = Ok [mkSlot "1841-01-01" "9:30 AM" PNone PNone PNone PNone].
Proof. reflexivity. Qed.

(** A container of the wrong shape is not caught by [parse_slots]. *)
Example providers_null_raises :
  parse_slots (fun _ => "1.5") (fun s => s) 4300 1000 (PDict [("providers", PNone)])
  = Raise TypeError.
Proof. reflexivity. Qed.

(** ** The issue body *)

(** *** The order of strings *)

Lemma ascii_compare_eq (x y : ascii) : Ascii.compare x y = Eq <-> x = y.
Proof.
  split; [apply Ascii.compare_eq_iff|].
  intros ->. unfold Ascii.compare. apply N.compare_refl.
Qed.

Lemma ascii_compare_lt_trans (x y z : ascii) :
  Ascii.compare x y = Lt -> Ascii.compare y z = Lt -> Ascii.compare x z = Lt.
Proof.
  unfold Ascii.compare. rewrite !N.compare_lt_iff. apply N.lt_trans.
Qed.

Lemma string_compare_refl (s : string) : String.compare s s = Eq.
Proof.
  induction s as [|c s IH]; simpl; [reflexivity|].
  rewrite (proj2 (ascii_compare_eq c c) eq_refl). exact IH.
Qed.

Lemma string_compare_lt_trans (a b c : string) :
  String.compare a b = Lt -> String.compare b c = Lt -> String.compare a c = Lt.
Proof.
  revert b c. induction a as [|x a IH]; intros [|y b] [|z c]; simpl;
    try discriminate; try reflexivity.
  destruct (Ascii.compare x y) eqn:Exy; try discriminate;
    destruct (Ascii.compare y z) eqn:Eyz; try discriminate; intros H1 H2.
  - apply ascii_compare_eq in Exy, Eyz. subst.
    rewrite (proj2 (ascii_compare_eq z z) eq_refl). eauto.
  - apply ascii_compare_eq in Exy. subst. rewrite Eyz. reflexivity.
  - apply ascii_compare_eq in Eyz. subst. rewrite Exy. reflexivity.
  - rewrite (ascii_compare_lt_trans x y z Exy Eyz). reflexivity.
Qed.

Lemma string_leb_cases (a b : string) :
  String.leb a b = true <-> a = b \/ String.compare a b = Lt.
Proof.
  unfold String.leb. destruct (String.compare a b) eqn:E.
  - apply String.compare_eq_iff in E. tauto.
  - tauto.
  - split; [discriminate|]. intros [-> | H]; [|discriminate].
    rewrite string_compare_refl in E. discriminate.
Qed.

Lemma string_leb_trans (a b c : string) :
  String.leb a b = true -> String.leb b c = true -> String.leb a c = true.
Proof.
  rewrite !string_leb_cases.
  intros [-> | H1] [-> | H2]; auto. right. eapply string_compare_lt_trans; eassumption.
Qed.

Lemma string_ltb_of_leb (a b : string) :
  String.leb a b = true -> a <> b -> String.ltb a b = true.
Proof.
  rewrite string_leb_cases. unfold String.ltb.
  intros [-> | H] N; [contradiction | rewrite H; reflexivity].
Qed.

(** *** [sorted] *)

Section sorted.
Context {A : Type} (le : A -> A -> bool).
Hypothesis le_total : forall x y, le x y = true \/ le y x = true.
Hypothesis le_trans : forall x y z, le x y = true -> le y z = true -> le x z = true.

Lemma insert_sorted_perm (x : A) (l : list A) : insert_sorted le x l ≡ₚ x :: l.
Proof.
  induction l as [|y l IH]; simpl; [reflexivity|].
  destruct (le x y); [reflexivity|].
  rewrite IH. apply Permutation_swap.
Qed.

Lemma py_sorted_perm (l : list A) : py_sorted le l ≡ₚ l.
Proof.
  unfold py_sorted. induction l as [|x l IH]; simpl; [reflexivity|].
  rewrite insert_sorted_perm, IH. reflexivity.
Qed.

Lemma insert_sorted_ordered (x : A) (l : list A) :
  StronglySorted (fun a b => le a b = true) l ->
  StronglySorted (fun a b => le a b = true) (insert_sorted le x l).
Proof.
  induction l as [|y l IH]; simpl; intros S.
  - constructor; constructor.
  - apply StronglySorted_inv in S as [S Hy].
    destruct (le x y) eqn:E.
    + constructor; [constructor; assumption|].
      constructor; [exact E|].
      eapply Forall_impl; [exact Hy|]. intros z Hz. simpl in Hz. eauto.
    + constructor; [auto|].
      rewrite insert_sorted_perm. constructor; [|exact Hy].
      destruct (le_total x y) as [H|H]; [congruence | exact H].
Qed.

Lemma py_sorted_ordered (l : list A) :
  StronglySorted (fun a b => le a b = true) (py_sorted le l).
Proof.
  unfold py_sorted. induction l as [|x l IH]; simpl; [constructor|].
  apply insert_sorted_ordered, IH.
Qed.

End sorted.

(** *** Grouping by date *)

Lemma group_of_add_to_date (d d' : string) (s : Slot) (groups : list (string * list Slot)) :
  group_of d (add_to_date d' s groups)
  = if String.eqb d d' then group_of d groups ++ [s] else group_of d groups.
Proof.
  induction groups as [|[d0 g] rest IH]; simpl.
  - destruct (String.eqb d d'); reflexivity.
  - destruct (String.eqb_spec d' d0) as [->|N]; simpl.
    + destruct (String.eqb d d0); reflexivity.
    + rewrite IH. destruct (String.eqb_spec d d0) as [->|N0]; [|reflexivity].
      apply not_eq_sym, String.eqb_neq in N. rewrite N. reflexivity.
Qed.

Lemma dates_add_to_date (d d' : string) (s : Slot) (groups : list (string * list Slot)) :
  In d (map fst (add_to_date d' s groups)) <-> d = d' \/ In d (map fst groups).
Proof.
  induction groups as [|[d0 g] rest IH]; simpl.
  - intuition congruence.
  - destruct (String.eqb_spec d' d0) as [->|N]; simpl.
    + intuition congruence.
    + rewrite IH. intuition congruence.
Qed.

Lemma dates_add_to_date_NoDup (d' : string) (s : Slot) (groups : list (string * list Slot)) :
  NoDup (map fst groups) -> NoDup (map fst (add_to_date d' s groups)).
Proof.
  induction groups as [|[d0 g] rest IH]; simpl; intros ND.
  - constructor; [apply not_elem_of_nil | constructor].
  - apply NoDup_cons in ND as [Hd0 ND].
    destruct (String.eqb_spec d' d0) as [->|N]; simpl.
    + constructor; assumption.
    + constructor; [|auto].
      intros Hin. apply list_elem_of_In, dates_add_to_date in Hin as [E|Hin].
      * congruence.
      * apply Hd0, list_elem_of_In, Hin.
Qed.

Lemma fold_add_to_date (slots : list Slot) (groups : list (string * list Slot)) :
  let r := fold_left (fun groups slot => add_to_date (date slot) slot groups) slots groups in
  (forall d, group_of d r
             = group_of d groups ++ List.filter (fun s => String.eqb d (date s)) slots)
  /\ (forall d, In d (map fst r)
                <-> In d (map fst groups) \/ exists s, In s slots /\ date s = d)
  /\ (NoDup (map fst groups) -> NoDup (map fst r)).
Proof.
  revert groups. induction slots as [|s slots IH]; intros groups; simpl.
  - split; [|split]; [intros d; rewrite app_nil_r; reflexivity | | trivial].
    intros d. split; [auto | intros [H|(s & [] & _)]; exact H].
  - destruct (IH (add_to_date (date s) s groups)) as (G & D & N).
    split; [|split].
    + intros d. rewrite G, group_of_add_to_date.
      destruct (String.eqb d (date s)); [rewrite <- app_assoc|]; reflexivity.
    + intros d. rewrite D, dates_add_to_date. split.
      * intros [[->|H]|(x & Hx & E)]; eauto.
      * intros [H|(x & [->|Hx] & E)]; eauto.
    + intros ND. apply N, dates_add_to_date_NoDup, ND.
Qed.

Lemma slots_by_date_spec (slots : list Slot) :
  (forall d, group_of d (slots_by_date slots)
             = List.filter (fun s => String.eqb d (date s)) slots)
  /\ (forall d, In d (map fst (slots_by_date slots)) <-> exists s, In s slots /\ date s = d)
  /\ NoDup (map fst (slots_by_date slots)).
Proof.
  destruct (fold_add_to_date slots []) as (G & D & N).
  split; [exact G|]. split; [|apply N; constructor].
  intros d. rewrite D. simpl. tauto.
Qed.

Lemma strictly_ascending (l : list string) :
  StronglySorted (fun a b => String.leb a b = true) l -> NoDup l ->
  StronglySorted (fun a b => String.ltb a b = true) l.
Proof.
  induction 1 as [|a l S IH F]; intros ND; [constructor|].
  apply NoDup_cons in ND as [Ha ND].
  constructor; [auto|].
  rewrite List.Forall_forall in *. intros b Hb.
  apply string_ltb_of_leb; [auto|].
  intros ->. apply Ha, list_elem_of_In, Hb.
Qed.

Lemma by_time_total (a b : Slot) : by_time a b = true \/ by_time b a = true.
Proof. apply String.leb_total. Qed.

Lemma by_time_trans (a b c : Slot) :
  by_time a b = true -> by_time b c = true -> by_time a c = true.
Proof. apply string_leb_trans. Qed.

Lemma dates_of_sections (slots : list Slot) :
  map fst (date_sections slots) = py_sorted String.leb (map fst (slots_by_date slots)).
Proof.
  unfold date_sections. rewrite List.map_map. simpl. apply List.map_id.
Qed.

Lemma section_of_date (slots : list Slot) (sec : string * list Slot) :
  In sec (date_sections slots) ->
  snd sec = py_sorted by_time (List.filter (fun s => String.eqb (fst sec) (date s)) slots)
  /\ exists s, In s slots /\ date s = fst sec.
Proof.
  unfold date_sections. intros Hin. apply in_map_iff in Hin as (d & <- & Hd).
  destruct (slots_by_date_spec slots) as (G & D & _).
  simpl. rewrite G. split; [reflexivity|].
  apply D. eapply Permutation_in; [apply py_sorted_perm | exact Hd].
Qed.

(** C8 (as the code has it). For a non-empty list of slots the body
    lists one section per date, the dates strictly ascending in string
    order; each section holds exactly the slots of its date, ordered by
    their time text in string order (code point by code point, not by the
    clock). *)
Theorem issue_body_grouped_and_sorted (detected_at : string) (slots : list Slot) :
  slots <> [] ->
  date_sections slots <> []
  /\ (exists header footer,
        _build_issue_body detected_at slots
        = join newline (header ++ flat_map section_lines (date_sections slots) ++ footer))
  /\ StronglySorted (fun a b => String.ltb a b = true) (map fst (date_sections slots))
  /\ (forall s, In s slots ->
        exists sec, In sec (date_sections slots) /\ fst sec = date s /\ In s (snd sec))
  /\ Forall (fun sec =>
               snd sec ≡ₚ List.filter (fun s => String.eqb (fst sec) (date s)) slots
               /\ StronglySorted (fun a b => String.leb (time a) (time b) = true) (snd sec)
               /\ snd sec <> [])
            (date_sections slots).
Proof.
  intros Hne.
  destruct (slots_by_date_spec slots) as (G & D & ND).
  assert (Hcover : forall s, In s slots ->
            exists sec, In sec (date_sections slots) /\ fst sec = date s /\ In s (snd sec)).
  { intros s Hs.
    exists (date s, py_sorted by_time (group_of (date s) (slots_by_date slots))).
    split; [|split; [reflexivity|]].
    - unfold date_sections. apply in_map_iff. exists (date s). split; [reflexivity|].
      eapply Permutation_in; [symmetry; apply py_sorted_perm|].
      apply D. eauto.
    - simpl. eapply Permutation_in; [symmetry; apply py_sorted_perm|].
      rewrite G. apply filter_In. split; [exact Hs | apply String.eqb_refl]. }
  split; [|split; [|split; [|split]]].
  - destruct slots as [|s slots]; [contradiction|].
    destruct (Hcover s (or_introl eq_refl)) as (sec & Hin & _).
    intros E. rewrite E in Hin. destruct Hin.
  - eexists _, _. reflexivity.
  - rewrite dates_of_sections. apply strictly_ascending.
    + apply py_sorted_ordered; [apply String.leb_total | apply string_leb_trans].
    + rewrite (py_sorted_perm String.leb). exact ND.
  - exact Hcover.
  - apply List.Forall_forall. intros sec Hin.
    destruct (section_of_date slots sec Hin) as (E & s & Hs & Ed).
    rewrite E. split; [apply py_sorted_perm|]. split.
    + apply (py_sorted_ordered by_time by_time_total by_time_trans).
    + intros Z.
      assert (Hs' : In s (py_sorted by_time
                            (List.filter (fun s => String.eqb (fst sec) (date s)) slots))).
      { eapply Permutation_in; [symmetry; apply py_sorted_perm|].
        apply filter_In. split; [exact Hs|]. rewrite Ed. apply String.eqb_refl. }
      rewrite Z in Hs'. destruct Hs'.
Qed.

Lemma issue_body_grouped_and_sorted_witness :
  let slots : list Slot :=
    [mkSlot "2026-08-05" "8:30 AM" (Some "Dr. Rai") None None None;
     mkSlot "2026-08-05" "10:00 AM" None (Some "Clinic") None None;
     mkSlot "2026-08-04" "1:00 PM" None None None None] in
  slots <> []
  /\ date_sections slots <> []
  /\ (exists header footer,
        _build_issue_body "2026-08-01 12:00:00" slots
        = join newline (header ++ flat_map section_lines (date_sections slots) ++ footer))
  /\ StronglySorted (fun a b => String.ltb a b = true) (map fst (date_sections slots))
  /\ (forall s, In s slots ->
        exists sec, In sec (date_sections slots) /\ fst sec = date s /\ In s (snd sec))
  /\ Forall (fun sec =>
               snd sec ≡ₚ List.filter (fun s => String.eqb (fst sec) (date s)) slots
               /\ StronglySorted (fun a b => String.leb (time a) (time b) = true) (snd sec)
               /\ snd sec <> [])
            (date_sections slots).
Proof.
  intros slots.
  assert (H : slots <> []) by discriminate.
  split; [exact H|].
  exact (issue_body_grouped_and_sorted "2026-08-01 12:00:00" slots H).
Defined.

(** C8 as stated fails: within a date the slots are not in the order of
    the clock.  ["10:00 AM"] is listed before ["8:30 AM"]. *)
Lemma issue_body_not_by_time_of_day :
  ~ (forall slots : list Slot,
       slots <> [] ->
       Forall (fun sec => Sorted spec_time_of_day_le (snd sec)) (date_sections slots)).
Proof.
  intros H.
  specialize (H [mkSlot "2026-08-05" "8:30 AM" None None None None;
                 mkSlot "2026-08-05" "10:00 AM" None None None None]).
  assert (Hne : [mkSlot "2026-08-05" "8:30 AM" (None : option string) None None None;
                 mkSlot "2026-08-05" "10:00 AM" None None None None] <> [])
    by discriminate.
  specialize (H Hne).
  change (Forall (fun sec => Sorted spec_time_of_day_le (snd sec))
            [("2026-08-05",
              [mkSlot "2026-08-05" "10:00 AM" (None : option string) None None None;
               mkSlot "2026-08-05" "8:30 AM" None None None None])]) in H.
  apply Forall_inv in H. simpl in H.
  apply Sorted_inv in H as [_ H]. apply HdRel_inv in H.
  vm_compute in H. apply H. reflexivity.
Qed.

Example body_lists_ten_before_eight :
  flat_map section_lines
    (date_sections [mkSlot "2026-08-05" "8:30 AM" (Some "Dr. Rai") None None None;
                    mkSlot "2026-08-05" "10:00 AM" None (Some "Clinic") None None;
                    mkSlot "2026-08-04" "1:00 PM" None None None None])
  = ["#### 2026-08-04"; "- **1:00 PM**"; "";
     "#### 2026-08-05"; "- **10:00 AM** | Dept: Clinic";
     "- **8:30 AM** | Provider: Dr. Rai"; ""].
Proof. reflexivity. Qed.

Example clock_readings :
  spec_time_of_day "8:30 AM" = Some 510 /\ spec_time_of_day "10:00 AM" = Some 600
  /\ spec_time_of_day "1:00 PM" = Some 780.
Proof. repeat split. Qed.

(** ** More on [compare_slots] *)

Lemma filter_sublist {A} (f : A -> bool) (l : list A) : List.filter f l `sublist_of` l.
Proof.
  induction l as [|x l IH]; simpl; [constructor|].
  destruct (f x); [apply sublist_skip | apply sublist_cons]; exact IH.
Qed.

Lemma filter_split_perm {A} (f : A -> bool) (l : list A) :
  List.filter (fun x => negb (f x)) l ++ List.filter f l ≡ₚ l.
Proof.
  induction l as [|x l IH]; simpl; [reflexivity|].
  destruct (f x); simpl.
  - rewrite <- Permutation_middle. constructor. exact IH.
  - constructor. exact IH.
Qed.

Lemma filter_nil_iff {A} (f : A -> bool) (l : list A) :
  List.filter f l = [] <-> forall x, In x l -> f x = false.
Proof.
  induction l as [|x l IH]; simpl.
  - split; [intros _ x [] | reflexivity].
  - destruct (f x) eqn:E.
    + split; [discriminate|]. intros H. specialize (H x (or_introl eq_refl)). congruence.
    + rewrite IH. split.
      * intros H y [<-|Hy]; auto.
      * intros H y Hy. auto.
Qed.

Lemma filter_all {A} (f : A -> bool) (l : list A) :
  (forall x, In x l -> f x = true) -> List.filter f l = l.
Proof.
  induction l as [|x l IH]; simpl; intros H; [reflexivity|].
  rewrite (H x (or_introl eq_refl)). f_equal. auto.
Qed.

Section compare_facts.
Variable hash : SlotKey -> Z.

(** The three lists by their keys: [new] holds the keys of the current
    list that previous lacks, [removed] the keys of previous that the
    current list lacks, [unchanged] the keys they share. *)
Theorem compare_slots_keys (C P : list Slot) :
  keys (new (compare_slots hash C P)) = keys C ∖ keys P
  /\ keys (removed (compare_slots hash C P)) = keys P ∖ keys C
  /\ keys (unchanged (compare_slots hash C P)) = keys C ∩ keys P.
Proof.
  unfold compare_slots; cbn [new removed unchanged].
  split; [|split]; apply set_eq; intros k.
  - rewrite elem_of_difference, !elem_of_keys. split.
    + intros (s & Hin & <-). apply filter_In in Hin as [Hin M].
      split; [eauto|]. rewrite <- elem_of_keys, <- (set_contains_keys hash).
      destruct (set_contains hash P s); [discriminate M | discriminate].
    + intros [(s & Hin & <-) N]. exists s. split; [|reflexivity].
      apply filter_In. split; [exact Hin|].
      rewrite <- elem_of_keys, <- (set_contains_keys hash) in N.
      destruct (set_contains hash P s); [contradiction N | ]; reflexivity.
  - rewrite elem_of_difference, !elem_of_keys. split.
    + intros (s & Hin & <-). apply filter_In in Hin as [Hin M].
      split; [eauto|]. rewrite set_contains_py_set in M.
      rewrite <- elem_of_keys, <- (set_contains_keys hash).
      destruct (set_contains hash C s); [discriminate M | discriminate].
    + intros [(s & Hin & <-) N]. exists s. split; [|reflexivity].
      apply filter_In. split; [exact Hin|]. rewrite set_contains_py_set.
      rewrite <- elem_of_keys, <- (set_contains_keys hash) in N.
      destruct (set_contains hash C s); [contradiction N | ]; reflexivity.
  - rewrite elem_of_intersection, !elem_of_keys. split.
    + intros (s & Hin & <-). apply filter_In in Hin as [Hin M].
      split; [eauto|]. rewrite <- elem_of_keys, <- (set_contains_keys hash). exact M.
    + intros [(s & Hin & <-) M]. exists s. split; [|reflexivity].
      apply filter_In. split; [exact Hin|].
      rewrite set_contains_keys, elem_of_keys. exact M.
Qed.

(** Nothing is lost, invented or reordered: [new] and [unchanged] are
    the current list split in two with the order kept, and [removed] is
    taken from previous in the order it is iterated. *)
Theorem compare_slots_order (C P : list Slot) :
  new (compare_slots hash C P) `sublist_of` C
  /\ unchanged (compare_slots hash C P) `sublist_of` C
  /\ removed (compare_slots hash C P) `sublist_of` P
  /\ new (compare_slots hash C P) ++ unchanged (compare_slots hash C P) ≡ₚ C
  /\ (length (new (compare_slots hash C P))
      + length (unchanged (compare_slots hash C P)) = length C)%nat.
Proof.
  unfold compare_slots; cbn [new removed unchanged].
  assert (Hp : List.filter (fun s => negb (set_contains hash P s)) C
               ++ List.filter (fun s => set_contains hash P s) C ≡ₚ C)
    by apply (filter_split_perm (fun s => set_contains hash P s)).
  repeat split; try apply filter_sublist.
  - exact Hp.
  - rewrite <- length_app. apply Permutation_length, Hp.
Qed.

(** When a check reports something: [new] is empty exactly when every
    key of the current list is known, [removed] is empty exactly when
    every known key is still there, and with no new key the whole
    current list is [unchanged]. *)
Theorem compare_slots_quiet (C P : list Slot) :
  (new (compare_slots hash C P) = [] <-> keys C ⊆ keys P)
  /\ (removed (compare_slots hash C P) = [] <-> keys P ⊆ keys C)
  /\ (keys C ⊆ keys P -> unchanged (compare_slots hash C P) = C).
Proof.
  unfold compare_slots; cbn [new removed unchanged].
  rewrite !elem_of_subseteq.
  split; [|split].
  - rewrite filter_nil_iff. split.
    + intros H k Hk. apply elem_of_keys in Hk as (s & Hin & <-).
      apply (set_contains_keys hash). specialize (H s Hin).
      destruct (set_contains hash P s); [reflexivity | discriminate H].
    + intros H s Hin.
      assert (M : set_contains hash P s = true).
      { apply set_contains_keys, H, elem_of_keys. eauto. }
      rewrite M. reflexivity.
  - rewrite filter_nil_iff. split.
    + intros H k Hk. apply elem_of_keys in Hk as (s & Hin & <-).
      apply (set_contains_keys hash). specialize (H s Hin).
      rewrite set_contains_py_set in H.
      destruct (set_contains hash C s); [reflexivity | discriminate H].
    + intros H s Hin. rewrite set_contains_py_set.
      assert (M : set_contains hash C s = true).
      { apply set_contains_keys, H, elem_of_keys. eauto. }
      rewrite M. reflexivity.
  - intros H. apply filter_all. intros s Hin.
    apply set_contains_keys, H, elem_of_keys. eauto.
Qed.

End compare_facts.

(** A reworded provider or department is not a change. *)
Example provider_text_change_is_quiet :
  let a : Slot := mkSlot "2026-08-05" "8:30 AM" (Some "Dr. Rai") None None None in
  let b : Slot := mkSlot "2026-08-05" "8:30 AM" (Some "Dr. Lee") (Some "Clinic") None None in
  compare_slots (fun _ => 0) [a] [b] = {| new := []; removed := []; unchanged := [a] |}.
Proof. reflexivity. Qed.

(** ** Slots written and read back *)

Lemma dict_lookup_In (k : string) (d : list (string * pyval)) :
  dict_lookup k d <> None <-> In k (map fst d).
Proof.
  induction d as [|[k' v] d IH]; simpl.
  - split; [congruence | intros []].
  - destruct (String.eqb_spec k k') as [->|N].
    + split; [auto | discriminate].
    + rewrite IH. split; [auto | intros [E|H]; [congruence | exact H]].
Qed.

Lemma is_field_In (k : string) : is_field k = true <-> In k field_names.
Proof.
  unfold is_field. rewrite existsb_exists. split.
  - intros (x & Hin & E). apply String.eqb_eq in E. subst. exact Hin.
  - intros H. exists k. split; [exact H | apply String.eqb_refl].
Qed.

Lemma all_fields_In (d : list (string * pyval)) :
  forallb (fun kv => is_field (fst kv)) d = true
  <-> forall k, In k (map fst d) -> In k field_names.
Proof.
  rewrite forallb_forall. split.
  - intros H k Hk. apply in_map_iff in Hk as (kv & <- & Hin).
    apply is_field_In, H, Hin.
  - intros H kv Hin. apply is_field_In, H, in_map, Hin.
Qed.



(** [from_dict] accepts a dict exactly when it has a [date], a [time] and
    no key besides the six fields; what it refuses, it refuses with a
    [TypeError], and a field the dict lacks is [None] in the object. *)
Theorem from_dict_accepts (d : list (string * pyval)) :
  ((exists o, from_dict (PDict d) = Ok o)
   <-> (forall k, In k (map fst d) -> In k field_names)
       /\ In "date" (map fst d) /\ In "time" (map fst d))
  /\ (forall e, from_dict (PDict d) = Raise e -> e = TypeError)
  /\ (forall o, from_dict (PDict d) = Ok o ->
        dict_lookup "date" d = Some (obj_date o)
        /\ dict_lookup "time" d = Some (obj_time o)
        /\ obj_provider o = default PNone (dict_lookup "provider" d)
        /\ obj_department o = default PNone (dict_lookup "department" d)
        /\ obj_department_id o = default PNone (dict_lookup "department_id" d)
        /\ obj_slot_id o = default PNone (dict_lookup "slot_id" d)).
Proof.
  unfold from_dict. rewrite <- all_fields_In, <- !dict_lookup_In.
  destruct (forallb (fun kv => is_field (fst kv)) d);
    destruct (dict_lookup "date" d) as [dt|];
    destruct (dict_lookup "time" d) as [tm|];
    (split; [split; [intros [o E]; try discriminate E; repeat split; congruence
                    | intros (A & B & C); try congruence; eauto]
            | split; [intros e [= <-]; reflexivity | intros o E; try discriminate E]]).
  injection E as <-. repeat split.
Qed.






Section round_trip.
Variable hash : SlotKey -> Z.
Variable max_str_digits : nat.
Variable dump_depth : nat.



End round_trip.



(** Two stored slots with one identity are read back as one; a stored
    slot whose department id is a list cannot be hashed. *)
Example same_identity_read_back_once :
  get_previous_slots (fun _ => 0)
    (Present (mkAccess true true)
       (Ok (PDict [("slots",
                    PList [PDict [("date", PStr "2026-08-05"); ("time", PStr "8:30 AM");
                                  ("provider", PStr "Dr. Rai")];
                           PDict [("date", PStr "2026-08-05"); ("time", PStr "8:30 AM")]])])))
  = Ok (Some [mkSlot "2026-08-05" "8:30 AM" (Some "Dr. Rai") None None None]).
Proof. reflexivity. Qed.

Example unhashable_id_raises :
  get_previous_slots (fun _ => 0)
    (Present (mkAccess true true)
       (Ok (PDict [("slots",
                    PList [PDict [("date", PStr "2026-08-05"); ("time", PStr "8:30 AM");
                                  ("department_id", PList [])]])])))
  = Raise TypeError.
Proof. reflexivity. Qed.


Section check_log.
Variable max_str_digits : nat.
Variable dump_depth : nat.


End check_log.



Example empty_raw_response_keeps_old_one :
  updated_history
    (Present (mkAccess true true)
       (Ok (PDict [("checks", PList []);
                   ("last_raw_response", PDict [("Slots", PList [])])])))
    (mkCall "t" "t" [] (PDict []))
  = Ok (PDict [("checks", PList [PDict [("timestamp", PStr "t"); ("slot_count", PInt 0)]]);
               ("last_raw_response", PDict [("Slots", PList [])]);
               ("last_check", PStr "t"); ("slots", PList [])]).
Proof. reflexivity. Qed.

Section second_run.
Variable hash : SlotKey -> Z.
Variable max_str_digits : nat.
Variable dump_depth : nat.



End second_run.


(** ** More on the parser *)

Lemma int_to_epic_date_out_of_range (n : Z) :
  n < - 672045 \/ 2980013 < n -> int_to_epic_date n = None.
Proof.
  intros H. unfold int_to_epic_date, PyDate.add_days, PyDate.timedelta_days.
  destruct (Z.leb_spec (Z.abs n) 999999999); [|reflexivity].
  rewrite epoch_ordinal. unfold PyDate._MAXORDINAL.
  destruct (Z.ltb_spec 0 (672046 + n)); destruct (Z.leb_spec (672046 + n) 3652059);
    try reflexivity; lia.
Qed.

(** [int_to_epic_date] gives a date for the offsets of the days from
    0001-01-01 to 9999-12-31 and raises for every other integer. *)
Theorem int_to_epic_date_defined (n : Z) :
  (exists d, int_to_epic_date n = Some d) <-> - 672045 <= n <= 2980013.
Proof.
  split.
  - intros [d E].
    destruct (Z.lt_ge_cases n (- 672045)) as [L|L];
      [rewrite int_to_epic_date_out_of_range in E by lia; discriminate|].
    destruct (Z.lt_ge_cases 2980013 n) as [G|G];
      [rewrite int_to_epic_date_out_of_range in E by lia; discriminate|].
    lia.
  - intros H. rewrite int_to_epic_date_in_range by exact H. eauto.
Qed.

Example first_and_last_day :
  option_map isoformat (int_to_epic_date (- 672045)) = Some "0001-01-01"
  /\ option_map isoformat (int_to_epic_date 2980013) = Some "9999-12-31".
Proof. split; reflexivity. Qed.

Lemma get_setitem_other (d : list (string * pyval)) (k k' : string) (v : pyval) :
  k <> k' -> py_get (PDict (dict_setitem k v d)) k' = py_get (PDict d) k'.
Proof.
  intros N. unfold py_get, py_get_default. rewrite dict_lookup_setitem_ne by exact N.
  reflexivity.
Qed.

Lemma py_or_truthy (x : pyval) (b : result pyval) :
  truthy x = true -> (Ok x `or` b) = Ok x.
Proof. intros H. unfold py_or. simpl. rewrite H. reflexivity. Qed.

Section parser_more.
Variable float_repr : float -> string.
Variable str_repr : string -> string.
Variable max_str_digits : nat.
Variable repr_depth : nat.

Lemma override_text_date
    (data date_override provider department department_id : pyval) (D : string)
    (s : RawSlot) :
  date_override = PStr D ->
  truthy date_override = true ->
  _parse_single_slot float_repr str_repr max_str_digits repr_depth data
                     date_override provider department department_id = Some s ->
  date s = D.
Proof.
  intros -> T E. unfold _parse_single_slot in E.
  destruct (parse_single_slot_body float_repr str_repr max_str_digits repr_depth data (PStr D)
              provider department department_id) as [r|e] eqn:B; [|discriminate].
  subst r. unfold parse_single_slot_body in B. rewrite T in B.
  cbn [bind] in B.
  apply bind_ok in B as (slot_time & _ & B).
  destruct (negb (truthy (PStr D)) || negb (truthy slot_time)); [discriminate B|].
  cbn [isinstance_int bind py_str] in B.
  apply bind_ok in B as (time_text & _ & B).
  apply bind_ok in B as (p & _ & B).
  apply bind_ok in B as (dp & _ & B).
  apply bind_ok in B as (di & _ & B).
  apply bind_ok in B as (si & _ & B).
  injection B as <-. reflexivity.
Qed.

(** A truthy value handed down by a container is the value of the slot. *)
Lemma handed_down_fields (data o p dp di : pyval) (s : RawSlot) :
  _parse_single_slot float_repr str_repr max_str_digits repr_depth data o p dp di = Some s ->
  (truthy p = true -> provider s = p)
  /\ (truthy dp = true -> department s = dp)
  /\ (truthy di = true -> department_id s = di).
Proof.
  intros E. unfold _parse_single_slot in E.
  destruct (parse_single_slot_body float_repr str_repr max_str_digits repr_depth data o p dp di)
    as [r|e] eqn:B; [|discriminate].
  subst r. unfold parse_single_slot_body in B.
  apply bind_ok in B as (slot_date & _ & B).
  apply bind_ok in B as (slot_time & _ & B).
  destruct (negb (truthy slot_date) || negb (truthy slot_time)); [discriminate B|].
  apply bind_ok in B as (slot_date' & _ & B).
  apply bind_ok in B as (date_text & _ & B).
  apply bind_ok in B as (time_text & _ & B).
  apply bind_ok in B as (p' & Ep & B).
  apply bind_ok in B as (dp' & Edp & B).
  apply bind_ok in B as (di' & Edi & B).
  apply bind_ok in B as (si & _ & B).
  injection B as <-. cbn.
  repeat split; intros T;
    [rewrite py_or_truthy in Ep by exact T
    |rewrite py_or_truthy in Edp by exact T
    |rewrite py_or_truthy in Edi by exact T]; congruence.
Qed.

(** With a date handed down by a day container, the date fields of the
    record itself are never looked at: whatever they hold, the outcome is
    the same, and a text date from the container is the date of the
    slot. *)
Theorem date_override_wins
    (data : list (string * pyval)) (date_override provider department department_id : pyval) :
  truthy date_override = true ->
  (forall k v, In k date_keys ->
     _parse_single_slot float_repr str_repr max_str_digits repr_depth (PDict (dict_setitem k v data))
                        date_override provider department department_id
     = _parse_single_slot float_repr str_repr max_str_digits repr_depth (PDict data)
                          date_override provider department department_id)
  /\ (forall D s,
        date_override = PStr D ->
        _parse_single_slot float_repr str_repr max_str_digits repr_depth (PDict data)
                           date_override provider department department_id = Some s ->
        date s = D).
Proof.
  intros T. split.
  - intros k v Hk. unfold _parse_single_slot, parse_single_slot_body. rewrite T.
    assert (G : forall k', ~ In k' date_keys ->
                  py_get (PDict (dict_setitem k v data)) k' = py_get (PDict data) k').
    { intros k' N. apply get_setitem_other. intros ->. contradiction. }
    rewrite !G by (simpl; intros H; decompose [or] H; discriminate || assumption).
    reflexivity.
  - intros D s E R. eapply override_text_date; eassumption.
Qed.

(** The date of a day container, the name of a provider entry and the
    name and id of a department entry are those of every slot parsed
    from the records under them, whatever the records say themselves. *)
Theorem container_values_reach_slots (r : list (string * pyval)) (slots : list RawSlot) :
  (forall D x xs,
     dict_lookup "Date" r = Some (PStr D) -> D <> "" ->
     dict_lookup "Slots" r = Some (PList (x :: xs)) ->
     _parse_slot_item float_repr str_repr max_str_digits repr_depth (PDict r) = Ok slots ->
     Forall (fun s => date s = D) slots)
  /\ (forall name,
        dict_lookup "Name" r = Some name -> truthy name = true ->
        parse_provider float_repr str_repr max_str_digits repr_depth (PDict r) = Ok slots ->
        Forall (fun s => provider s = name) slots)
  /\ (forall name dept_id,
        dict_lookup "Name" r = Some name -> truthy name = true ->
        dict_lookup "Id" r = Some dept_id -> truthy dept_id = true ->
        parse_department float_repr str_repr max_str_digits repr_depth (PDict r) = Ok slots ->
        Forall (fun s => department s = name /\ department_id s = dept_id) slots).
Proof.
  assert (C : forall (f : pyval -> option RawSlot) (P : RawSlot -> Prop) xs,
            (forall x s, f x = Some s -> P s) -> Forall P (collect f xs)).
  { intros f P xs Hf. unfold collect. induction xs as [|x xs IH]; simpl; [constructor|].
    destruct (f x) as [s|] eqn:E; [constructor; eauto | exact IH]. }
  split; [|split].
  - intros D x xs HD HDne HS E. unfold _parse_slot_item in E.
    assert (TD : truthy (PStr D) = true) by (destruct D; [contradiction | reflexivity]).
    rewrite (py_get_dict r "Date"), HD in E. cbn [from_option id] in E.
    rewrite py_or_truthy in E by exact TD. cbn [bind py_get_default] in E.
    rewrite HS in E. cbn [from_option id] in E.
    rewrite py_or_truthy in E by reflexivity. cbn [bind] in E.
    rewrite TD in E. cbn [truthy andb py_iter bind] in E.
    injection E as <-.
    apply (C (fun slot => _parse_single_slot float_repr str_repr max_str_digits repr_depth slot
                            (PStr D) PNone PNone PNone)
             (fun s => date s = D) (x :: xs)).
    intros y s Hs.
    eapply override_text_date; [reflexivity | exact TD | exact Hs].
  - intros name HN TN E. unfold parse_provider in E.
    rewrite (py_get_dict r "Name"), HN in E. cbn [from_option id] in E.
    rewrite py_or_truthy in E by exact TN. cbn [bind] in E.
    apply bind_ok in E as (ps & _ & E).
    apply bind_ok in E as (xs & _ & E). injection E as <-.
    apply C. intros y s Hs. apply (handed_down_fields _ _ _ _ _ _ Hs), TN.
  - intros name dept_id HN TN HI TI E. unfold parse_department in E.
    rewrite (py_get_dict r "Name"), HN in E. cbn [from_option id] in E.
    rewrite py_or_truthy in E by exact TN. cbn [bind] in E.
    rewrite (py_get_dict r "Id"), HI in E. cbn [from_option id] in E.
    rewrite py_or_truthy in E by exact TI. cbn [bind] in E.
    apply bind_ok in E as (ps & _ & E).
    apply bind_ok in E as (xs & _ & E). injection E as <-.
    apply C. intros y s Hs.
    destruct (handed_down_fields _ _ _ _ _ _ Hs) as (_ & Hd & Hi). auto.
Qed.

End parser_more.

Lemma date_override_wins_witness :
  let data := [("Date", PStr "1999-01-01"); ("Time", PStr "8:30 AM")] in
  (forall k v, In k date_keys ->
     _parse_single_slot (fun _ => "1.5") (fun s => s) 4300 1000 (PDict (dict_setitem k v data))
                        (PStr "2026-08-05") PNone PNone PNone
     = _parse_single_slot (fun _ => "1.5") (fun s => s) 4300 1000 (PDict data)
                          (PStr "2026-08-05") PNone PNone PNone)
  /\ (forall D s,
        PStr "2026-08-05" = PStr D ->
        _parse_single_slot (fun _ => "1.5") (fun s => s) 4300 1000 (PDict data)
                           (PStr "2026-08-05") PNone PNone PNone = Some s ->
        date s = D).
Proof.
  intros data.
  apply (date_override_wins (fun _ => "1.5") (fun s => s) 4300 1000 data (PStr "2026-08-05")).
  reflexivity.
Defined.

Example nested_date_is_ignored :
  _parse_single_slot (fun _ => "1.5") (fun s => s) 4300 1000
    (PDict [("Date", PStr "1999-01-01"); ("Time", PStr "8:30 AM")])
    (PStr "2026-08-05") PNone PNone PNone
  = Some (mkSlot "2026-08-05" "8:30 AM" PNone PNone PNone PNone).
Proof. reflexivity. Qed.

Lemma or_chain3_ok (x : pyval) (d : list (string * pyval)) (k1 k2 : string) :
  exists v, (Ok x `or` py_get (PDict d) k1 `or` py_get (PDict d) k2) = Ok v.
Proof. rewrite !py_get_dict. repeat (apply py_or_ok; [eauto|]). eauto. Qed.

Lemma or_chain2_ok (d : list (string * pyval)) (k1 k2 : string) :
  exists v, (py_get (PDict d) k1 `or` py_get (PDict d) k2) = Ok v.
Proof. rewrite !py_get_dict. apply py_or_ok; eauto. Qed.

Lemma get_default_list (k : string) (r : list (string * pyval)) :
  list_if_present k r ->
  exists l, py_get_default (PDict r) k (PList []) = Ok (PList l).
Proof.
  unfold list_if_present, py_get_default.
  destruct (dict_lookup k r) as [[| | | | |l|]|]; simpl; try contradiction; eauto.
Qed.

Lemma or_lists (a b : list pyval) :
  exists l, (Ok (PList a) `or` Ok (PList b)) = Ok (PList l) /\ (l = a \/ l = b).
Proof. unfold py_or. simpl. destruct a; eauto. Qed.

Lemma for_each_ok (f : pyval -> result (list RawSlot)) (xs : list pyval) :
  Forall (fun x => exists l, f x = Ok l) xs -> exists l, for_each f xs = Ok l.
Proof.
  induction 1 as [|x xs [l Hl] _ [more Hm]]; simpl; [eauto|].
  rewrite Hl, Hm. simpl. eauto.
Qed.

Lemma for_each_raises (f : pyval -> result (list RawSlot)) (xs : list pyval) :
  Exists (fun x => exists e, f x = Raise e) xs -> exists e, for_each f xs = Raise e.
Proof.
  induction 1 as [x xs [e He]|x xs _ [e He]]; simpl.
  - rewrite He. simpl. eauto.
  - destruct (f x) as [l|e']; simpl; [|eauto]. rewrite He. simpl. eauto.
Qed.

Section parser_shapes.
Variable float_repr : float -> string.
Variable str_repr : string -> string.
Variable max_str_digits : nat.
Variable repr_depth : nat.

(** An integer date is a day offset: inside the calendar it becomes the
    ISO text of that day, outside (before year 1 or after year 9999) the
    record is dropped.  With a time [str()] can print, the record does
    give a slot; with a time it cannot print, the record is dropped. *)
Theorem integer_date_bounds
    (data : list (string * pyval)) (n : Z) (provider department department_id : pyval) :
  dict_lookup "Date" data = Some (PInt n) ->
  n <> 0 ->
  (n < - 672045 \/ 2980013 < n ->
   _parse_single_slot float_repr str_repr max_str_digits repr_depth (PDict data) PNone
                      provider department department_id = None)
  /\ (- 672045 <= n <= 2980013 ->
      forall s,
        _parse_single_slot float_repr str_repr max_str_digits repr_depth (PDict data) PNone
                           provider department department_id = Some s ->
        date s = isoformat (PyDate.fromordinal (672046 + n)))
  /\ (- 672045 <= n <= 2980013 ->
      forall t text,
        dict_lookup "Time" data = Some t -> truthy t = true ->
        py_str float_repr str_repr max_str_digits repr_depth t = Ok text ->
        exists s,
          _parse_single_slot float_repr str_repr max_str_digits repr_depth (PDict data) PNone
                             provider department department_id = Some s
          /\ time s = text)
  /\ (forall t e,
        dict_lookup "Time" data = Some t -> truthy t = true ->
        py_str float_repr str_repr max_str_digits repr_depth t = Raise e ->
        _parse_single_slot float_repr str_repr max_str_digits repr_depth (PDict data) PNone
                           provider department department_id = None).
Proof.
  intros HD Hn.
  assert (Tn : truthy (PInt n) = true).
  { simpl. destruct (Z.eqb_spec n 0); [contradiction | reflexivity]. }
  destruct (or_chain4_ok data "Time" "time" "StartTime" "DisplayTime") as (t & Et).
  destruct (or_chain3_ok provider data "ProviderName" "Provider") as (p & Ep).
  destruct (or_chain3_ok department data "DepartmentName" "Department") as (dp & Edp).
  destruct (or_chain3_ok department_id data "DepartmentId" "DeptId") as (di & Edi).
  destruct (or_chain2_ok data "Id" "SlotId") as (si & Esi).
  assert (Ed : (py_get (PDict data) "Date" `or` py_get (PDict data) "date" `or`
                py_get (PDict data) "AppointmentDate" `or` py_get (PDict data) "StartDate")
               = Ok (PInt n)).
  { rewrite (py_get_dict data "Date"), HD. apply py_or_truthy, Tn. }
  assert (Et' : forall t0, dict_lookup "Time" data = Some t0 -> truthy t0 = true ->
                  (py_get (PDict data) "Time" `or` py_get (PDict data) "time" `or`
                   py_get (PDict data) "StartTime" `or` py_get (PDict data) "DisplayTime")
                  = Ok t0).
  { intros t0 Ht0 Tt0. rewrite (py_get_dict data "Time"), Ht0. apply py_or_truthy, Tt0. }
  unfold _parse_single_slot, parse_single_slot_body.
  cbn [truthy]. rewrite Ed, Ep, Edp, Edi, Esi. cbn [bind]. rewrite Tn.
  cbn [negb orb isinstance_int int_value].
  split; [|split; [|split]].
  - intros R. rewrite Et. cbn [bind].
    destruct (negb (truthy t)); [reflexivity|].
    rewrite (int_to_epic_date_out_of_range n R). reflexivity.
  - intros R s. rewrite Et. cbn [bind].
    destruct (negb (truthy t)); [discriminate|].
    rewrite (int_to_epic_date_in_range n R). cbn [bind py_str].
    destruct (py_str float_repr str_repr max_str_digits repr_depth t) as [text|e];
      cbn [bind]; [|discriminate].
    intros [= <-]. reflexivity.
  - intros R t0 text Ht0 Tt0 St.
    rewrite (Et' t0 Ht0 Tt0). cbn [bind]. rewrite Tt0. cbn [negb].
    rewrite (int_to_epic_date_in_range n R). cbn [bind py_str].
    rewrite St. cbn [bind]. eauto.
  - intros t0 e Ht0 Tt0 St.
    rewrite (Et' t0 Ht0 Tt0). cbn [bind]. rewrite Tt0. cbn [negb].
    destruct (int_to_epic_date n) as [d|]; [|reflexivity].
    cbn [bind py_str]. rewrite St. reflexivity.
Qed.

Lemma parse_slot_item_shaped (item : pyval) :
  well_shaped_item item -> exists l, _parse_slot_item float_repr str_repr max_str_digits repr_depth item = Ok l.
Proof.
  destruct item as [| | | | | |r]; try (intros _; eexists; reflexivity).
  intros [H1 H2]. unfold _parse_slot_item.
  destruct (or_chain2_ok r "Date" "date") as (day_date & ->). cbn [bind].
  destruct (get_default_list "Slots" r H1) as (a & ->).
  destruct (get_default_list "slots" r H2) as (b & ->).
  destruct (or_lists a b) as (l & -> & _). cbn [bind].
  destruct (truthy day_date && truthy (PList l)); cbn [py_iter bind]; eauto.
Qed.

Lemma parse_items_shaped (items : list pyval) :
  Forall well_shaped_item items ->
  exists l, parse_items float_repr str_repr max_str_digits repr_depth items = Ok l.
Proof.
  induction 1 as [|x xs Hx _ [more Hm]]; simpl; [eauto|].
  destruct (parse_slot_item_shaped x Hx) as [l ->]. rewrite Hm. simpl. eauto.
Qed.

Lemma parse_holder_shaped (h : pyval) :
  well_shaped_holder h ->
  (exists l, parse_provider float_repr str_repr max_str_digits repr_depth h = Ok l)
  /\ (exists l, parse_department float_repr str_repr max_str_digits repr_depth h = Ok l).
Proof.
  destruct h as [| | | | | |r]; try contradiction.
  intros [H1 H2]. unfold parse_provider, parse_department.
  destruct (or_chain2_ok r "Name" "DisplayName") as (name & ->).
  destruct (or_chain2_ok r "Id" "DepartmentId") as (id & ->).
  destruct (get_default_list "Slots" r H1) as (a & ->).
  destruct (get_default_list "AvailableSlots" r H2) as (b & ->).
  destruct (or_lists a b) as (l & -> & _). cbn [bind py_iter]. eauto.
Qed.

End parser_shapes.

Section parser_totality.
Variable float_repr : float -> string.
Variable str_repr : string -> string.
Variable max_str_digits : nat.
Variable repr_depth : nat.

Lemma parse_containers_ok (cs : list pyval) :
  Forall (fun c => exists l, parse_container float_repr str_repr max_str_digits repr_depth c = Ok l) cs ->
  exists l, parse_containers float_repr str_repr max_str_digits repr_depth cs = Ok l.
Proof.
  induction 1 as [|c cs [l Hl] _ [more Hm]]; simpl; [eauto|].
  rewrite Hl, Hm. simpl. eauto.
Qed.

Lemma parse_container_shaped (d : list (string * pyval)) (k : string) :
  (forall items, dict_lookup k d = Some (PList items) -> Forall well_shaped_item items) ->
  exists l, parse_container float_repr str_repr max_str_digits repr_depth
              (from_option id (PList []) (dict_lookup k d)) = Ok l.
Proof.
  intros H. unfold parse_container.
  destruct (dict_lookup k d) as [v|]; cbn [from_option id]; [|simpl; eauto].
  destruct (negb (truthy v)); [eauto|].
  destruct v as [| | | | |items|]; eauto.
  apply (parse_items_shaped float_repr str_repr max_str_digits repr_depth). apply H. reflexivity.
Qed.

Lemma holder_list (d : list (string * pyval)) (k : string) :
  match dict_lookup k d with
  | None => True
  | Some (PList hs) => Forall well_shaped_holder hs
  | Some _ => False
  end ->
  exists l, py_get_default (PDict d) k (PList []) = Ok (PList l)
            /\ Forall well_shaped_holder l.
Proof.
  unfold py_get_default.
  destruct (dict_lookup k d) as [[| | | | |hs|]|]; cbn [from_option id];
    try contradiction; eauto.
Qed.

(** [parse_slots] returns a list for every payload that is a dict whose
    slot lists are lists wherever they are present and whose [Providers]
    and [Departments] entries are dicts: nothing in such a payload makes it
    raise, whatever the records themselves hold. *)
Theorem parse_slots_total (payload : pyval) :
  well_shaped_payload payload ->
  exists slots, parse_slots float_repr str_repr max_str_digits repr_depth payload = Ok slots.
Proof.
  destruct payload as [| | | | | |d]; try contradiction.
  intros [HC HH]. unfold parse_slots. cbn [py_get_default bind].
  destruct (parse_containers_ok
              [from_option id (PList []) (dict_lookup "Slots" d);
               from_option id (PList []) (dict_lookup "AvailableSlots" d);
               from_option id (PList []) (dict_lookup "slots" d);
               from_option id (PList []) (dict_lookup "Days" d);
               from_option id (PList []) (dict_lookup "AllDays" d)]) as (l1 & ->).
  { repeat constructor; apply parse_container_shaped; intros items E;
      eapply HC; try exact E; simpl; tauto. }
  cbn [bind].
  destruct (holder_list d "Providers") as (a & Ea & Fa); [apply HH; simpl; tauto|].
  destruct (holder_list d "providers") as (b & Eb & Fb); [apply HH; simpl; tauto|].
  destruct (holder_list d "Departments") as (a' & Ea' & Fa'); [apply HH; simpl; tauto|].
  destruct (holder_list d "departments") as (b' & Eb' & Fb'); [apply HH; simpl; tauto|].
  unfold py_get_default in Ea, Eb, Ea', Eb'.
  injection Ea as ->. injection Eb as ->. injection Ea' as ->. injection Eb' as ->.
  destruct (or_lists a b) as (ps & -> & Hps).
  destruct (or_lists a' b') as (ds & -> & Hds).
  cbn [bind py_iter].
  destruct (for_each_ok (parse_provider float_repr str_repr max_str_digits repr_depth) ps) as (l2 & ->).
  { destruct Hps as [-> | ->];
      (eapply Forall_impl; [eassumption|]); intros h Hh;
      apply (parse_holder_shaped float_repr str_repr max_str_digits repr_depth h Hh). }
  cbn [bind].
  destruct (for_each_ok (parse_department float_repr str_repr max_str_digits repr_depth) ds) as (l3 & ->).
  { destruct Hds as [-> | ->];
      (eapply Forall_impl; [eassumption|]); intros h Hh;
      apply (parse_holder_shaped float_repr str_repr max_str_digits repr_depth h Hh). }
  cbn [bind]. eauto.
Qed.

(** One entry under [Providers] or [Departments] that is not a dict makes
    [parse_slots] raise: the slots of every other entry and container
    are lost with it. *)
Theorem parse_slots_aborts (d : list (string * pyval)) (hs : list pyval) :
  dict_lookup "Providers" d = Some (PList hs)
  \/ dict_lookup "Departments" d = Some (PList hs) ->
  Exists (fun h => is_dict h = false) hs ->
  exists e, parse_slots float_repr str_repr max_str_digits repr_depth (PDict d) = Raise e.
Proof.
  intros Hk Hbad.
  assert (Tl : truthy (PList hs) = true) by (destruct Hbad; reflexivity).
  assert (Rp : exists e, for_each (parse_provider float_repr str_repr max_str_digits repr_depth) hs = Raise e).
  { apply for_each_raises. eapply Exists_impl; [exact Hbad|].
    intros [| | | | | |r]; simpl; try discriminate; eauto. }
  assert (Rd : exists e, for_each (parse_department float_repr str_repr max_str_digits repr_depth) hs = Raise e).
  { apply for_each_raises. eapply Exists_impl; [exact Hbad|].
    intros [| | | | | |r]; simpl; try discriminate; eauto. }
  unfold parse_slots. cbn [py_get_default bind].
  destruct (parse_containers float_repr str_repr max_str_digits repr_depth _) as [l1|e]; [|simpl; eauto].
  cbn [bind].
  destruct Hk as [Hk|Hk]; rewrite Hk; cbn [from_option id].
  - rewrite py_or_truthy by exact Tl. cbn [bind py_iter].
    destruct Rp as [e ->]. simpl. eauto.
  - rewrite (py_or_truthy (PList hs)) by exact Tl.
    match goal with
    | |- context [bind ?r _] =>
        lazymatch r with
        | py_or _ _ => destruct r as [ps|e]; [|simpl; eauto]
        end
    end.
    cbn [bind].
    destruct (py_iter ps) as [ps'|e]; [|simpl; eauto]. cbn [bind].
    destruct (for_each (parse_provider float_repr str_repr max_str_digits repr_depth) ps') as [l2|e]; [|simpl; eauto].
    cbn [bind py_iter]. destruct Rd as [e ->]. simpl. eauto.
Qed.

End parser_totality.

Lemma integer_date_bounds_witness :
  let data := [("Date", PInt 67800); ("Time", PStr "8:30 AM")] in
  (67800 < - 672045 \/ 2980013 < 67800 ->
   _parse_single_slot (fun _ => "1.5") (fun s => s) 4300 1000 (PDict data) PNone PNone PNone PNone
   = None)
  /\ (- 672045 <= 67800 <= 2980013 ->
      forall s,
        _parse_single_slot (fun _ => "1.5") (fun s => s) 4300 1000 (PDict data) PNone PNone PNone PNone
        = Some s ->
        date s = isoformat (PyDate.fromordinal (672046 + 67800)))
  /\ (- 672045 <= 67800 <= 2980013 ->
      forall t text,
        dict_lookup "Time" data = Some t -> truthy t = true ->
        py_str (fun _ => "1.5") (fun s => s) 4300 1000 t = Ok text ->
        exists s,
          _parse_single_slot (fun _ => "1.5") (fun s => s) 4300 1000 (PDict data)
                             PNone PNone PNone PNone = Some s
          /\ time s = text)
  /\ (forall t e,
        dict_lookup "Time" data = Some t -> truthy t = true ->
        py_str (fun _ => "1.5") (fun s => s) 4300 1000 t = Raise e ->
        _parse_single_slot (fun _ => "1.5") (fun s => s) 4300 1000 (PDict data)
                           PNone PNone PNone PNone = None).
Proof.
  intros data.
  apply (integer_date_bounds (fun _ => "1.5") (fun s => s) 4300 1000 data 67800 PNone PNone PNone).
  - reflexivity.
  - discriminate.
Defined.

(** A time nested deeper than [repr] can go is a time [str()] cannot
    print: the record is dropped, where a shallower one gives a slot. *)
Example unprintable_time_is_dropped :
  _parse_single_slot (fun _ => "1.5") (fun s => s) 4300 2
    (PDict [("Date", PInt 67800); ("Time", PList [PList [PList []]])])
    PNone PNone PNone PNone
  = None
  /\ _parse_single_slot (fun _ => "1.5") (fun s => s) 4300 3
       (PDict [("Date", PInt 67800); ("Time", PList [PList [PList []]])])
       PNone PNone PNone PNone
     = Some (mkSlot "2026-08-18" "[[[]]]" PNone PNone PNone PNone).
Proof. split; reflexivity. Qed.

Lemma parse_slots_total_witness :
  let payload :=
    PDict [("Slots", PList [PDict [("Date", PStr "2026-08-05"); ("Time", PStr "8:30 AM")];
                            PStr "not a record"]);
           ("Providers", PList [PDict [("Name", PStr "Dr. Rai");
                                       ("Slots", PList [PInt 7])]])] in
  well_shaped_payload payload
  /\ exists slots, parse_slots (fun _ => "1.5") (fun s => s) 4300 1000 payload = Ok slots.
Proof.
  intros payload.
  assert (W : well_shaped_payload payload).
  { split.
    - intros k items Hk E. simpl in Hk.
      destruct Hk as [<-|[<-|[<-|[<-|[<-|[]]]]]]; simpl in E; try discriminate E.
      injection E as <-. repeat constructor.
    - intros k Hk. simpl in Hk.
      destruct Hk as [<-|[<-|[<-|[<-|[]]]]]; simpl; auto.
      repeat constructor. }
  split; [exact W|].
  exact (parse_slots_total (fun _ => "1.5") (fun s => s) 4300 1000 payload W).
Defined.

Lemma parse_slots_aborts_witness :
  let d := [("Slots", PList [PDict [("Date", PStr "2026-08-05"); ("Time", PStr "8:30 AM")]]);
            ("Providers", PList [PDict [("Name", PStr "Dr. Rai")]; PStr "oops"])] in
  exists e, parse_slots (fun _ => "1.5") (fun s => s) 4300 1000 (PDict d) = Raise e.
Proof.
  intros d.
  apply (parse_slots_aborts (fun _ => "1.5") (fun s => s) 4300 1000 d
           [PDict [("Name", PStr "Dr. Rai")]; PStr "oops"]).
  - left. reflexivity.
  - apply Exists_cons_tl, Exists_cons_hd. reflexivity.
Defined.

Example provider_name_reaches_slots :
  parse_slots (fun _ => "1.5") (fun s => s) 4300 1000
    (PDict [("Providers",
             PList [PDict [("Name", PStr "Dr. Rai");
                           ("Slots", PList [PDict [("Date", PStr "2026-08-05");
                                                   ("Time", PStr "8:30 AM");
                                                   ("ProviderName", PStr "Someone else")]])]])])
  = Ok [mkSlot "2026-08-05" "8:30 AM" (PStr "Dr. Rai") PNone PNone PNone].
Proof. reflexivity. Qed.

(** ** The issue and its title *)

Lemma string_ltb_false_leb (x y : string) :
  String.ltb x y = false -> String.leb y x = true.
Proof.
  unfold String.ltb, String.leb. rewrite (String.compare_antisym y x).
  destruct (String.compare x y); simpl; congruence.
Qed.

Lemma string_ltb_leb (x y : string) : String.ltb x y = true -> String.leb x y = true.
Proof. unfold String.ltb, String.leb. destruct (String.compare x y); simpl; congruence. Qed.

Lemma string_leb_refl (x : string) : String.leb x x = true.
Proof. unfold String.leb. rewrite string_compare_refl. reflexivity. Qed.

Lemma fold_min_spec (rest : list string) (x : string) :
  let m := fold_left (fun m y => if String.ltb y m then y else m) rest x in
  In m (x :: rest) /\ forall y, In y (x :: rest) -> String.leb m y = true.
Proof.
  revert x. induction rest as [|z rest IH]; intros x; simpl.
  - split; [auto|]. intros y [<-|[]]. apply string_leb_refl.
  - destruct (String.ltb z x) eqn:E.
    + destruct (IH z) as [Hin Hle]. split.
      * destruct Hin as [<-|Hin]; auto.
      * intros y [<-|[<-|Hy]].
        -- eapply string_leb_trans; [apply Hle; left; reflexivity|].
           apply string_ltb_leb, E.
        -- apply Hle. left. reflexivity.
        -- apply Hle. right. exact Hy.
    + destruct (IH x) as [Hin Hle]. split.
      * destruct Hin as [<-|Hin]; auto.
      * intros y [<-|[<-|Hy]].
        -- apply Hle. left. reflexivity.
        -- eapply string_leb_trans; [apply Hle; left; reflexivity|].
           apply string_ltb_false_leb, E.
        -- apply Hle. right. exact Hy.
Qed.

Lemma py_min_spec (l : list string) (m : string) :
  py_min l = Some m -> In m l /\ forall y, In y l -> String.leb m y = true.
Proof.
  destruct l as [|x rest]; [discriminate|]. intros [= <-]. apply fold_min_spec.
Qed.

(** The date in the title is the date of the first section of the body:
    the smallest date text among the slots. *)
Theorem title_date_is_first_section (slots : list Slot) :
  slots <> [] ->
  exists d g rest,
    date_sections slots = (d, g) :: rest
    /\ py_min (map date slots) = Some d
    /\ issue_title slots
       = tooth +:+ " " +:+ pretty (Z.of_nat (length slots))
         +:+ " New Dental Appointment(s) Available - " +:+ d.
Proof.
  intros Hne.
  destruct (py_min (map date slots)) as [m|] eqn:Em;
    [|destruct slots; [contradiction | discriminate Em]].
  destruct (py_min_spec _ _ Em) as [Hin Hle].
  destruct (slots_by_date_spec slots) as (_ & D & _).
  assert (Hdates : forall x, In x (map fst (date_sections slots))
                             <-> exists s, In s slots /\ date s = x).
  { intros x. rewrite dates_of_sections, <- D. split; intros H;
      (eapply Permutation_in; [|exact H]);
      [apply py_sorted_perm | symmetry; apply py_sorted_perm]. }
  assert (Hsorted : StronglySorted (fun a b => String.leb a b = true)
                      (map fst (date_sections slots))).
  { rewrite dates_of_sections.
    apply py_sorted_ordered; [apply String.leb_total | apply string_leb_trans]. }
  destruct (date_sections slots) as [|[d g] rest] eqn:Es.
  - apply in_map_iff in Hin as (s & Hs & Hin).
    destruct (proj2 (Hdates m)) as []. eauto.
  - exists d, g, rest. split; [reflexivity|].
    assert (E : m = d).
    { apply String.leb_antisym.
      - apply Hle. destruct (proj1 (Hdates d)) as (s & Hs & <-); [left; reflexivity|].
        apply in_map, Hs.
      - cbn [map fst] in Hsorted. apply StronglySorted_inv in Hsorted as [_ F].
        apply in_map_iff in Hin as (s & Hs & Hin).
        destruct (proj2 (Hdates m)) as [<-|Hm]; [eauto | apply string_leb_refl |].
        rewrite List.Forall_forall in F. apply F, Hm. }
    subst m. split; [reflexivity|].
    unfold issue_title. rewrite Em. reflexivity.
Qed.

Lemma title_date_is_first_section_witness :
  let slots : list Slot :=
    [mkSlot "2026-08-05" "8:30 AM" None None None None;
     mkSlot "2026-08-04" "1:00 PM" None None None None] in
  exists d g rest,
    date_sections slots = (d, g) :: rest
    /\ py_min (map date slots) = Some d
    /\ issue_title slots
       = tooth +:+ " " +:+ pretty (Z.of_nat (length slots))
         +:+ " New Dental Appointment(s) Available - " +:+ d.
Proof. intros slots. apply (title_date_is_first_section slots). discriminate. Defined.

(** [notify_new_slots] sends nothing without a repository, without a
    token or for an empty list; otherwise it sends one request, carrying
    the title and the body built from the slots; and it returns a
    truthy value only when that request was answered with status 201. *)
Theorem notify_new_slots_requests (n : notifier) (detected_at : string)
    (post : issue_request -> http_outcome) (slots : list Slot) :
  (optional_str_truthy (repo n) = false \/ optional_str_truthy (token n) = false
   \/ slots = [] ->
   notify_new_slots n detected_at post slots = (PNone, []))
  /\ (optional_str_truthy (repo n) = true -> optional_str_truthy (token n) = true ->
      slots <> [] ->
      exists request,
        snd (notify_new_slots n detected_at post slots) = [request]
        /\ req_title request = issue_title slots
        /\ req_body request = _build_issue_body detected_at slots
        /\ req_labels request = ["appointment-alert"])
  /\ (truthy (fst (notify_new_slots n detected_at post slots)) = true ->
      exists request issue_data,
        snd (notify_new_slots n detected_at post slots) = [request]
        /\ post request = HttpResponse 201 (Ok issue_data)
        /\ py_get issue_data "html_url"
           = Ok (fst (notify_new_slots n detected_at post slots))).
Proof.
  unfold notify_new_slots.
  destruct (optional_str_truthy (repo n)); destruct (optional_str_truthy (token n));
    cbn [negb orb];
    try (split; [reflexivity | split; [discriminate | discriminate]]).
  destruct slots as [|s slots];
    [split; [reflexivity | split; [congruence | discriminate]]|].
  set (request := mkRequest _ _ _ _ _).
  split; [intros [H|[H|H]]; discriminate H|].
  split.
  - intros _ _ _. exists request.
    destruct (post request) as [|status_code json]; [auto|].
    destruct (status_code =? 201); [|auto].
    destruct (issue_data <- json ;; py_get issue_data "html_url"); auto.
  - destruct (post request) as [|status_code json] eqn:P; [discriminate|].
    destruct (Z.eqb_spec status_code 201) as [->|_]; [|discriminate].
    destruct json as [issue_data|e]; cbn [bind]; [|discriminate].
    destruct (py_get issue_data "html_url") as [u|e] eqn:G; [|discriminate].
    intros _. exists request, issue_data. auto.
Qed.

(** ** From a date to its offset and back *)

Section calendar_more.
Import PyDate.

Lemma month_day_valid_table :
  forallb (fun k => month_day_valid true (Z.of_nat k) && month_day_valid false (Z.of_nat k))
          (seq 0 365) = true.
Proof. vm_compute. reflexivity. Qed.

Lemma month_day_in_calendar (n : Z) (leap : bool) :
  0 <= n < 365 ->
  let '(m, d) := month_day n leap in
  1 <= m <= 12
  /\ 1 <= d <= (if (m =? 2) && leap then 29 else at_index _DAYS_IN_MONTH m).
Proof.
  intros Hn.
  pose proof month_day_valid_table as T.
  rewrite forallb_forall in T.
  specialize (T (Z.to_nat n)).
  rewrite Z2Nat.id in T by lia.
  assert (Hin : In (Z.to_nat n) (seq 0 365)) by (apply in_seq; lia).
  specialize (T Hin). apply andb_prop in T as [Tt Tf].
  unfold month_day_valid in Tt, Tf.
  destruct leap.
  - destruct (month_day n true) as [m d].
    repeat (apply andb_prop in Tt as [Tt ?]). lia.
  - destruct (month_day n false) as [m d].
    repeat (apply andb_prop in Tf as [Tf ?]). lia.
Qed.

Lemma days_before_next_year (y : Z) :
  _days_before_year (y + 1) = _days_before_year y + 365 + Z.b2z (_is_leap y).
Proof.
  unfold _days_before_year, _is_leap.
  replace (y + 1 - 1) with y by lia.
  destruct (Z.eqb_spec (y mod 4) 0) as [E4|E4];
    destruct (Z.eqb_spec (y mod 100) 0) as [E100|E100];
    destruct (Z.eqb_spec (y mod 400) 0) as [E400|E400];
    cbn [negb andb orb Z.b2z]; Z.div_mod_to_equations; lia.
Qed.

Lemma days_before_year_mono (y y' : Z) :
  y <= y' -> _days_before_year y <= _days_before_year y'.
Proof.
  intros H. unfold _days_before_year. Z.div_mod_to_equations. lia.
Qed.

Lemma month_cases (m : Z) :
  1 <= m <= 12 ->
  m = 1 \/ m = 2 \/ m = 3 \/ m = 4 \/ m = 5 \/ m = 6
  \/ m = 7 \/ m = 8 \/ m = 9 \/ m = 10 \/ m = 11 \/ m = 12.
Proof. lia. Qed.

(** Look up the month tables at the months that are numerals. *)
Ltac eval_tables :=
  repeat match goal with
         | |- context [at_index ?l ?k] =>
             let v := eval vm_compute in (at_index l k) in
             change (at_index l k) with v
         | H : context [at_index ?l ?k] |- _ =>
             let v := eval vm_compute in (at_index l k) in
             change (at_index l k) with v in H
         end.

(** The day of the year lies within the year. *)
Lemma day_of_year_range (y m d : Z) :
  1 <= m <= 12 -> 1 <= d <= _days_in_month y m ->
  1 <= _days_before_month y m + d <= 365 + Z.b2z (_is_leap y).
Proof.
  intros Hm Hd. unfold _days_before_month, _days_in_month in *.
  destruct (_is_leap y);
    destruct (month_cases m Hm) as [->|[->|[->|[->|[->|[->|[->|[->|[->|[->|[->| ->]]]]]]]]]]];
    eval_tables; cbn in Hd |- *; lia.
Qed.

Lemma day_of_year_lt (y m d m' d' : Z) :
  1 <= m <= 12 -> 1 <= m' <= 12 ->
  1 <= d <= _days_in_month y m -> 1 <= d' <= _days_in_month y m' ->
  m < m' \/ (m = m' /\ d < d') ->
  _days_before_month y m + d < _days_before_month y m' + d'.
Proof.
  intros Hm Hm' Hd Hd' Hlt. unfold _days_before_month, _days_in_month in *.
  destruct (_is_leap y);
    destruct (month_cases m Hm) as [->|[->|[->|[->|[->|[->|[->|[->|[->|[->|[->| ->]]]]]]]]]]];
    destruct (month_cases m' Hm') as [->|[->|[->|[->|[->|[->|[->|[->|[->|[->|[->| ->]]]]]]]]]]];
    eval_tables; cbn in Hd, Hd' |- *; lia.
Qed.

(** Later dates have larger ordinals. *)
Lemma toordinal_lt (d1 d2 : date) :
  1 <= month d1 <= 12 -> 1 <= day d1 <= _days_in_month (year d1) (month d1) ->
  1 <= month d2 <= 12 -> 1 <= day d2 <= _days_in_month (year d2) (month d2) ->
  date_lt d1 d2 -> toordinal d1 < toordinal d2.
Proof.
  intros M1 D1 M2 D2 [Hy|[Hy Hmd]]; unfold toordinal, _ymd2ord.
  - pose proof (day_of_year_range _ _ _ M1 D1) as R1.
    pose proof (day_of_year_range _ _ _ M2 D2) as R2.
    pose proof (days_before_next_year (year d1)) as S.
    pose proof (days_before_year_mono (year d1 + 1) (year d2)) as Mo.
    lia.
  - rewrite <- Hy in *.
    pose proof (day_of_year_lt (year d1) _ _ _ _ M1 M2 D1 D2 Hmd). lia.
Qed.

Lemma toordinal_inj (d1 d2 : date) :
  1 <= month d1 <= 12 -> 1 <= day d1 <= _days_in_month (year d1) (month d1) ->
  1 <= month d2 <= 12 -> 1 <= day d2 <= _days_in_month (year d2) (month d2) ->
  toordinal d1 = toordinal d2 -> d1 = d2.
Proof.
  intros M1 D1 M2 D2 E.
  assert (T : date_lt d1 d2 \/ date_lt d2 d1
              \/ (year d1 = year d2 /\ month d1 = month d2 /\ day d1 = day d2))
    by (unfold date_lt; lia).
  destruct T as [L|[L|(Ey & Em & Ed)]].
  - pose proof (toordinal_lt d1 d2 M1 D1 M2 D2 L). lia.
  - pose proof (toordinal_lt d2 d1 M2 D2 M1 D1 L). lia.
  - destruct d1, d2. cbn in *. congruence.
Qed.

(** [fromordinal] only gives days of the calendar. *)
Lemma fromordinal_in_calendar (o : Z) :
  1 <= o ->
  1 <= month (fromordinal o) <= 12
  /\ 1 <= day (fromordinal o)
     <= _days_in_month (year (fromordinal o)) (month (fromordinal o)).
Proof.
  intros Ho. unfold fromordinal, _ord2ymd, _DI400Y, _DI100Y, _DI4Y.
  set (n := o - 1).
  set (a := n / 146097). set (r1 := n mod 146097).
  set (b := r1 / 36524). set (r2 := r1 mod 36524).
  set (c := r2 / 1461). set (r3 := r2 mod 1461).
  set (e := r3 / 365). set (r := r3 mod 365).
  assert (H1 : 0 <= r2 < 36524 /\ 0 <= b <= 4)
    by (subst b r2 r1; Z.div_mod_to_equations; lia).
  assert (H2 : r2 = c * 1461 + r3 /\ 0 <= r3 < 1461 /\ 0 <= c <= 24)
    by (subst c r3; Z.div_mod_to_equations; lia).
  assert (H3 : r3 = e * 365 + r /\ 0 <= r < 365 /\ 0 <= e <= 4)
    by (subst e r; Z.div_mod_to_equations; lia).
  clearbody n a r1 b r2 c r3 e r.
  destruct H1 as (Hr2 & Hb). destruct H2 as (H2 & Hr3 & Hc). destruct H3 as (H3 & Hr & He).
  destruct (Z.eqb_spec e 4) as [E4|E4]; [|destruct (Z.eqb_spec b 4) as [B4|B4]];
    cbn [orb year month day].
  - unfold _days_in_month. eval_tables. cbn. lia.
  - unfold _days_in_month. eval_tables. cbn. lia.
  - pose proof (month_day_in_calendar r ((e =? 3) && (negb (c =? 24) || (b =? 3))) Hr) as M.
    destruct (month_day r ((e =? 3) && (negb (c =? 24) || (b =? 3)))) as [m d].
    cbn [year month day]. unfold _days_in_month.
    rewrite is_leap_cycles by lia. exact M.
Qed.

Lemma fromordinal_toordinal (d : date) :
  valid_date d -> fromordinal (toordinal d) = d.
Proof.
  intros (Hy & Hm & Hd).
  assert (Ho : 1 <= toordinal d).
  { unfold toordinal, _ymd2ord.
    pose proof (day_of_year_range _ _ _ Hm Hd).
    pose proof (days_before_year_mono 1 (year d)).
    change (_days_before_year 1) with 0 in *. lia. }
  destruct (fromordinal_in_calendar _ Ho) as [Hm' Hd'].
  apply toordinal_inj; try assumption.
  apply toordinal_fromordinal, Ho.
Qed.

Lemma toordinal_range (d : date) :
  valid_date d -> 1 <= toordinal d <= 3652059.
Proof.
  intros (Hy & Hm & Hd). unfold toordinal, _ymd2ord.
  pose proof (day_of_year_range _ _ _ Hm Hd).
  pose proof (days_before_year_mono 1 (year d)).
  pose proof (days_before_year_mono (year d + 1) 10000).
  pose proof (days_before_next_year (year d)).
  change (_days_before_year 1) with 0 in *.
  change (_days_before_year 10000) with 3652059 in *. lia.
Qed.

(** A date turned into its offset and the offset turned back is the
    date again; the offset is within the range [int_to_epic_date]
    accepts. *)
Theorem date_round_trip (d : date) :
  valid_date d ->
  - 672045 <= epic_date_to_int d <= 2980013
  /\ int_to_epic_date (epic_date_to_int d) = Some d.
Proof.
  intros V. pose proof (toordinal_range d V) as R.
  assert (E : epic_date_to_int d = toordinal d - 672046).
  { unfold epic_date_to_int, sub_days. rewrite epoch_ordinal. reflexivity. }
  rewrite E. split; [lia|].
  rewrite int_to_epic_date_in_range by lia.
  replace (672046 + (toordinal d - 672046)) with (toordinal d) by lia.
  rewrite fromordinal_toordinal by exact V. reflexivity.
Qed.

(** The offset grows with the date: an earlier day has a smaller offset,
    and only then. *)
Theorem epic_date_to_int_order (d1 d2 : date) :
  valid_date d1 -> valid_date d2 ->
  (date_lt d1 d2 <-> epic_date_to_int d1 < epic_date_to_int d2).
Proof.
  intros (Hy1 & Hm1 & Hd1) (Hy2 & Hm2 & Hd2).
  unfold epic_date_to_int, sub_days. split.
  - intros L. pose proof (toordinal_lt d1 d2 Hm1 Hd1 Hm2 Hd2 L). lia.
  - intros L.
    assert (T : date_lt d1 d2 \/ date_lt d2 d1
                \/ (year d1 = year d2 /\ month d1 = month d2 /\ day d1 = day d2))
      by (unfold date_lt; lia).
    destruct T as [H|[H|(Ey & Em & Ed)]]; [exact H | |].
    + pose proof (toordinal_lt d2 d1 Hm2 Hd2 Hm1 Hd1 H). lia.
    + destruct d1, d2. cbn in *. subst. lia.
Qed.

End calendar_more.

Lemma date_round_trip_witness :
  - 672045 <= epic_date_to_int (PyDate.mkdate 2024 2 29) <= 2980013
  /\ int_to_epic_date (epic_date_to_int (PyDate.mkdate 2024 2 29))
     = Some (PyDate.mkdate 2024 2 29).
Proof.
  apply (date_round_trip (PyDate.mkdate 2024 2 29)).
  vm_compute. repeat split; discriminate.
Defined.

Lemma epic_date_to_int_order_witness :
  date_lt (PyDate.mkdate 2024 2 29) (PyDate.mkdate 2024 3 1)
  <-> epic_date_to_int (PyDate.mkdate 2024 2 29) < epic_date_to_int (PyDate.mkdate 2024 3 1).
Proof.
  apply (epic_date_to_int_order (PyDate.mkdate 2024 2 29) (PyDate.mkdate 2024 3 1));
    vm_compute; repeat split; discriminate.
Defined.

(** ** ISO texts sort like the dates they stand for *)

Ltac n_arith := zify; Z.to_euclidean_division_equations; lia.

Lemma pretty_go_digit (x : N) (s : string) :
  (0 < x < 10)%N -> pretty_N_go x s = String (pretty_N_char x) s.
Proof.
  intros H. rewrite pretty_N_go_step by lia.
  rewrite N.div_small, N.mod_small by lia. apply pretty_N_go_0.
Qed.

(** A number below 10000 padded to four places is its four digits. *)
Lemma zero_pad4 (x : N) : (0 < x < 10000)%N -> zero_pad 4 (Z.of_N x) = dec4 x.
Proof.
  intros H. destruct x as [|p]; [lia|].
  unfold zero_pad. change (pretty (Z.of_N (N.pos p))) with (pretty_N (N.pos p)).
  unfold pretty_N. destruct (decide (N.pos p = 0%N)) as [E|_]; [discriminate|].
  set (x := N.pos p) in *. unfold dec4.
  assert (C : (x < 10 \/ 10 <= x < 100 \/ 100 <= x < 1000 \/ 1000 <= x)%N) by lia.
  destruct C as [C|[C|[C|C]]].
  - rewrite pretty_go_digit by lia.
    replace (x / 1000)%N with 0%N by n_arith.
    replace (x / 100 mod 10)%N with 0%N by n_arith.
    replace (x / 10 mod 10)%N with 0%N by n_arith.
    replace (x mod 10)%N with x by n_arith.
    reflexivity.
  - rewrite pretty_N_go_step by lia. rewrite pretty_go_digit by n_arith.
    replace (x / 1000)%N with 0%N by n_arith.
    replace (x / 100 mod 10)%N with 0%N by n_arith.
    replace (x / 10 mod 10)%N with (x / 10)%N by n_arith.
    reflexivity.
  - rewrite pretty_N_go_step by lia.
    rewrite pretty_N_go_step by n_arith.
    rewrite pretty_go_digit by n_arith.
    replace (x / 1000)%N with 0%N by n_arith.
    replace (x / 100 mod 10)%N with (x / 10 / 10)%N by n_arith.
    reflexivity.
  - rewrite pretty_N_go_step by lia.
    rewrite pretty_N_go_step by n_arith.
    rewrite pretty_N_go_step by n_arith.
    rewrite pretty_go_digit by n_arith.
    replace (x / 1000)%N with (x / 10 / 10 / 10)%N by n_arith.
    replace (x / 100 mod 10)%N with (x / 10 / 10 mod 10)%N by n_arith.
    reflexivity.
Qed.

Lemma zero_pad2 (x : N) : (0 < x < 100)%N -> zero_pad 2 (Z.of_N x) = dec2 x.
Proof.
  intros H. destruct x as [|p]; [lia|].
  unfold zero_pad. change (pretty (Z.of_N (N.pos p))) with (pretty_N (N.pos p)).
  unfold pretty_N. destruct (decide (N.pos p = 0%N)) as [E|_]; [discriminate|].
  set (x := N.pos p) in *. unfold dec2.
  assert (C : (x < 10 \/ 10 <= x)%N) by lia.
  destruct C as [C|C].
  - rewrite pretty_go_digit by lia.
    replace (x / 10)%N with 0%N by n_arith.
    replace (x mod 10)%N with x by n_arith.
    reflexivity.
  - rewrite pretty_N_go_step by lia.
    rewrite pretty_go_digit by n_arith.
    reflexivity.
Qed.

Lemma digit_cases (a : N) :
  (a < 10)%N ->
  (a = 0 \/ a = 1 \/ a = 2 \/ a = 3 \/ a = 4 \/ a = 5 \/ a = 6 \/ a = 7 \/ a = 8 \/ a = 9)%N.
Proof. lia. Qed.

(** The digit characters are in the order of the digits. *)
Lemma digit_compare (a b : N) :
  (a < 10)%N -> (b < 10)%N ->
  Ascii.compare (pretty_N_char a) (pretty_N_char b) = (a ?= b)%N.
Proof.
  intros Ha Hb.
  destruct (digit_cases a Ha) as [->|[->|[->|[->|[->|[->|[->|[->|[->| ->]]]]]]]]];
    destruct (digit_cases b Hb) as [->|[->|[->|[->|[->|[->|[->|[->|[->| ->]]]]]]]]];
    reflexivity.
Qed.

Lemma dec2_lt (x y : N) :
  (x < y)%N -> (y < 100)%N -> String.compare (dec2 x) (dec2 y) = Lt.
Proof.
  intros Hxy Hy. unfold dec2. cbn [String.compare].
  rewrite !digit_compare by n_arith.
  destruct (N.compare_spec (x / 10) (y / 10)) as [E|L|G].
  - destruct (N.compare_spec (x mod 10) (y mod 10)) as [E'|L'|G']; [|reflexivity|];
      exfalso; n_arith.
  - reflexivity.
  - exfalso. n_arith.
Qed.

Lemma four_digits (x : N) :
  (x < 10000)%N ->
  (x = 1000 * (x / 1000) + 100 * (x / 100 mod 10) + 10 * (x / 10 mod 10) + x mod 10
   /\ x / 1000 < 10 /\ x / 100 mod 10 < 10 /\ x / 10 mod 10 < 10 /\ x mod 10 < 10)%N.
Proof. intros H. n_arith. Qed.

Lemma dec4_lt (x y : N) :
  (x < y)%N -> (y < 10000)%N -> String.compare (dec4 x) (dec4 y) = Lt.
Proof.
  intros Hxy Hy.
  pose proof (four_digits x ltac:(lia)) as Dx. pose proof (four_digits y Hy) as Dy.
  unfold dec4. cbn [String.compare].
  rewrite !digit_compare by tauto.
  generalize dependent (x / 1000)%N. generalize dependent (x / 100 mod 10)%N.
  generalize dependent (x / 10 mod 10)%N. generalize dependent (x mod 10)%N.
  generalize dependent (y / 1000)%N. generalize dependent (y / 100 mod 10)%N.
  generalize dependent (y / 10 mod 10)%N. generalize dependent (y mod 10)%N.
  intros y0 y1 y2 y3 Dy x0 x1 x2 x3 Dx.
  destruct (N.compare_spec x3 y3); [|reflexivity | exfalso; lia].
  destruct (N.compare_spec x2 y2); [|reflexivity | exfalso; lia].
  destruct (N.compare_spec x1 y1); [|reflexivity | exfalso; lia].
  destruct (N.compare_spec x0 y0); [|reflexivity | exfalso; lia].
  exfalso; lia.
Qed.

(** Padded years and padded months or days: the width is fixed and a
    smaller number gives a smaller text. *)
Lemma pad4_width (a : Z) : 1 <= a <= 9999 -> String.length (zero_pad 4 a) = 4%nat.
Proof.
  intros H. rewrite <- (Z2N.id a) by lia. rewrite zero_pad4 by lia. reflexivity.
Qed.

Lemma pad2_width (a : Z) : 1 <= a <= 99 -> String.length (zero_pad 2 a) = 2%nat.
Proof.
  intros H. rewrite <- (Z2N.id a) by lia. rewrite zero_pad2 by lia. reflexivity.
Qed.

Lemma pad4_lt (a b : Z) :
  1 <= a -> a < b -> b <= 9999 ->
  String.compare (zero_pad 4 a) (zero_pad 4 b) = Lt.
Proof.
  intros Ha Hab Hb. rewrite <- (Z2N.id a), <- (Z2N.id b) by lia.
  rewrite !zero_pad4 by lia. apply dec4_lt; lia.
Qed.

Lemma pad2_lt (a b : Z) :
  1 <= a -> a < b -> b <= 99 ->
  String.compare (zero_pad 2 a) (zero_pad 2 b) = Lt.
Proof.
  intros Ha Hab Hb. rewrite <- (Z2N.id a), <- (Z2N.id b) by lia.
  rewrite !zero_pad2 by lia. apply dec2_lt; lia.
Qed.

(** Texts with heads of one length compare by the heads first. *)
Lemma compare_append (a a' s s' : string) :
  String.length a = String.length a' ->
  String.compare (a +:+ s) (a' +:+ s')
  = match String.compare a a' with
    | Eq => String.compare s s'
    | c => c
    end.
Proof.
  revert a'. induction a as [|x a IH]; intros [|y a'] L; simpl in *;
    try discriminate; [reflexivity|].
  destruct (Ascii.compare x y); [apply IH; lia | reflexivity | reflexivity].
Qed.

Lemma compare_dash (s s' : string) :
  String.compare ("-" +:+ s) ("-" +:+ s') = String.compare s s'.
Proof.
  change (String.compare (String "-" s) (String "-" s') = String.compare s s').
  cbn [String.compare]. rewrite (proj2 (ascii_compare_eq "-" "-") eq_refl). reflexivity.
Qed.

Section iso_order.
Import PyDate.

Lemma days_in_month_le_31 (y m : Z) : 1 <= m <= 12 -> _days_in_month y m <= 31.
Proof.
  intros Hm. unfold _days_in_month.
  destruct (_is_leap y);
    destruct (month_cases m Hm) as [->|[->|[->|[->|[->|[->|[->|[->|[->|[->|[->| ->]]]]]]]]]]];
    vm_compute; discriminate.
Qed.

Lemma isoformat_compare (d1 d2 : date) :
  valid_date d1 -> valid_date d2 ->
  String.compare (isoformat d1) (isoformat d2)
  = match String.compare (zero_pad 4 (year d1)) (zero_pad 4 (year d2)) with
    | Eq =>
        match String.compare (zero_pad 2 (month d1)) (zero_pad 2 (month d2)) with
        | Eq => String.compare (zero_pad 2 (day d1)) (zero_pad 2 (day d2))
        | c => c
        end
    | c => c
    end.
Proof.
  intros (Hy1 & Hm1 & Hd1) (Hy2 & Hm2 & Hd2).
  pose proof (days_in_month_le_31 (year d1) _ Hm1).
  pose proof (days_in_month_le_31 (year d2) _ Hm2).
  unfold isoformat.
  rewrite compare_append
    by (rewrite !pad4_width by lia; reflexivity).
  destruct (String.compare (zero_pad 4 (year d1)) (zero_pad 4 (year d2))); try reflexivity.
  rewrite compare_dash.
  rewrite compare_append
    by (rewrite !pad2_width by lia; reflexivity).
  destruct (String.compare (zero_pad 2 (month d1)) (zero_pad 2 (month d2))); reflexivity.
Qed.

Lemma isoformat_lt (d1 d2 : date) :
  valid_date d1 -> valid_date d2 -> date_lt d1 d2 ->
  String.compare (isoformat d1) (isoformat d2) = Lt.
Proof.
  intros V1 V2 L. rewrite isoformat_compare by assumption.
  destruct V1 as (Hy1 & Hm1 & Hd1), V2 as (Hy2 & Hm2 & Hd2).
  pose proof (days_in_month_le_31 (year d1) _ Hm1).
  pose proof (days_in_month_le_31 (year d2) _ Hm2).
  destruct L as [Ly|[Ey [Lm|[Em Ld]]]].
  - rewrite pad4_lt by lia. reflexivity.
  - rewrite Ey, string_compare_refl.
    rewrite pad2_lt by lia. reflexivity.
  - rewrite Ey, Em, !string_compare_refl.
    apply pad2_lt; lia.
Qed.

(** The ISO text of an earlier date sorts before that of a later one,
    and only then. *)
Lemma isoformat_order (d1 d2 : date) :
  valid_date d1 -> valid_date d2 ->
  (date_lt d1 d2 <-> String.ltb (isoformat d1) (isoformat d2) = true).
Proof.
  intros V1 V2. split.
  - intros L. unfold String.ltb. rewrite (isoformat_lt d1 d2 V1 V2 L). reflexivity.
  - intros L.
    assert (T : date_lt d1 d2 \/ date_lt d2 d1
                \/ (year d1 = year d2 /\ month d1 = month d2 /\ day d1 = day d2))
      by (unfold date_lt; lia).
    destruct T as [H|[H|(Ey & Em & Ed)]]; [exact H | |].
    + unfold String.ltb in L. rewrite String.compare_antisym in L.
      rewrite (isoformat_lt d2 d1 V2 V1 H) in L. discriminate L.
    + destruct d1, d2. cbn in *. subst.
      unfold String.ltb in L. rewrite string_compare_refl in L. discriminate L.
Qed.

Lemma days_before_year_10000 : _days_before_year 10000 = 3652059.
Proof. reflexivity. Qed.

Lemma days_before_year_1 : _days_before_year 1 = 0.
Proof. reflexivity. Qed.

(** A date of the calendar whose ordinal is in range has its year in
    range. *)
Lemma year_in_range (d : date) :
  1 <= month d <= 12 -> 1 <= day d <= _days_in_month (year d) (month d) ->
  1 <= toordinal d <= 3652059 -> 1 <= year d <= 9999.
Proof.
  intros Hm Hd. unfold toordinal, _ymd2ord. intros Ho.
  pose proof (day_of_year_range _ _ _ Hm Hd) as R.
  pose proof (days_before_next_year (year d)) as S.
  destruct (Z.le_gt_cases 1 (year d)) as [L|L];
    [destruct (Z.le_gt_cases (year d) 9999) as [G|G]; [lia|]|].
  - pose proof (days_before_year_mono 10000 (year d)) as Mo.
    rewrite days_before_year_10000 in Mo. lia.
  - pose proof (days_before_year_mono (year d + 1) 1) as Mo.
    rewrite days_before_year_1 in Mo. lia.
Qed.

Lemma fromordinal_valid (o : Z) :
  1 <= o <= 3652059 -> valid_date (fromordinal o).
Proof.
  intros Ho.
  destruct (fromordinal_in_calendar o) as [Hm Hd]; [lia|].
  pose proof (toordinal_fromordinal o) as E.
  generalize dependent (fromordinal o). intros d Hm Hd E.
  split; [|split; assumption].
  apply year_in_range; try assumption. rewrite E by lia. exact Ho.
Qed.

Lemma ordinal_order (d1 d2 : date) :
  valid_date d1 -> valid_date d2 ->
  (toordinal d1 < toordinal d2 <-> String.ltb (isoformat d1) (isoformat d2) = true).
Proof.
  intros V1 V2. rewrite <- (isoformat_order d1 d2 V1 V2).
  destruct V1 as (_ & Hm1 & Hd1), V2 as (_ & Hm2 & Hd2).
  split.
  - intros L.
    assert (T : date_lt d1 d2 \/ date_lt d2 d1
                \/ (year d1 = year d2 /\ month d1 = month d2 /\ day d1 = day d2))
      by (unfold date_lt; lia).
    destruct T as [H|[H|(Ey & Em & Ed)]]; [exact H | |].
    + pose proof (toordinal_lt d2 d1 Hm2 Hd2 Hm1 Hd1 H). lia.
    + destruct d1, d2. cbn in *. subst. lia.
  - intros L. pose proof (toordinal_lt d1 d2 Hm1 Hd1 Hm2 Hd2 L). lia.
Qed.

(** Integer dates keep their order when written out: of two day offsets
    the smaller one becomes the date text that sorts first, so slots
    dated by offsets are listed in calendar order. *)
Theorem integer_dates_sort_in_order (n1 n2 : Z) (d1 d2 : date) :
  int_to_epic_date n1 = Some d1 ->
  int_to_epic_date n2 = Some d2 ->
  (n1 < n2 <-> String.ltb (isoformat d1) (isoformat d2) = true).
Proof.
  intros E1 E2.
  assert (R1 : - 672045 <= n1 <= 2980013).
  { destruct (Z.lt_ge_cases n1 (- 672045));
      [rewrite int_to_epic_date_out_of_range in E1 by lia; discriminate|].
    destruct (Z.lt_ge_cases 2980013 n1);
      [rewrite int_to_epic_date_out_of_range in E1 by lia; discriminate|]. lia. }
  assert (R2 : - 672045 <= n2 <= 2980013).
  { destruct (Z.lt_ge_cases n2 (- 672045));
      [rewrite int_to_epic_date_out_of_range in E2 by lia; discriminate|].
    destruct (Z.lt_ge_cases 2980013 n2);
      [rewrite int_to_epic_date_out_of_range in E2 by lia; discriminate|]. lia. }
  assert (V1 : valid_date d1 /\ toordinal d1 = 672046 + n1).
  { rewrite int_to_epic_date_in_range in E1 by assumption. injection E1 as <-.
    split; [apply fromordinal_valid; lia | apply toordinal_fromordinal; lia]. }
  assert (V2 : valid_date d2 /\ toordinal d2 = 672046 + n2).
  { rewrite int_to_epic_date_in_range in E2 by assumption. injection E2 as <-.
    split; [apply fromordinal_valid; lia | apply toordinal_fromordinal; lia]. }
  clear E1 E2. destruct V1 as [V1 T1], V2 as [V2 T2].
  rewrite <- (ordinal_order d1 d2 V1 V2). lia.
Qed.

End iso_order.

Lemma integer_dates_sort_in_order_witness :
  67800 < 67857
  <-> String.ltb (isoformat (PyDate.mkdate 2026 8 18)) (isoformat (PyDate.mkdate 2026 10 14))
      = true.
Proof.
  apply (integer_dates_sort_in_order 67800 67857); reflexivity.
Defined.
